(** * Ashlocks booking backend: availability engine and booking lifecycle

    A shallow embedding of [BookingModel] (backend/src/models/Booking.ts) and
    [BookingService] (backend/src/services/bookingService.ts), followed by the
    properties of the availability grid, the conflict test, booking creation,
    status transitions and the revenue aggregate.

    Conventions of the embedding.
    - The two Postgres tables are lists of rows, in table order; a query is a
      [filter] over the list, [.first()] is [find].
    - JavaScript numbers are exact rationals plus [NaN], without the rounding
      of doubles; every number the modelled code handles is an hour, a
      duration in minutes or a quotient of a duration by 60.
    - The [booking_time] column is kept as the text the driver hands back
      ([HH:MM:SS], or the [HH:MM] of the request); the code only reads the
      part before the first colon.
    - [decimal(10,2)] columns hold an amount in cents.
    - A calendar date is its day number, a timestamp its millisecond count.
    - [BookingModel] describes the statements that the database executes;
      the statements it refuses, which the [catch] blocks turn into a 500, are
      added in [Guarded], over the functions of [BookingModel].
    - The values the database draws on insert ([gen_random_uuid()],
      [CURRENT_TIMESTAMP]) and the readings of [new Date()] are explicit
      arguments. *)

From Stdlib Require Import ZArith QArith List String Ascii Bool Lia DecimalString.
From Stdlib Require Import Sorted Permutation.
Import ListNotations.

Open Scope string_scope.
Open Scope Z_scope.

(** ** The JavaScript primitives the booking code relies on *)

Module JS.

(** A JavaScript number: [None] is [NaN]. *)
Definition number : Type := option Q.

Definition NaN : number := None.

Definition of_int (z : Z) : number := Some (inject_Z z).

(** [a + b] *)
Definition add (a b : number) : number :=
  match a, b with
  | Some x, Some y => Some (x + y)%Q
  | _, _ => NaN
  end.

(** [a / b] for a divisor other than zero (the booking code only ever divides
    by the literal 60). *)
Definition div (a b : number) : number :=
  match a, b with
  | Some x, Some y => if Qeq_bool y 0 then NaN else Some (x / y)%Q
  | _, _ => NaN
  end.

Definition Qltb (x y : Q) : bool :=
  (Qnum x * QDen y <? Qnum y * QDen x)%Z.

(** [a < b]: false as soon as one side is [NaN]. *)
Definition lt (a b : number) : bool :=
  match a, b with
  | Some x, Some y => Qltb x y
  | _, _ => false
  end.

(** [a > b] *)
Definition gt (a b : number) : bool := lt b a.

(** [s.split(sep)] for a one-character separator. *)
Fixpoint split (sep : ascii) (s : string) : list string :=
  match s with
  | EmptyString => [EmptyString]
  | String c r =>
      if Ascii.eqb c sep then EmptyString :: split sep r
      else match split sep r with
           | h :: t => String c h :: t
           | [] => [String c EmptyString]
           end
  end.

(** [xs[i]] on an array of strings; an index out of range gives [undefined],
    which [parseInt] reads as it reads the empty string. *)
Definition index (xs : list string) (i : nat) : string := nth i xs EmptyString.

Definition is_white_space (c : ascii) : bool :=
  let n := nat_of_ascii c in
  (Nat.eqb n 32 || (Nat.leb 9 n && Nat.leb n 13))%bool.

Fixpoint trim_start (s : string) : string :=
  match s with
  | EmptyString => EmptyString
  | String c r => if is_white_space c then trim_start r else s
  end.

Definition digit_value (c : ascii) : option Z :=
  let n := Z.of_nat (nat_of_ascii c) in
  if (48 <=? n) && (n <=? 57) then Some (n - 48)
  else if (97 <=? n) && (n <=? 122) then Some (n - 97 + 10)
  else if (65 <=? n) && (n <=? 90) then Some (n - 65 + 10)
  else None.

(** The longest prefix of digits of the radix; [acc] is [None] until the
    first digit is read. *)
Fixpoint parse_digits (radix : Z) (s : string) (acc : option Z) : option Z :=
  match s with
  | EmptyString => acc
  | String c r =>
      match digit_value c with
      | Some d =>
          if d <? radix
          then parse_digits radix r
                 (Some (radix * match acc with Some a => a | None => 0 end + d))
          else acc
      | None => acc
      end
  end.

(** [parseInt(s)] with no radix argument. *)
Definition parseInt (s : string) : number :=
  let s1 := trim_start s in
  let (sign, s2) :=
    match s1 with
    | String "-"%char r => (-1, r)
    | String "+"%char r => (1, r)
    | _ => (1, s1)
    end in
  let (radix, s3) :=
    match s2 with
    | String "0"%char (String "x"%char r) => (16, r)
    | String "0"%char (String "X"%char r) => (16, r)
    | _ => (10, s2)
    end in
  match parse_digits radix s3 None with
  | Some n => of_int (sign * n)
  | None => NaN
  end.

(** [n.toString()] for an integer. *)
Definition toString (n : Z) : string := NilZero.string_of_int (Z.to_int n).

Fixpoint repeat_to (fill cur : string) (n : nat) : string :=
  match n with
  | O => EmptyString
  | S n' =>
      match cur with
      | EmptyString =>
          match fill with
          | EmptyString => EmptyString
          | String c r => String c (repeat_to fill r n')
          end
      | String c r => String c (repeat_to fill r n')
      end
  end.

(** [s.padStart(targetLength, padString)] *)
Definition padStart (targetLength : nat) (padString s : string) : string :=
  if Nat.leb targetLength (String.length s) then s
  else repeat_to padString padString (targetLength - String.length s) ++ s.

(** [x || d] on an optional string: [undefined] and the empty string are
    falsy. *)
Definition truthy_string (x : option string) : option string :=
  match x with
  | Some s => if String.eqb s EmptyString then None else Some s
  | None => None
  end.

End JS.

(** ** Data model (src/types/index.ts and the migrations) *)

Definition uuid : Type := string.
Definition date : Type := Z.
Definition timestamp : Type := Z.
Definition money : Type := Z.

Inductive BookingStatus : Type :=
  | pending | confirmed | in_progress | completed | cancelled | no_show.

Inductive Priority : Type := low | medium | high | emergency.

Inductive ServiceType : Type :=
  | lock_installation | lock_repair | lock_maintenance | emergency_service.

Inductive Category : Type :=
  | cat_installation | cat_repair | cat_maintenance | cat_emergency.

Definition status_eqb (a b : BookingStatus) : bool :=
  match a, b with
  | pending, pending | confirmed, confirmed | in_progress, in_progress
  | completed, completed | cancelled, cancelled | no_show, no_show => true
  | _, _ => false
  end.

(** [CustomError] of middleware/errorHandler.ts. *)
Record CustomError : Type := mkError { message : string; statusCode : Z }.

Inductive result (A : Type) : Type :=
  | Ok (a : A)
  | Throw (e : CustomError).
Arguments Ok {A} a.
Arguments Throw {A} e.

(** The errors the booking code raises, under the names of the error
    taxonomy. *)
Definition ServiceNotAvailable : CustomError := mkError "Service not available" 404.
Definition ServiceNotFound : CustomError := mkError "Service not found" 404.
Definition SlotUnavailable : CustomError :=
  mkError "Selected time slot is not available" 400.
Definition BookingNotFound : CustomError := mkError "Booking not found" 404.

(** A row of the [services] table (002_create_services_table). *)
Module DbService.
Record t : Type := mk {
  id : uuid;
  name : string;
  category : Category;
  base_price : money;
  estimated_duration : Z;
  is_active : bool;
  is_available_for_booking : bool
}.
End DbService.

(** A row of the [bookings] table (create_bookings migration). *)
Module DbBooking.
Record t : Type := mk {
  id : uuid;
  user_id : option uuid;
  service_id : option uuid;
  service : string;
  service_type : ServiceType;
  booking_date : date;
  booking_time : string;
  duration : Z;
  status : BookingStatus;
  priority : Priority;
  customer_name : string;
  customer_phone : string;
  customer_email : string;
  service_address : string;
  service_description : option string;
  special_instructions : option string;
  estimated_cost : option money;
  actual_cost : option money;
  assigned_technician : option string;
  notes : option string;
  confirmed_at : option timestamp;
  started_at : option timestamp;
  completed_at : option timestamp;
  created_at : timestamp;
  updated_at : timestamp
}.
End DbBooking.

(** The persistent store: both tables, rows in table order. *)
Record Db : Type := mkDb {
  services : list DbService.t;
  bookings : list DbBooking.t
}.

(** What the database draws when a row is inserted without these columns. *)
Record InsertDefaults : Type := mkDefaults {
  gen_random_uuid : uuid;
  current_timestamp : timestamp
}.

(** [interface Booking] *)
Module Booking.
Record t : Type := mk {
  id : uuid;
  userId : option uuid;
  service : string;
  serviceType : ServiceType;
  bookingDate : date;
  bookingTime : string;
  duration : Z;
  status : BookingStatus;
  priority : Priority;
  customerName : string;
  customerPhone : string;
  customerEmail : string;
  serviceAddress : string;
  serviceDescription : option string;
  specialInstructions : option string;
  estimatedCost : option money;
  actualCost : option money;
  assignedTechnician : option string;
  notes : option string;
  createdAt : timestamp;
  updatedAt : timestamp
}.
End Booking.

(** [interface CreateBookingRequest]; an optional field is [None] when it is
    [undefined]. *)
Module CreateBookingRequest.
Record t : Type := mk {
  service : string;
  serviceType : ServiceType;
  bookingDate : date;
  bookingTime : string;
  customerName : string;
  customerPhone : string;
  customerEmail : string;
  serviceAddress : string;
  serviceDescription : option string;
  specialInstructions : option string;
  priority : option Priority
}.
End CreateBookingRequest.

(** [interface UpdateBookingRequest] *)
Module UpdateBookingRequest.
Record t : Type := mk {
  status : option BookingStatus;
  bookingDate : option date;
  bookingTime : option string;
  serviceDescription : option string;
  specialInstructions : option string;
  priority : option Priority;
  estimatedCost : option money;
  actualCost : option money;
  assignedTechnician : option string;
  notes : option string
}.

(** The request [{ status }] that [updateBookingStatus] builds. *)
Definition only_status (s : BookingStatus) : t :=
  mk (Some s) None None None None None None None None None.
End UpdateBookingRequest.

(** [{ time, available }] *)
Record TimeSlot : Type := mkSlot { time : string; available : bool }.

(** The object [updateData] of [BookingModel.update]: a column is [None]
    when the object has no such key. *)
Module UpdateData.
Record t : Type := mk {
  updated_at : timestamp;
  status : option BookingStatus;
  confirmed_at : option timestamp;
  started_at : option timestamp;
  completed_at : option timestamp;
  booking_date : option date;
  booking_time : option string;
  service_description : option string;
  special_instructions : option string;
  priority : option Priority;
  estimated_cost : option money;
  actual_cost : option money;
  assigned_technician : option string;
  notes : option string
}.
End UpdateData.

(** [{ total, pending, confirmed, completed, cancelled, revenue }] *)
Module Stats.
Record t : Type := mk {
  total : Z;
  pending : Z;
  confirmed : Z;
  completed : Z;
  cancelled : Z;
  revenue : Z
}.
End Stats.

(** ** SQL helpers *)

Module Sql.

(** [SUM(e)]: [NULL] values are skipped, the sum of no value is [NULL]. *)
Definition sum (xs : list (option Z)) : option Z :=
  fold_left
    (fun acc x =>
       match x with
       | None => acc
       | Some v => Some (match acc with Some a => a + v | None => v end)
       end)
    xs None.

(** [COALESCE(x, d)] *)
Definition coalesce (x : option Z) (d : Z) : Z :=
  match x with Some v => v | None => d end.

(** [COUNT(CASE WHEN p THEN 1 END)] *)
Definition count_when {A : Type} (p : A -> bool) (rows : list A) : Z :=
  Z.of_nat (List.length (filter p rows)).

(** [whereNotIn('status', xs)] *)
Definition status_in (s : BookingStatus) (xs : list BookingStatus) : bool :=
  existsb (status_eqb s) xs.

(** [UPDATE ... SET col = v] for a key of the update object; a column whose
    key is absent keeps its value. *)
Definition set {A : Type} (u : option A) (old : A) : A :=
  match u with Some v => v | None => old end.

Definition set_nullable {A : Type} (u : option A) (old : option A) : option A :=
  match u with Some v => Some v | None => old end.

(** [ORDER BY booking_date ASC, booking_time ASC]; the time column is compared
    on its text form [HH:MM:SS]. *)
Definition date_time_leb (a b : DbBooking.t) : bool :=
  (DbBooking.booking_date a <? DbBooking.booking_date b)
  || ((DbBooking.booking_date a =? DbBooking.booking_date b)
      && String.leb (DbBooking.booking_time a) (DbBooking.booking_time b)).

Fixpoint insert_by (leb : DbBooking.t -> DbBooking.t -> bool)
  (x : DbBooking.t) (l : list DbBooking.t) : list DbBooking.t :=
  match l with
  | [] => [x]
  | y :: l' => if leb x y then x :: l else y :: insert_by leb x l'
  end.

Definition order_by (leb : DbBooking.t -> DbBooking.t -> bool)
  (l : list DbBooking.t) : list DbBooking.t :=
  fold_right (insert_by leb) [] l.

End Sql.

(** ** [class BookingModel] (models/Booking.ts) *)

Module BookingModel.

(** [mapDatabaseBookingToBooking] *)
Definition mapDatabaseBookingToBooking (dbBooking : DbBooking.t) : Booking.t :=
  {| Booking.id := DbBooking.id dbBooking;
     Booking.userId := DbBooking.user_id dbBooking;
     Booking.service := DbBooking.service dbBooking;
     Booking.serviceType := DbBooking.service_type dbBooking;
     Booking.bookingDate := DbBooking.booking_date dbBooking;
     Booking.bookingTime := DbBooking.booking_time dbBooking;
     Booking.duration := DbBooking.duration dbBooking;
     Booking.status := DbBooking.status dbBooking;
     Booking.priority := DbBooking.priority dbBooking;
     Booking.customerName := DbBooking.customer_name dbBooking;
     Booking.customerPhone := DbBooking.customer_phone dbBooking;
     Booking.customerEmail := DbBooking.customer_email dbBooking;
     Booking.serviceAddress := DbBooking.service_address dbBooking;
     Booking.serviceDescription := DbBooking.service_description dbBooking;
     Booking.specialInstructions := DbBooking.special_instructions dbBooking;
     Booking.estimatedCost := DbBooking.estimated_cost dbBooking;
     Booking.actualCost := DbBooking.actual_cost dbBooking;
     Booking.assignedTechnician := DbBooking.assigned_technician dbBooking;
     Booking.notes := DbBooking.notes dbBooking;
     Booking.createdAt := DbBooking.created_at dbBooking;
     Booking.updatedAt := DbBooking.updated_at dbBooking |}.

(** The row that the [insert] of [create] stores: the columns the insert
    object names, the others at their column defaults ([status] defaults to
    ['pending'], the nullable columns to [NULL], both timestamps to the
    current time). *)
Definition inserted_row (defaults : InsertDefaults) (service : DbService.t)
  (bookingData : CreateBookingRequest.t) (userId : option uuid) : DbBooking.t :=
  {| DbBooking.id := gen_random_uuid defaults;
     DbBooking.user_id := JS.truthy_string userId;
     DbBooking.service_id := Some (DbService.id service);
     DbBooking.service := CreateBookingRequest.service bookingData;
     DbBooking.service_type := CreateBookingRequest.serviceType bookingData;
     DbBooking.booking_date := CreateBookingRequest.bookingDate bookingData;
     DbBooking.booking_time := CreateBookingRequest.bookingTime bookingData;
     DbBooking.duration := DbService.estimated_duration service;
     DbBooking.status := pending;
     DbBooking.priority :=
       match CreateBookingRequest.priority bookingData with
       | Some p => p
       | None => medium
       end;
     DbBooking.customer_name := CreateBookingRequest.customerName bookingData;
     DbBooking.customer_phone := CreateBookingRequest.customerPhone bookingData;
     DbBooking.customer_email := CreateBookingRequest.customerEmail bookingData;
     DbBooking.service_address := CreateBookingRequest.serviceAddress bookingData;
     DbBooking.service_description :=
       CreateBookingRequest.serviceDescription bookingData;
     DbBooking.special_instructions :=
       CreateBookingRequest.specialInstructions bookingData;
     DbBooking.estimated_cost := Some (DbService.base_price service);
     DbBooking.actual_cost := None;
     DbBooking.assigned_technician := None;
     DbBooking.notes := None;
     DbBooking.confirmed_at := None;
     DbBooking.started_at := None;
     DbBooking.completed_at := None;
     DbBooking.created_at := current_timestamp defaults;
     DbBooking.updated_at := current_timestamp defaults |}.

(** [static async create(bookingData, userId?)] *)
Definition create (defaults : InsertDefaults) (db : Db)
  (bookingData : CreateBookingRequest.t) (userId : option uuid)
  : Db * result Booking.t :=
  let service :=
    find (fun s => String.eqb (DbService.name s)
                     (CreateBookingRequest.service bookingData))
         (services db) in
  match service with
  | None => (db, Throw ServiceNotFound)
  | Some service =>
      let booking := inserted_row defaults service bookingData userId in
      (mkDb (services db) (bookings db ++ [booking]),
       Ok (mapDatabaseBookingToBooking booking))
  end.

(** [static async findById(id)], for an id the database takes. *)
Definition findById (db : Db) (id : uuid) : option Booking.t :=
  match find (fun b => String.eqb (DbBooking.id b) id) (bookings db) with
  | None => None
  | Some booking => Some (mapDatabaseBookingToBooking booking)
  end.

(** The object [updateData] that [update] fills in; [now0] is the reading of
    the clock for [updated_at], [now1] the one for a transition timestamp. *)
Definition updateData (now0 now1 : timestamp) (updates : UpdateBookingRequest.t)
  : UpdateData.t :=
  let status := UpdateBookingRequest.status updates in
  {| UpdateData.updated_at := now0;
     UpdateData.status := status;
     UpdateData.confirmed_at :=
       match status with Some confirmed => Some now1 | _ => None end;
     UpdateData.started_at :=
       match status with Some in_progress => Some now1 | _ => None end;
     UpdateData.completed_at :=
       match status with Some completed => Some now1 | _ => None end;
     UpdateData.booking_date := UpdateBookingRequest.bookingDate updates;
     UpdateData.booking_time :=
       JS.truthy_string (UpdateBookingRequest.bookingTime updates);
     UpdateData.service_description :=
       JS.truthy_string (UpdateBookingRequest.serviceDescription updates);
     UpdateData.special_instructions :=
       JS.truthy_string (UpdateBookingRequest.specialInstructions updates);
     UpdateData.priority := UpdateBookingRequest.priority updates;
     UpdateData.estimated_cost := UpdateBookingRequest.estimatedCost updates;
     UpdateData.actual_cost := UpdateBookingRequest.actualCost updates;
     UpdateData.assigned_technician :=
       JS.truthy_string (UpdateBookingRequest.assignedTechnician updates);
     UpdateData.notes := JS.truthy_string (UpdateBookingRequest.notes updates) |}.

(** [.update(updateData)] on one row. *)
Definition apply_update (u : UpdateData.t) (row : DbBooking.t) : DbBooking.t :=
  {| DbBooking.id := DbBooking.id row;
     DbBooking.user_id := DbBooking.user_id row;
     DbBooking.service_id := DbBooking.service_id row;
     DbBooking.service := DbBooking.service row;
     DbBooking.service_type := DbBooking.service_type row;
     DbBooking.booking_date :=
       Sql.set (UpdateData.booking_date u) (DbBooking.booking_date row);
     DbBooking.booking_time :=
       Sql.set (UpdateData.booking_time u) (DbBooking.booking_time row);
     DbBooking.duration := DbBooking.duration row;
     DbBooking.status := Sql.set (UpdateData.status u) (DbBooking.status row);
     DbBooking.priority :=
       Sql.set (UpdateData.priority u) (DbBooking.priority row);
     DbBooking.customer_name := DbBooking.customer_name row;
     DbBooking.customer_phone := DbBooking.customer_phone row;
     DbBooking.customer_email := DbBooking.customer_email row;
     DbBooking.service_address := DbBooking.service_address row;
     DbBooking.service_description :=
       Sql.set_nullable (UpdateData.service_description u)
         (DbBooking.service_description row);
     DbBooking.special_instructions :=
       Sql.set_nullable (UpdateData.special_instructions u)
         (DbBooking.special_instructions row);
     DbBooking.estimated_cost :=
       Sql.set_nullable (UpdateData.estimated_cost u)
         (DbBooking.estimated_cost row);
     DbBooking.actual_cost :=
       Sql.set_nullable (UpdateData.actual_cost u) (DbBooking.actual_cost row);
     DbBooking.assigned_technician :=
       Sql.set_nullable (UpdateData.assigned_technician u)
         (DbBooking.assigned_technician row);
     DbBooking.notes :=
       Sql.set_nullable (UpdateData.notes u) (DbBooking.notes row);
     DbBooking.confirmed_at :=
       Sql.set_nullable (UpdateData.confirmed_at u) (DbBooking.confirmed_at row);
     DbBooking.started_at :=
       Sql.set_nullable (UpdateData.started_at u) (DbBooking.started_at row);
     DbBooking.completed_at :=
       Sql.set_nullable (UpdateData.completed_at u) (DbBooking.completed_at row);
     DbBooking.created_at := DbBooking.created_at row;
     DbBooking.updated_at := UpdateData.updated_at u |}.

(** [db('bookings').where('id', id).update(u)]: the table after the
    statement. *)
Definition update_where_id (id : uuid) (f : DbBooking.t -> DbBooking.t)
  (rows : list DbBooking.t) : list DbBooking.t :=
  map (fun row => if String.eqb (DbBooking.id row) id then f row else row) rows.

(** [.returning(['*'])] of that statement: the rows it changed. *)
Definition returning_where_id (id : uuid) (f : DbBooking.t -> DbBooking.t)
  (rows : list DbBooking.t) : list DbBooking.t :=
  map f (filter (fun row => String.eqb (DbBooking.id row) id) rows).

(** [static async update(id, updates)], for a statement the database
    executes. *)
Definition update (now0 now1 : timestamp) (db : Db) (id : uuid)
  (updates : UpdateBookingRequest.t) : Db * result Booking.t :=
  let u := updateData now0 now1 updates in
  let db' := mkDb (services db) (update_where_id id (apply_update u) (bookings db)) in
  match returning_where_id id (apply_update u) (bookings db) with
  | [] => (db', Throw BookingNotFound)
  | booking :: _ => (db', Ok (mapDatabaseBookingToBooking booking))
  end.

(** The update object [{ status: 'cancelled', updated_at: new Date() }] of
    [delete]. *)
Definition cancelData (now : timestamp) : UpdateData.t :=
  {| UpdateData.updated_at := now;
     UpdateData.status := Some cancelled;
     UpdateData.confirmed_at := None;
     UpdateData.started_at := None;
     UpdateData.completed_at := None;
     UpdateData.booking_date := None;
     UpdateData.booking_time := None;
     UpdateData.service_description := None;
     UpdateData.special_instructions := None;
     UpdateData.priority := None;
     UpdateData.estimated_cost := None;
     UpdateData.actual_cost := None;
     UpdateData.assigned_technician := None;
     UpdateData.notes := None |}.

(** [static async delete(id)], for an id the database takes. *)
Definition delete (now : timestamp) (db : Db) (id : uuid) : Db * result unit :=
  let u := cancelData now in
  let db' := mkDb (services db) (update_where_id id (apply_update u) (bookings db)) in
  match returning_where_id id (apply_update u) (bookings db) with
  | [] => (db', Throw BookingNotFound)
  | _ :: _ => (db', Ok tt)
  end.

(** The loop [for (let hour = startHour; hour < endHour; hour++)] that fills
    [timeSlots]; [fuel] bounds the number of iterations. *)
Fixpoint push_slots (fuel : nat) (hour endHour : Z) (timeSlots : list TimeSlot)
  : list TimeSlot :=
  match fuel with
  | O => timeSlots
  | S fuel' =>
      if hour <? endHour then
        let timeString := JS.padStart 2 "0" (JS.toString hour) ++ ":00" in
        push_slots fuel' (hour + 1) endHour
          (timeSlots ++ [mkSlot timeString true])
      else timeSlots
  end.

(** [parseInt(t.split(':')[0])] *)
Definition hour_of (t : string) : JS.number :=
  JS.parseInt (JS.index (JS.split ":" t) 0).

(** The rows of [existingBookings], projected on
    [select('booking_time', 'duration')]. *)
Definition existingBookings (db : Db) (service : string) (date : date)
  : list (string * Z) :=
  map (fun b => (DbBooking.booking_time b, DbBooking.duration b))
    (filter
       (fun b =>
          (DbBooking.booking_date b =? date)
          && String.eqb (DbBooking.service b) service
          && negb (Sql.status_in (DbBooking.status b) [cancelled; no_show]))
       (bookings db)).

(** The callback of [existingBookings.some(...)]. *)
Definition conflicts (slotStart slotEnd : JS.number) (booking : string * Z) : bool :=
  let bookingHour := hour_of (fst booking) in
  let bookingEnd := JS.add bookingHour (JS.div (JS.of_int (snd booking)) (JS.of_int 60)) in
  JS.lt slotStart bookingEnd && JS.gt slotEnd bookingHour.

(** The callback of [timeSlots.map(...)]. *)
Definition mark_slot (duration : Z) (existing : list (string * Z)) (slot : TimeSlot)
  : TimeSlot :=
  let slotStart := hour_of (time slot) in
  let slotEnd := JS.add slotStart (JS.div (JS.of_int duration) (JS.of_int 60)) in
  let hasConflict := existsb (conflicts slotStart slotEnd) existing in
  mkSlot (time slot) (negb hasConflict).

(** The service lookup of [getAvailableSlots]. *)
Definition bookable_service (db : Db) (service : string) : option DbService.t :=
  find
    (fun s =>
       String.eqb (DbService.name s) service
       && Bool.eqb (DbService.is_active s) true
       && Bool.eqb (DbService.is_available_for_booking s) true)
    (services db).

(** [static async getAvailableSlots(service, date)] *)
Definition getAvailableSlots (db : Db) (service : string) (date : date)
  : result (list TimeSlot) :=
  match bookable_service db service with
  | None => Throw ServiceNotAvailable
  | Some serviceData =>
      let startHour := 9 in
      let endHour := 17 in
      let duration := DbService.estimated_duration serviceData in
      let timeSlots :=
        push_slots (Z.to_nat (endHour - startHour)) startHour endHour [] in
      let existing := existingBookings db service date in
      let availableSlots := map (mark_slot duration existing) timeSlots in
      Ok availableSlots
  end.

(** [static async getBookingsByDateRange(startDate, endDate, technician?)] *)
Definition getBookingsByDateRange (db : Db) (startDate endDate : date)
  (technician : option string) : list Booking.t :=
  let query :=
    filter
      (fun b =>
         (startDate <=? DbBooking.booking_date b)
         && (DbBooking.booking_date b <=? endDate)
         && negb (Sql.status_in (DbBooking.status b) [cancelled; no_show]))
      (bookings db) in
  let query :=
    match JS.truthy_string technician with
    | Some technician =>
        filter
          (fun b =>
             match DbBooking.assigned_technician b with
             | Some t => String.eqb t technician
             | None => false
             end)
          query
    | None => query
    end in
  map mapDatabaseBookingToBooking (Sql.order_by Sql.date_time_leb query).

(** The [where] clauses of [getBookingStats]: a bound that is [undefined] or
    the empty string ([None]) adds no clause. *)
Definition in_range (startDate endDate : option date) (b : DbBooking.t) : bool :=
  match startDate with
  | Some d => d <=? DbBooking.booking_date b
  | None => true
  end
  && match endDate with
     | Some d => DbBooking.booking_date b <=? d
     | None => true
     end.

(** [CASE WHEN actual_cost IS NOT NULL THEN actual_cost ELSE estimated_cost END] *)
Definition cost_case (b : DbBooking.t) : option money :=
  match DbBooking.actual_cost b with
  | Some c => Some c
  | None => DbBooking.estimated_cost b
  end.

(** [x || 0] on a number that is not [NaN]. *)
Definition or_zero (x : Z) : Z := if x =? 0 then 0 else x.

(** [static async getBookingStats(startDate?, endDate?)] *)
Definition getBookingStats (db : Db) (startDate endDate : option date) : Stats.t :=
  let rows := filter (in_range startDate endDate) (bookings db) in
  let has s := fun b => status_eqb (DbBooking.status b) s in
  {| Stats.total := or_zero (Z.of_nat (List.length rows));
     Stats.pending := or_zero (Sql.count_when (has pending) rows);
     Stats.confirmed := or_zero (Sql.count_when (has confirmed) rows);
     Stats.completed := or_zero (Sql.count_when (has completed) rows);
     Stats.cancelled := or_zero (Sql.count_when (has cancelled) rows);
     Stats.revenue := or_zero (Sql.coalesce (Sql.sum (map cost_case rows)) 0) |}.

End BookingModel.

(** ** [class BookingService] (services/bookingService.ts) *)

Module BookingService.

(** The first half of [createBooking]: the availability of the requested
    slot, up to the [throw] of lines 15-17. *)
Definition checkRequestedSlot (db : Db) (bookingData : CreateBookingRequest.t)
  : result unit :=
  match BookingModel.getAvailableSlots db
          (CreateBookingRequest.service bookingData)
          (CreateBookingRequest.bookingDate bookingData) with
  | Throw e => Throw e
  | Ok availableSlots =>
      let requestedTimeSlot :=
        find (fun slot =>
                String.eqb (time slot) (CreateBookingRequest.bookingTime bookingData))
             availableSlots in
      match requestedTimeSlot with
      | None => Throw SlotUnavailable
      | Some slot =>
          if negb (available slot) then Throw SlotUnavailable else Ok tt
      end
  end.

(** [static async createBooking(bookingData, userId?)] *)
Definition createBooking (defaults : InsertDefaults) (db : Db)
  (bookingData : CreateBookingRequest.t) (userId : option uuid)
  : Db * result Booking.t :=
  match checkRequestedSlot db bookingData with
  | Throw e => (db, Throw e)
  | Ok _ => BookingModel.create defaults db bookingData userId
  end.

(** [static async updateBooking(id, updates)] *)
Definition updateBooking (now0 now1 : timestamp) (db : Db) (id : uuid)
  (updates : UpdateBookingRequest.t) : Db * result Booking.t :=
  BookingModel.update now0 now1 db id updates.

(** [static async updateBookingStatus(id, status)] *)
Definition updateBookingStatus (now0 now1 : timestamp) (db : Db) (id : uuid)
  (status : BookingStatus) : Db * result Booking.t :=
  BookingModel.update now0 now1 db id (UpdateBookingRequest.only_status status).

(** [static async cancelBooking(id)] *)
Definition cancelBooking (now : timestamp) (db : Db) (id : uuid)
  : Db * result unit :=
  BookingModel.delete now db id.

(** [static async getAvailableSlots(service, date)] *)
Definition getAvailableSlots (db : Db) (service : string) (date : date)
  : result (list TimeSlot) :=
  BookingModel.getAvailableSlots db service date.

(** [static async getBookingsByDateRange(startDate, endDate, technician?)] *)
Definition getBookingsByDateRange (db : Db) (startDate endDate : date)
  (technician : option string) : list Booking.t :=
  BookingModel.getBookingsByDateRange db startDate endDate technician.

(** [static async getBookingStats(dateFrom?, dateTo?)] *)
Definition getBookingStats (db : Db) (dateFrom dateTo : option date) : Stats.t :=
  BookingModel.getBookingStats db dateFrom dateTo.

End BookingService.

(** ** Two [createBooking] calls in flight

    A call is suspended at each [await]; the event loop resumes one suspended
    call at a time, and what a call does between two suspension points is
    atomic.  [createBooking] awaits [BookingModel.getAvailableSlots], then
    [BookingModel.create]. *)

Module EventLoop.

Inductive Call : Type :=
  | AwaitSlots (bookingData : CreateBookingRequest.t) (userId : option uuid)
  | AwaitCreate (bookingData : CreateBookingRequest.t) (userId : option uuid)
  | Returned (r : result Booking.t).

(** Resume a call until its next suspension point. *)
Definition resume (defaults : InsertDefaults) (db : Db) (c : Call) : Db * Call :=
  match c with
  | AwaitSlots bookingData userId =>
      match BookingService.checkRequestedSlot db bookingData with
      | Throw e => (db, Returned (Throw e))
      | Ok _ => (db, AwaitCreate bookingData userId)
      end
  | AwaitCreate bookingData userId =>
      let (db', r) := BookingModel.create defaults db bookingData userId in
      (db', Returned r)
  | Returned r => (db, Returned r)
  end.

Inductive Turn : Type := First | Second.

(** Run two calls under a schedule; [d1] and [d2] are what the database draws
    for the insert of the first and of the second call. *)
Fixpoint run (d1 d2 : InsertDefaults) (schedule : list Turn)
  (db : Db) (c1 c2 : Call) : Db * Call * Call :=
  match schedule with
  | [] => (db, c1, c2)
  | First :: schedule' =>
      let (db', c1') := resume d1 db c1 in run d1 d2 schedule' db' c1' c2
  | Second :: schedule' =>
      let (db', c2') := resume d2 db c2 in run d1 d2 schedule' db' c1 c2'
  end.

End EventLoop.

(** ** Reference definitions, after the wording of the specification *)

Module Reference.

(** The contribution of one booking to the revenue: its actual cost when
    there is one, its estimated cost otherwise, 0 when both are null. *)
Definition contribution (b : DbBooking.t) : money :=
  match DbBooking.actual_cost b, DbBooking.estimated_cost b with
  | Some c, _ => c
  | None, Some c => c
  | None, None => 0
  end.

(** The booking date lies in the optional range. *)
Definition in_date_range (dateFrom dateTo : option date) (b : DbBooking.t) : Prop :=
  (forall d, dateFrom = Some d -> d <= DbBooking.booking_date b)
  /\ (forall d, dateTo = Some d -> DbBooking.booking_date b <= d).

(** The sum of the contributions of the bookings of the list that satisfy
    [keep]. *)
Fixpoint revenue (keep : DbBooking.t -> bool) (rows : list DbBooking.t) : money :=
  match rows with
  | [] => 0
  | b :: rows' =>
      if keep b then contribution b + revenue keep rows' else revenue keep rows'
  end.

(** The candidate grid: one slot per whole hour from 09:00 to 16:00. *)
Definition grid_times : list string :=
  ["09:00"; "10:00"; "11:00"; "12:00"; "13:00"; "14:00"; "15:00"; "16:00"].

(** The overlap of the slot [S, S + D/60) with the booking [B, B + Db/60),
    hours [S] and [B], durations [D] and [Db] in minutes. *)
Definition overlap (S D B Db : Z) : Prop :=
  (inject_Z S < inject_Z B + inject_Z Db / 60)%Q
  /\ (inject_Z S + inject_Z D / 60 > inject_Z B)%Q.

(** A status that takes a booking out of the conflict check and of the
    calendar. *)
Definition inactive (s : BookingStatus) : Prop := s = cancelled \/ s = no_show.

(** A nullable text column that is null or empty. *)
Definition blank (x : option string) : Prop := x = None \/ x = Some EmptyString.

(** Every column whose request field is omitted (or, for the fields tested
    for truthiness, empty) has the same value in [new] as in [old]; the
    transition timestamps go with the status field. *)
Definition omitted_unchanged (updates : UpdateBookingRequest.t)
  (old new : DbBooking.t) : Prop :=
  (UpdateBookingRequest.status updates = None ->
   DbBooking.status new = DbBooking.status old)
  /\ (UpdateBookingRequest.bookingDate updates = None ->
      DbBooking.booking_date new = DbBooking.booking_date old)
  /\ (JS.truthy_string (UpdateBookingRequest.bookingTime updates) = None ->
      DbBooking.booking_time new = DbBooking.booking_time old)
  /\ (JS.truthy_string (UpdateBookingRequest.serviceDescription updates) = None ->
      DbBooking.service_description new = DbBooking.service_description old)
  /\ (JS.truthy_string (UpdateBookingRequest.specialInstructions updates) = None ->
      DbBooking.special_instructions new = DbBooking.special_instructions old)
  /\ (UpdateBookingRequest.priority updates = None ->
      DbBooking.priority new = DbBooking.priority old)
  /\ (UpdateBookingRequest.estimatedCost updates = None ->
      DbBooking.estimated_cost new = DbBooking.estimated_cost old)
  /\ (UpdateBookingRequest.actualCost updates = None ->
      DbBooking.actual_cost new = DbBooking.actual_cost old)
  /\ (JS.truthy_string (UpdateBookingRequest.assignedTechnician updates) = None ->
      DbBooking.assigned_technician new = DbBooking.assigned_technician old)
  /\ (JS.truthy_string (UpdateBookingRequest.notes updates) = None ->
      DbBooking.notes new = DbBooking.notes old)
  /\ (UpdateBookingRequest.status updates = None ->
      DbBooking.confirmed_at new = DbBooking.confirmed_at old)
  /\ (UpdateBookingRequest.status updates = None ->
      DbBooking.started_at new = DbBooking.started_at old)
  /\ (UpdateBookingRequest.status updates = None ->
      DbBooking.completed_at new = DbBooking.completed_at old).

(** No optional text column goes from a value to null or empty: a column
    that is blank in [new] has the value it had in [old]. *)
Definition text_not_cleared (old new : DbBooking.t) : Prop :=
  (blank (DbBooking.notes new) -> DbBooking.notes new = DbBooking.notes old)
  /\ (blank (DbBooking.assigned_technician new) ->
      DbBooking.assigned_technician new = DbBooking.assigned_technician old)
  /\ (blank (DbBooking.special_instructions new) ->
      DbBooking.special_instructions new = DbBooking.special_instructions old)
  /\ (blank (DbBooking.service_description new) ->
      DbBooking.service_description new = DbBooking.service_description old).

(** The columns that no request field names, [updated_at] and the three
    transition timestamps apart, are the same in [new] as in [old]. *)
Definition other_columns_kept (old new : DbBooking.t) : Prop :=
  DbBooking.id new = DbBooking.id old
  /\ DbBooking.user_id new = DbBooking.user_id old
  /\ DbBooking.service_id new = DbBooking.service_id old
  /\ DbBooking.service new = DbBooking.service old
  /\ DbBooking.service_type new = DbBooking.service_type old
  /\ DbBooking.duration new = DbBooking.duration old
  /\ DbBooking.customer_name new = DbBooking.customer_name old
  /\ DbBooking.customer_phone new = DbBooking.customer_phone old
  /\ DbBooking.customer_email new = DbBooking.customer_email old
  /\ DbBooking.service_address new = DbBooking.service_address old
  /\ DbBooking.created_at new = DbBooking.created_at old.

(** A transition timestamp that is set in [old] is set in [new]. *)
Definition timestamps_not_cleared (old new : DbBooking.t) : Prop :=
  (DbBooking.confirmed_at old <> None -> DbBooking.confirmed_at new <> None)
  /\ (DbBooking.started_at old <> None -> DbBooking.started_at new <> None)
  /\ (DbBooking.completed_at old <> None -> DbBooking.completed_at new <> None).

(** What a status update to [s] at time [now] does to the transition
    timestamps of a row: the one of [s] is set to [now], the others keep
    their value. *)
Definition transition_stamped (s : BookingStatus) (now : timestamp)
  (old new : DbBooking.t) : Prop :=
  DbBooking.status new = s
  /\ DbBooking.confirmed_at new
     = (if status_eqb s confirmed then Some now else DbBooking.confirmed_at old)
  /\ DbBooking.started_at new
     = (if status_eqb s in_progress then Some now else DbBooking.started_at old)
  /\ DbBooking.completed_at new
     = (if status_eqb s completed then Some now else DbBooking.completed_at old).

End Reference.

(** ** A sequence of status updates *)

(** One [updateBookingStatus] call: the two readings of the clock, the
    booking id and the new status. *)
Definition StatusCall : Type := (timestamp * timestamp * uuid * BookingStatus)%type.

(** The store after a sequence of [updateBookingStatus] calls. *)
Fixpoint status_updates (calls : list StatusCall) (db : Db) : Db :=
  match calls with
  | [] => db
  | (now0, now1, id, s) :: calls' =>
      status_updates calls' (fst (BookingService.updateBookingStatus now0 now1 db id s))
  end.

(** ** Scenarios *)

Module Scenario.

(** 2024-03-15 *)
Definition day : date := 19797.

Definition lock_installation_svc : DbService.t :=
  DbService.mk "svc-1" "Lock Installation" cat_installation 15000 120 true true.

Definition empty_db : Db := mkDb [lock_installation_svc] [].

Definition request (t : string) : CreateBookingRequest.t :=
  CreateBookingRequest.mk "Lock Installation" lock_installation day t
    "John Doe" "+1-555-0123" "john@example.com" "123 Main Street" None None None.

Definition draws (id : uuid) : InsertDefaults := mkDefaults id 1000.

(** The store after a booking A at 10:00. *)
Definition db_A : Db :=
  fst (BookingService.createBooking (draws "A") empty_db (request "10:00") None).

(** The store after a booking A at 10:00 and then a booking B at 12:00. *)
Definition db_AB : Db :=
  fst (BookingService.createBooking (draws "B") db_A (request "12:00") None).

(** A booking row with the given id, status and costs, on [day] at 10:00. *)
Definition row (id : uuid) (s : BookingStatus) (estimated actual : option money)
  : DbBooking.t :=
  DbBooking.mk id None (Some "svc-1") "Lock Installation" lock_installation day
    "10:00:00" 120 s medium "John Doe" "+1-555-0123" "john@example.com"
    "123 Main Street" None None estimated actual None (Some "gate code 42")
    None None None 1000 1000.

Definition stats_db : Db :=
  mkDb [lock_installation_svc]
    [row "A" completed (Some 15000) None; row "B" completed (Some 20000) (Some 18000)].

End Scenario.

(** ** Listing queries of [BookingModel] *)

(** The text of a [status] value, as the column stores it. *)
Definition status_label (s : BookingStatus) : string :=
  match s with
  | pending => "pending"
  | confirmed => "confirmed"
  | in_progress => "in_progress"
  | completed => "completed"
  | cancelled => "cancelled"
  | no_show => "no_show"
  end.

(** The text of a [service_type] value. *)
Definition service_type_label (t : ServiceType) : string :=
  match t with
  | lock_installation => "lock_installation"
  | lock_repair => "lock_repair"
  | lock_maintenance => "lock_maintenance"
  | emergency_service => "emergency_service"
  end.

(** The [filters] argument of [findAll]; the two date bounds are [None] when
    they are [undefined] or the empty string. *)
Module BookingFilters.
Record t : Type := mk {
  userId : option uuid;
  status : option string;
  serviceType : option string;
  customerEmail : option string;
  dateFrom : option date;
  dateTo : option date;
  assignedTechnician : option string
}.

(** [{}] *)
Definition empty : t := mk None None None None None None None.

(** [{ userId }] *)
Definition of_user (userId : uuid) : t :=
  mk (Some userId) None None None None None None.
End BookingFilters.

(** [Math.ceil(total / limit)]: a number, [Infinity] or [NaN]. *)
Inductive PageCount : Type :=
  | Pages (n : Z)
  | InfinitePages
  | NaNPages.

(** [{ bookings, total, totalPages }] *)
Module Page.
Record t : Type := mk {
  bookings : list Booking.t;
  total : Z;
  totalPages : PageCount
}.
End Page.

Module Paging.

(** [ORDER BY booking_date DESC, booking_time DESC] *)
Definition date_time_desc (a b : DbBooking.t) : bool :=
  (DbBooking.booking_date b <? DbBooking.booking_date a)
  || ((DbBooking.booking_date a =? DbBooking.booking_date b)
      && String.leb (DbBooking.booking_time b) (DbBooking.booking_time a)).

(** [LIMIT limit OFFSET offset], both non-negative. *)
Definition limit_offset {A : Type} (limit offset : Z) (rows : list A) : list A :=
  firstn (Z.to_nat limit) (skipn (Z.to_nat offset) rows).

(** [Math.ceil(total / limit)] *)
Definition ceil_div (total limit : Z) : PageCount :=
  if limit =? 0 then (if total =? 0 then NaNPages else InfinitePages)
  else Pages (- ((- total) / limit)).

(** One optional [where] clause: no clause when the filter is absent. *)
Definition where_opt {A : Type} (filter : option A) (test : A -> bool) : bool :=
  match filter with
  | Some v => test v
  | None => true
  end.

Definition text_is (v : string) (column : option string) : bool :=
  match column with
  | Some c => String.eqb c v
  | None => false
  end.

End Paging.

(** [findAll], [getCustomerBookings] and the [BookingService] methods that
    hand them on. *)
Module BookingQueries.

Section WithIlike.

(** [column ILIKE pattern] of the database. *)
Variable ilike : string -> string -> bool.

(** The [where] clauses that [findAll] adds to both of its queries. *)
Definition findAll_where (filters : BookingFilters.t) (b : DbBooking.t) : bool :=
  Paging.where_opt (JS.truthy_string (BookingFilters.userId filters))
    (fun v => Paging.text_is v (DbBooking.user_id b))
  && Paging.where_opt (JS.truthy_string (BookingFilters.status filters))
       (fun v => String.eqb (status_label (DbBooking.status b)) v)
  && Paging.where_opt (JS.truthy_string (BookingFilters.serviceType filters))
       (fun v => String.eqb (service_type_label (DbBooking.service_type b)) v)
  && Paging.where_opt (JS.truthy_string (BookingFilters.customerEmail filters))
       (fun v => ilike (DbBooking.customer_email b) ("%" ++ v ++ "%"))
  && Paging.where_opt (JS.truthy_string (BookingFilters.assignedTechnician filters))
       (fun v => Paging.text_is v (DbBooking.assigned_technician b))
  && Paging.where_opt (BookingFilters.dateFrom filters)
       (fun d => d <=? DbBooking.booking_date b)
  && Paging.where_opt (BookingFilters.dateTo filters)
       (fun d => DbBooking.booking_date b <=? d).

(** [static async findAll(page = 1, limit = 10, filters = {})]; the database
    refuses a negative [LIMIT] or [OFFSET], and every failure is rethrown as
    'Failed to fetch bookings'. *)
Definition findAll (db : Db) (page limit : Z) (filters : BookingFilters.t)
  : result Page.t :=
  let matching := filter (findAll_where filters) (bookings db) in
  let offset := (page - 1) * limit in
  if (limit <? 0) || (offset <? 0) then
    Throw (mkError "Failed to fetch bookings" 500)
  else
    let rows :=
      Paging.limit_offset limit offset
        (Sql.order_by Paging.date_time_desc matching) in
    let total := Z.of_nat (List.length matching) in
    let totalPages := Paging.ceil_div total limit in
    Ok (Page.mk (map BookingModel.mapDatabaseBookingToBooking rows) total totalPages).

(** [BookingService.getAllBookings]: the failure of [findAll] is rethrown
    with the same message. *)
Definition getAllBookings (db : Db) (page limit : Z) (filters : BookingFilters.t)
  : result Page.t :=
  match findAll db page limit filters with
  | Ok r => Ok r
  | Throw _ => Throw (mkError "Failed to fetch bookings" 500)
  end.

(** [BookingService.getUserBookings(userId, page = 1, limit = 10)] *)
Definition getUserBookings (db : Db) (userId : uuid) (page limit : Z)
  : result Page.t :=
  match findAll db page limit (BookingFilters.of_user userId) with
  | Ok r => Ok r
  | Throw _ => Throw (mkError "Failed to fetch user bookings" 500)
  end.

End WithIlike.

(** The bookings of a page; none when the query failed. *)
Definition page_rows (r : result Page.t) : list Booking.t :=
  match r with
  | Ok p => Page.bookings p
  | Throw _ => []
  end.

(** [BookingModel.getCustomerBookings(customerEmail)], which
    [BookingService.getCustomerBookings] hands on. *)
Definition getCustomerBookings (db : Db) (customerEmail : string) : list Booking.t :=
  map BookingModel.mapDatabaseBookingToBooking
    (Sql.order_by Paging.date_time_desc
       (filter (fun b => String.eqb (DbBooking.customer_email b) customerEmail)
          (bookings db))).

(** [BookingService.getBookingById(id)] *)
Definition getBookingById (db : Db) (id : uuid) : option Booking.t :=
  BookingModel.findById db id.

End BookingQueries.

(** ** [ServiceModel.delete] (models/Service.ts): the soft delete *)

Module ServiceModel.

Definition deactivate (s : DbService.t) : DbService.t :=
  DbService.mk (DbService.id s) (DbService.name s) (DbService.category s)
    (DbService.base_price s) (DbService.estimated_duration s) false
    (DbService.is_available_for_booking s).

(** [static async delete(id)]: [is_active] becomes false in the rows with
    that id ([updated_at], the other column it writes, is not among the
    columns of [DbService.t]). *)
Definition delete (db : Db) (id : uuid) : Db * result unit :=
  let db' :=
    mkDb (map (fun s => if String.eqb (DbService.id s) id then deactivate s else s)
            (services db))
         (bookings db) in
  match filter (fun s => String.eqb (DbService.id s) id) (services db) with
  | [] => (db', Throw ServiceNotFound)
  | _ :: _ => (db', Ok tt)
  end.

End ServiceModel.

(** ** Statements the database refuses

    The [try] blocks of [findById], [update] and [delete] end in a [catch]
    that turns every failure of the database call into a 500.  A reachable
    database fails such a call when it refuses a parameter for its column:
    a text that is not a uuid, a text that is not a time, an amount that
    does not fit [decimal(10,2)], a text a character column does not take. *)

Module Database.

(** What the input functions of the database take, column type by column
    type. *)
Record t : Type := mk {
  takes_uuid : string -> bool;
  takes_time : string -> bool;
  takes_text : string -> bool;
  takes_varchar : string -> bool
}.

(** [decimal(10,2)]: fewer than [10^8] units in absolute value, that is fewer
    than [10^10] cents. *)
Definition takes_decimal (c : money) : bool := Z.abs c <? 10 ^ 10.

(** A key of the update object, when present, is taken. *)
Definition takes_key {A : Type} (x : option A) (takes : A -> bool) : bool :=
  match x with
  | Some v => takes v
  | None => true
  end.

(** The database executes
    [db('bookings').where('id', id).update(u)]. *)
Definition takes_update (pg : t) (id : uuid) (u : UpdateData.t) : bool :=
  takes_uuid pg id
  && takes_key (UpdateData.booking_time u) (takes_time pg)
  && takes_key (UpdateData.service_description u) (takes_text pg)
  && takes_key (UpdateData.special_instructions u) (takes_text pg)
  && takes_key (UpdateData.estimated_cost u) takes_decimal
  && takes_key (UpdateData.actual_cost u) takes_decimal
  && takes_key (UpdateData.assigned_technician u) (takes_varchar pg)
  && takes_key (UpdateData.notes u) (takes_text pg).

End Database.

(** [findById], [update] and [delete] with their [catch] blocks, and the
    [BookingService] methods that hand their errors on: what the database
    executes is what [BookingModel] describes; what it refuses leaves the
    store as it was and is rethrown as a 500. *)
Module Guarded.

(** [BookingModel.findById] / [BookingService.getBookingById] *)
Definition getBookingById (pg : Database.t) (db : Db) (id : uuid)
  : result (option Booking.t) :=
  if Database.takes_uuid pg id then Ok (BookingModel.findById db id)
  else Throw (mkError "Failed to fetch booking" 500).

(** [BookingModel.update] / [BookingService.updateBooking] *)
Definition updateBooking (pg : Database.t) (now0 now1 : timestamp) (db : Db)
  (id : uuid) (updates : UpdateBookingRequest.t) : Db * result Booking.t :=
  if Database.takes_update pg id (BookingModel.updateData now0 now1 updates)
  then BookingModel.update now0 now1 db id updates
  else (db, Throw (mkError "Failed to update booking" 500)).

(** [BookingModel.delete] / [BookingService.cancelBooking] *)
Definition cancelBooking (pg : Database.t) (now : timestamp) (db : Db) (id : uuid)
  : Db * result unit :=
  if Database.takes_uuid pg id then BookingModel.delete now db id
  else (db, Throw (mkError "Failed to cancel booking" 500)).

End Guarded.

(** ** Request handlers (controllers/bookingController.ts, middleware/auth.ts) *)

Inductive Role : Type := customer | admin | staff.

Definition role_eqb (a b : Role) : bool :=
  match a, b with
  | customer, customer | admin, admin | staff, staff => true
  | _, _ => false
  end.

(** [req.user], as [authenticate] fills it from the token. *)
Module User.
Record t : Type := mk { id : uuid; role : Role }.
End User.

(** What a handler sends: [res.status(status).json({ success, message, data })];
    [details] and the development-only [stack] of an error answer are left
    out. *)
Module Response.
Record t : Type := mk {
  status : Z;
  success : bool;
  message : string;
  data : option Booking.t
}.
End Response.

Module BookingController.

(** [errorHandler] on a [CustomError] that a handler lets through. *)
Definition errorHandler (e : CustomError) : Response.t :=
  Response.mk (statusCode e) false (message e) None.

(** [requireRole(...roles)]: [None] is [next()]. *)
Definition requireRole (roles : list Role) (user : option User.t)
  : option Response.t :=
  match user with
  | None => Some (Response.mk 401 false "Authentication required" None)
  | Some u =>
      if existsb (role_eqb (User.role u)) roles then None
      else Some (Response.mk 403 false "Insufficient permissions" None)
  end.

(** [booking.userId !== req.user.id] *)
Definition not_owner (booking : Booking.t) (u : User.t) : bool :=
  match Booking.userId booking with
  | Some owner => negb (String.eqb owner (User.id u))
  | None => true
  end.

Definition is_customer (user : option User.t) : option User.t :=
  match user with
  | Some u => if role_eqb (User.role u) customer then Some u else None
  | None => None
  end.

Definition access_denied : Response.t := Response.mk 403 false "Access denied" None.

(** [static getBookingById] *)
Definition getBookingById (db : Db) (user : option User.t) (id : uuid) : Response.t :=
  match BookingQueries.getBookingById db id with
  | None => Response.mk 404 false "Booking not found" None
  | Some booking =>
      match is_customer user with
      | Some u =>
          if not_owner booking u then access_denied
          else Response.mk 200 true "Booking retrieved successfully" (Some booking)
      | None => Response.mk 200 true "Booking retrieved successfully" (Some booking)
      end
  end.

(** The end of [static cancelBooking], after the permission check. *)
Definition do_cancel (pg : Database.t) (now : timestamp) (db : Db) (id : uuid)
  : Db * Response.t :=
  match Guarded.cancelBooking pg now db id with
  | (db', Ok _) => (db', Response.mk 200 true "Booking cancelled successfully" None)
  | (db', Throw e) => (db', errorHandler e)
  end.

(** [static cancelBooking]; an error of the lookup goes to [errorHandler]. *)
Definition cancelBooking (pg : Database.t) (now : timestamp) (db : Db)
  (user : option User.t) (id : uuid) : Db * Response.t :=
  match is_customer user with
  | Some u =>
      match Guarded.getBookingById pg db id with
      | Throw e => (db, errorHandler e)
      | Ok None => (db, access_denied)
      | Ok (Some booking) =>
          if not_owner booking u then (db, access_denied)
          else do_cancel pg now db id
      end
  | None => do_cancel pg now db id
  end.

(** The answer of the handlers that send back the updated booking. *)
Definition send_booking (msg : string) (r : Db * result Booking.t)
  : Db * Response.t :=
  match r with
  | (db', Ok booking) => (db', Response.mk 200 true msg (Some booking))
  | (db', Throw e) => (db', errorHandler e)
  end.

(** A handler behind [requireRole('admin', 'staff')]. *)
Definition staff_only (db : Db) (user : option User.t)
  (handler : Db * Response.t) : Db * Response.t :=
  match requireRole [admin; staff] user with
  | Some refusal => (db, refusal)
  | None => handler
  end.

(** [static updateBooking] *)
Definition updateBooking (now0 now1 : timestamp) (db : Db) (user : option User.t)
  (id : uuid) (updates : UpdateBookingRequest.t) : Db * Response.t :=
  staff_only db user
    (send_booking "Booking updated successfully"
       (BookingService.updateBooking now0 now1 db id updates)).

(** [static confirmBooking] *)
Definition confirmBooking (now0 now1 : timestamp) (db : Db) (user : option User.t)
  (id : uuid) : Db * Response.t :=
  staff_only db user
    (send_booking "Booking confirmed successfully"
       (BookingService.updateBookingStatus now0 now1 db id confirmed)).

(** [static startBooking] *)
Definition startBooking (now0 now1 : timestamp) (db : Db) (user : option User.t)
  (id : uuid) : Db * Response.t :=
  staff_only db user
    (send_booking "Booking started successfully"
       (BookingService.updateBookingStatus now0 now1 db id in_progress)).

(** [static completeBooking]; [actualCost] and [notes] are the two fields it
    reads from the body. *)
Definition completeBooking (pg : Database.t) (now0 now1 : timestamp) (db : Db)
  (user : option User.t) (id : uuid) (actualCost : option money)
  (notes : option string) : Db * Response.t :=
  let updates :=
    UpdateBookingRequest.mk (Some completed) None None None None None None
      actualCost None notes in
  staff_only db user
    (send_booking "Booking completed successfully"
       (Guarded.updateBooking pg now0 now1 db id updates)).

(** [static assignTechnician] *)
Definition assignTechnician (now0 now1 : timestamp) (db : Db)
  (user : option User.t) (id : uuid) (technician : option string)
  : Db * Response.t :=
  staff_only db user
    match JS.truthy_string technician with
    | None => (db, Response.mk 400 false "Technician name is required" None)
    | Some t =>
        let updates :=
          UpdateBookingRequest.mk None None None None None None None None
            (Some t) None in
        send_booking "Technician assigned successfully"
          (BookingService.updateBooking now0 now1 db id updates)
    end.

End BookingController.

(** ** Sequences of bookings and cancellations *)

Inductive BookingOp : Type :=
  | OpCreate (defaults : InsertDefaults) (bookingData : CreateBookingRequest.t)
      (userId : option uuid)
  | OpCancel (now : timestamp) (id : uuid).

(** The store after the calls of [ops], one after the other. *)
Fixpoint run_ops (ops : list BookingOp) (db : Db) : Db :=
  match ops with
  | [] => db
  | OpCreate defaults bookingData userId :: ops' =>
      run_ops ops' (fst (BookingService.createBooking defaults db bookingData userId))
  | OpCancel now id :: ops' =>
      run_ops ops' (fst (BookingService.cancelBooking now db id))
  end.

Module Invariant.

(** Two stored bookings do not collide: when both are of the same service
    and date and neither is cancelled nor no_show, their intervals
    [B, B + Db/60), on the hours the conflict test reads, do not overlap. *)
Definition compatible (a b : DbBooking.t) : Prop :=
  DbBooking.service a = DbBooking.service b ->
  DbBooking.booking_date a = DbBooking.booking_date b ->
  ~ Reference.inactive (DbBooking.status a) ->
  ~ Reference.inactive (DbBooking.status b) ->
  forall Ba Bb,
    BookingModel.hour_of (DbBooking.booking_time a) = JS.of_int Ba ->
    BookingModel.hour_of (DbBooking.booking_time b) = JS.of_int Bb ->
    ~ Reference.overlap Bb (DbBooking.duration b) Ba (DbBooking.duration a).

(** No two rows of the table collide. *)
Definition no_overlap (rows : list DbBooking.t) : Prop :=
  ForallOrdPairs compatible rows.

(** Two bookings hold the same slot: same service, date and start hour, both
    neither cancelled nor no_show. *)
Definition double_booked (a b : DbBooking.t) : Prop :=
  DbBooking.service a = DbBooking.service b
  /\ DbBooking.booking_date a = DbBooking.booking_date b
  /\ ~ Reference.inactive (DbBooking.status a)
  /\ ~ Reference.inactive (DbBooking.status b)
  /\ exists B,
      BookingModel.hour_of (DbBooking.booking_time a) = JS.of_int B
      /\ BookingModel.hour_of (DbBooking.booking_time b) = JS.of_int B.

(** The columns a request field can name, [status] apart, and the three
    transition timestamps are the same in [new] as in [old]. *)
Definition details_kept (old new : DbBooking.t) : Prop :=
  DbBooking.booking_date new = DbBooking.booking_date old
  /\ DbBooking.booking_time new = DbBooking.booking_time old
  /\ DbBooking.priority new = DbBooking.priority old
  /\ DbBooking.service_description new = DbBooking.service_description old
  /\ DbBooking.special_instructions new = DbBooking.special_instructions old
  /\ DbBooking.estimated_cost new = DbBooking.estimated_cost old
  /\ DbBooking.actual_cost new = DbBooking.actual_cost old
  /\ DbBooking.assigned_technician new = DbBooking.assigned_technician old
  /\ DbBooking.notes new = DbBooking.notes old
  /\ DbBooking.confirmed_at new = DbBooking.confirmed_at old
  /\ DbBooking.started_at new = DbBooking.started_at old
  /\ DbBooking.completed_at new = DbBooking.completed_at old.

End Invariant.

(** ** Orders of the listings *)

Module Order.

(** [x] comes no later than [y] in a calendar listing: earlier date, or same
    date and time text not greater. *)
Definition ascending (x y : Booking.t) : Prop :=
  Booking.bookingDate x < Booking.bookingDate y
  \/ (Booking.bookingDate x = Booking.bookingDate y
      /\ String.leb (Booking.bookingTime x) (Booking.bookingTime y) = true).

(** [x] comes no later than [y] in a paged listing: later date, or same date
    and time text not smaller. *)
Definition descending (x y : Booking.t) : Prop :=
  Booking.bookingDate y < Booking.bookingDate x
  \/ (Booking.bookingDate x = Booking.bookingDate y
      /\ String.leb (Booking.bookingTime y) (Booking.bookingTime x) = true).

(** Two rows that [ORDER BY booking_date, booking_time] cannot tell apart. *)
Definition tied (a b : DbBooking.t) : Prop :=
  DbBooking.booking_date a = DbBooking.booking_date b
  /\ DbBooking.booking_time a = DbBooking.booking_time b.

(** The bookings with status [in_progress] or [no_show], which
    [getBookingStats] counts in no counter of their own. *)
Definition uncounted (b : DbBooking.t) : bool :=
  status_eqb (DbBooking.status b) in_progress
  || status_eqb (DbBooking.status b) no_show.

End Order.

(** ** More scenarios *)

Module Scenario2.

(** A matcher standing for [ILIKE '%v%'] in the scenarios: the pattern
    without its two percent signs is a prefix of the column. *)
Definition ilike_prefix (column pattern : string) : bool :=
  String.prefix
    (String.substring 1 (String.length pattern - 2) pattern) column.

Definition alice : User.t := User.mk "user-7" customer.
Definition bob : User.t := User.mk "user-8" customer.
Definition sam : User.t := User.mk "user-1" staff.

(** The store after Alice's booking A at 10:00. *)
Definition db_alice : Db :=
  fst (BookingService.createBooking (Scenario.draws "A") Scenario.empty_db
         (Scenario.request "10:00") (Some "user-7")).

(** A text against a template: [x] stands for a hexadecimal digit, [d] for a
    decimal digit, any other character for itself. *)
Fixpoint matches (template s : string) : bool :=
  match template, s with
  | EmptyString, EmptyString => true
  | String p template', String c s' =>
      let n := nat_of_ascii c in
      let digit := Nat.leb 48 n && Nat.leb n 57 in
      let hex :=
        digit || (Nat.leb 97 n && Nat.leb n 102) || (Nat.leb 65 n && Nat.leb n 70) in
      (if Ascii.eqb p "x" then hex
       else if Ascii.eqb p "d" then digit
       else Ascii.eqb p c)
      && matches template' s'
  | _, _ => false
  end.

(** A database for the scenarios: it takes uuids in the canonical spelling,
    times spelled HH:MM or HH:MM:SS, and texts of at most 255 characters in a
    [varchar(255)] column. *)
Definition postgres : Database.t :=
  Database.mk
    (matches "xxxxxxxx-xxxx-xxxx-xxxx-xxxxxxxxxxxx")
    (fun s => matches "dd:dd" s || matches "dd:dd:dd" s)
    (fun _ => true)
    (fun s => Nat.leb (String.length s) 255).

Definition id_a : uuid := "aaaaaaaa-aaaa-4aaa-8aaa-aaaaaaaaaaaa".
Definition id_z : uuid := "ffffffff-ffff-4fff-8fff-ffffffffffff".

Definition carol : User.t := User.mk "cccccccc-cccc-4ccc-8ccc-cccccccccccc" customer.
Definition dave : User.t := User.mk "dddddddd-dddd-4ddd-8ddd-dddddddddddd" customer.

(** The store after Carol's booking [id_a] at 10:00. *)
Definition db_carol : Db :=
  fst (BookingService.createBooking (mkDefaults id_a 1000) Scenario.empty_db
         (Scenario.request "10:00") (Some (User.id carol))).

Definition carol_row : DbBooking.t :=
  BookingModel.inserted_row (mkDefaults id_a 1000) Scenario.lock_installation_svc
    (Scenario.request "10:00") (Some (User.id carol)).

(** Three bookings of distinct date and time. *)
Definition db_three : Db :=
  mkDb [Scenario.lock_installation_svc]
    [Scenario.row "A" pending (Some 15000) None;
     DbBooking.mk "B" None (Some "svc-1") "Lock Installation" lock_installation
       (Scenario.day + 1) "09:00:00" 120 pending medium "John Doe" "+1-555-0123"
       "john@example.com" "123 Main Street" None None (Some 15000) None None None
       None None None 1000 1000;
     DbBooking.mk "C" None (Some "svc-1") "Lock Installation" lock_installation
       Scenario.day "14:00:00" 120 pending medium "John Doe" "+1-555-0123"
       "john@example.com" "123 Main Street" None None (Some 15000) None None None
       None None None 1000 1000].

(** A 60-minute service with one booking at 14:00. *)
Definition repair_svc : DbService.t :=
  DbService.mk "svc-2" "Lock Repair" cat_repair 8500 60 true true.

Definition repair_db : Db :=
  mkDb [repair_svc]
    [DbBooking.mk "R" None (Some "svc-2") "Lock Repair" lock_repair Scenario.day
       "14:00:00" 60 confirmed medium "Jane Doe" "+1-555-0456" "jane@example.com"
       "456 Oak Avenue" None None (Some 8500) None None None (Some 1500) None None
       1000 1500].

End Scenario2.

(** * Properties *)

(** ** JavaScript primitives *)

Lemma Qltb_lt (x y : Q) : JS.Qltb x y = true <-> (x < y)%Q.
Proof. unfold JS.Qltb, Qlt. apply Z.ltb_lt. Qed.

Lemma parseInt_int_or_NaN (s : string) :
  JS.parseInt s = JS.NaN \/ exists z, JS.parseInt s = JS.of_int z.
Proof.
  unfold JS.parseInt.
  repeat match goal with
         | |- context [let (_, _) := ?e in _] => destruct e
         end.
  destruct (JS.parse_digits _ _ _); [right; eauto | now left].
Qed.

Lemma of_int_inj (a b : Z) : JS.of_int a = JS.of_int b -> a = b.
Proof. unfold JS.of_int, inject_Z. intros H. now inversion H. Qed.

Lemma lt_add_div60 (S B Db : Z) :
  JS.lt (JS.of_int S) (JS.add (JS.of_int B) (JS.div (JS.of_int Db) (JS.of_int 60))) = true
  <-> (inject_Z S < inject_Z B + inject_Z Db / 60)%Q.
Proof. cbn. apply Qltb_lt. Qed.

Lemma gt_add_div60 (S D B : Z) :
  JS.gt (JS.add (JS.of_int S) (JS.div (JS.of_int D) (JS.of_int 60))) (JS.of_int B) = true
  <-> (inject_Z S + inject_Z D / 60 > inject_Z B)%Q.
Proof. cbn. apply Qltb_lt. Qed.

(** ** The availability grid *)

Lemma status_in_inactive (s : BookingStatus) :
  Sql.status_in s [cancelled; no_show] = true <-> Reference.inactive s.
Proof.
  unfold Reference.inactive.
  destruct s; cbn; split; intros H; try discriminate; auto;
    destruct H; discriminate.
Qed.

Lemma push_slots_grid :
  BookingModel.push_slots (Z.to_nat (17 - 9)) 9 17 []
  = map (fun t => mkSlot t true) Reference.grid_times.
Proof. reflexivity. Qed.

Lemma getAvailableSlots_eq (db : Db) (service : string) (d : date)
  (serviceData : DbService.t) :
  BookingModel.bookable_service db service = Some serviceData ->
  BookingModel.getAvailableSlots db service d
  = Ok (map (fun t =>
               BookingModel.mark_slot (DbService.estimated_duration serviceData)
                 (BookingModel.existingBookings db service d) (mkSlot t true))
          Reference.grid_times).
Proof.
  intros H. unfold BookingModel.getAvailableSlots. rewrite H.
  cbv zeta. rewrite push_slots_grid, map_map. reflexivity.
Qed.

Lemma bookable_service_found (db : Db) (service : string) (s : DbService.t) :
  In s (services db) ->
  DbService.name s = service ->
  DbService.is_active s = true ->
  DbService.is_available_for_booking s = true ->
  exists serviceData,
    BookingModel.bookable_service db service = Some serviceData
    /\ In serviceData (services db)
    /\ DbService.name serviceData = service.
Proof.
  intros Hin Hname Hact Hbook. unfold BookingModel.bookable_service.
  destruct (find _ (services db)) as [sd|] eqn:Hfind.
  - exists sd. split; [reflexivity|].
    apply find_some in Hfind. destruct Hfind as [Hin' Hp].
    apply andb_true_iff in Hp. destruct Hp as [Hp _].
    apply andb_true_iff in Hp. destruct Hp as [Hp _].
    apply String.eqb_eq in Hp. auto.
  - exfalso. apply (find_none _ _ Hfind) in Hin.
    rewrite Hname, Hact, Hbook, String.eqb_refl in Hin. discriminate.
Qed.

Lemma grid_hours :
  map BookingModel.hour_of Reference.grid_times
  = map JS.of_int [9; 10; 11; 12; 13; 14; 15; 16].
Proof. reflexivity. Qed.

Lemma grid_time_hour (t : string) :
  In t Reference.grid_times ->
  exists S, BookingModel.hour_of t = JS.of_int S /\ 9 <= S <= 16.
Proof.
  intros H. cbn in H.
  destruct H as [<-|[<-|[<-|[<-|[<-|[<-|[<-|[<-|[]]]]]]]]];
    [exists 9|exists 10|exists 11|exists 12|exists 13|exists 14|exists 15|exists 16];
    (split; [reflexivity|lia]).
Qed.

(** The conflict test of one slot against one fetched row, in the words of
    the overlap of two intervals. *)
Lemma conflicts_overlap (S D Db : Z) (t : string) :
  BookingModel.conflicts (JS.of_int S)
    (JS.add (JS.of_int S) (JS.div (JS.of_int D) (JS.of_int 60))) (t, Db) = true
  <-> exists B, BookingModel.hour_of t = JS.of_int B /\ Reference.overlap S D B Db.
Proof.
  unfold BookingModel.conflicts, Reference.overlap. cbn [fst snd].
  destruct (parseInt_int_or_NaN (JS.index (JS.split ":" t) 0)) as [HN|[B HB]];
    fold (BookingModel.hour_of t) in *.
  - rewrite HN. cbn. split; [discriminate|].
    intros [B [HB _]]. discriminate.
  - rewrite HB, andb_true_iff, lt_add_div60, gt_add_div60. split.
    + intros H. exists B. auto.
    + intros [B' [HB' H]]. apply of_int_inj in HB'. subst B'. exact H.
Qed.

(** A slot of the grid is marked unavailable exactly when a stored booking of
    the service and date, neither cancelled nor no_show, overlaps it. *)
Lemma mark_slot_unavailable (db : Db) (service : string) (d : date) (D S : Z)
  (t : string) :
  BookingModel.hour_of t = JS.of_int S ->
  available (BookingModel.mark_slot D (BookingModel.existingBookings db service d)
               (mkSlot t true)) = false
  <-> exists b B,
      In b (bookings db)
      /\ DbBooking.service b = service
      /\ DbBooking.booking_date b = d
      /\ ~ Reference.inactive (DbBooking.status b)
      /\ BookingModel.hour_of (DbBooking.booking_time b) = JS.of_int B
      /\ Reference.overlap S D B (DbBooking.duration b).
Proof.
  intros HS. unfold BookingModel.mark_slot. cbn [time available].
  rewrite HS, negb_false_iff, existsb_exists. split.
  - intros [[t' Db] [Hin Hc]].
    unfold BookingModel.existingBookings in Hin.
    apply in_map_iff in Hin. destruct Hin as [b [Hb Hin]].
    injection Hb as Ht HDb. subst t' Db.
    apply filter_In in Hin. destruct Hin as [Hin Hp].
    apply andb_true_iff in Hp. destruct Hp as [Hp Hst].
    apply andb_true_iff in Hp. destruct Hp as [Hd Hs].
    apply conflicts_overlap in Hc. destruct Hc as [B [HB Ho]].
    exists b, B.
    split; [assumption|].
    split; [now apply String.eqb_eq|].
    split; [now apply Z.eqb_eq|].
    split; [|now split].
    intros Hi. apply status_in_inactive in Hi. rewrite Hi in Hst. discriminate.
  - intros [b [B [Hin [Hs [Hd [Hst [HB Ho]]]]]]].
    exists (DbBooking.booking_time b, DbBooking.duration b). split.
    + unfold BookingModel.existingBookings. apply in_map_iff. exists b.
      split; [reflexivity|]. apply filter_In. split; [assumption|].
      rewrite Hs, Hd, String.eqb_refl, Z.eqb_refl. cbn [andb].
      destruct (Sql.status_in (DbBooking.status b) [cancelled; no_show]) eqn:E;
        [|reflexivity].
      apply status_in_inactive in E. contradiction.
    + apply conflicts_overlap. exists B. auto.
Qed.

(** The hour of a time text: whatever follows the first colon is dropped,
    for every hour of the day written with two digits. *)
Lemma hour_of_two_digits (h : Z) (rest : string) :
  0 <= h < 24 ->
  BookingModel.hour_of (JS.padStart 2 "0" (JS.toString h) ++ ":" ++ rest)
  = JS.of_int h.
Proof.
  intros Hh.
  assert (Hc : h = 0 \/ h = 1 \/ h = 2 \/ h = 3 \/ h = 4 \/ h = 5 \/ h = 6 \/ h = 7 \/ h = 8 \/ h = 9 \/ h = 10 \/ h = 11 \/ h = 12 \/ h = 13 \/ h = 14 \/ h = 15 \/ h = 16 \/ h = 17 \/ h = 18 \/ h = 19 \/ h = 20 \/ h = 21 \/ h = 22 \/ h = 23) by lia.
  repeat (destruct Hc as [->|Hc]; [reflexivity|]).
  subst h. reflexivity.
Qed.

(** C1. For the active, bookable service that [getAvailableSlots] resolves,
    with duration [D], and every date, the call returns the candidate slots
    09:00 to 16:00, start hours 9 to 16, and a slot with start hour [S] is
    marked unavailable if and only if a stored booking of that service and
    date whose status is neither cancelled nor no_show, with start hour [B]
    and stored duration [Db], satisfies [S < B + Db/60] and [S + D/60 > B].
    Both start hours are the integer hour read from the text of the time:
    the text of an hour [h] of the day followed by a colon and anything
    (minutes, seconds) reads as [h], so a booking at 09:30 has start hour 9,
    and two booking times with the same hour conflict with the same slots. *)
Theorem getAvailableSlots_unavailable_iff_overlap
  (db : Db) (service : string) (d : date) (serviceData : DbService.t) :
  BookingModel.bookable_service db service = Some serviceData ->
  exists slots,
    BookingModel.getAvailableSlots db service d = Ok slots
    /\ map time slots = Reference.grid_times
    /\ map (fun slot => BookingModel.hour_of (time slot)) slots
       = map JS.of_int [9; 10; 11; 12; 13; 14; 15; 16]
    /\ (forall slot, In slot slots ->
        exists S,
          BookingModel.hour_of (time slot) = JS.of_int S
          /\ (available slot = false
              <-> exists b B,
                  In b (bookings db)
                  /\ DbBooking.service b = service
                  /\ DbBooking.booking_date b = d
                  /\ ~ Reference.inactive (DbBooking.status b)
                  /\ BookingModel.hour_of (DbBooking.booking_time b) = JS.of_int B
                  /\ Reference.overlap S (DbService.estimated_duration serviceData)
                       B (DbBooking.duration b)))
    /\ (forall h rest,
        0 <= h < 24 ->
        BookingModel.hour_of (JS.padStart 2 "0" (JS.toString h) ++ ":" ++ rest)
        = JS.of_int h)
    /\ BookingModel.hour_of "09:30" = JS.of_int 9
    /\ (forall slotStart slotEnd t1 t2 Db,
        BookingModel.hour_of t1 = BookingModel.hour_of t2 ->
        BookingModel.conflicts slotStart slotEnd (t1, Db)
        = BookingModel.conflicts slotStart slotEnd (t2, Db)).
Proof.
  intros Hsvc. eexists. split; [apply (getAvailableSlots_eq _ _ _ _ Hsvc)|].
  split; [reflexivity|]. split; [reflexivity|].
  split; [|split; [exact hour_of_two_digits|split; [reflexivity|]]].
  2:{ intros slotStart slotEnd t1 t2 Db Ht. unfold BookingModel.conflicts.
      cbn [fst snd]. now rewrite Ht. }
  intros slot Hin. apply in_map_iff in Hin. destruct Hin as [t [Hslot Ht]].
  destruct (grid_time_hour t Ht) as [S [HS _]].
  exists S. subst slot. split.
  - exact HS.
  - apply mark_slot_unavailable. exact HS.
Qed.

Lemma getAvailableSlots_unavailable_iff_overlap_witness :
  BookingModel.bookable_service Scenario.db_A "Lock Installation"
  = Some Scenario.lock_installation_svc
  /\ exists slots,
    BookingModel.getAvailableSlots Scenario.db_A "Lock Installation" Scenario.day
    = Ok slots
    /\ map time slots = Reference.grid_times
    /\ map (fun slot => BookingModel.hour_of (time slot)) slots
       = map JS.of_int [9; 10; 11; 12; 13; 14; 15; 16]
    /\ (forall slot, In slot slots ->
        exists S,
          BookingModel.hour_of (time slot) = JS.of_int S
          /\ (available slot = false
              <-> exists b B,
                  In b (bookings Scenario.db_A)
                  /\ DbBooking.service b = "Lock Installation"
                  /\ DbBooking.booking_date b = Scenario.day
                  /\ ~ Reference.inactive (DbBooking.status b)
                  /\ BookingModel.hour_of (DbBooking.booking_time b) = JS.of_int B
                  /\ Reference.overlap S
                       (DbService.estimated_duration Scenario.lock_installation_svc)
                       B (DbBooking.duration b)))
    /\ (forall h rest,
        0 <= h < 24 ->
        BookingModel.hour_of (JS.padStart 2 "0" (JS.toString h) ++ ":" ++ rest)
        = JS.of_int h)
    /\ BookingModel.hour_of "09:30" = JS.of_int 9
    /\ (forall slotStart slotEnd t1 t2 Db,
        BookingModel.hour_of t1 = BookingModel.hour_of t2 ->
        BookingModel.conflicts slotStart slotEnd (t1, Db)
        = BookingModel.conflicts slotStart slotEnd (t2, Db)).
Proof.
  split; [reflexivity|].
  apply (getAvailableSlots_unavailable_iff_overlap Scenario.db_A
           "Lock Installation" Scenario.day Scenario.lock_installation_svc).
  reflexivity.
Defined.

(** C2. For every active, bookable service, whatever its duration, and every
    date, [getAvailableSlots] returns exactly 8 slots, whose times are
    "09:00", "10:00", ..., "16:00" in this order, start hours 9 to 16, each
    with its availability boolean. *)
Theorem getAvailableSlots_eight_slots
  (db : Db) (service : string) (d : date) (s : DbService.t) :
  In s (services db) ->
  DbService.name s = service ->
  DbService.is_active s = true ->
  DbService.is_available_for_booking s = true ->
  exists slots,
    BookingModel.getAvailableSlots db service d = Ok slots
    /\ List.length slots = 8%nat
    /\ map time slots
       = ["09:00"; "10:00"; "11:00"; "12:00"; "13:00"; "14:00"; "15:00"; "16:00"]
    /\ map (fun slot => BookingModel.hour_of (time slot)) slots
       = map JS.of_int [9; 10; 11; 12; 13; 14; 15; 16].
Proof.
  intros Hin Hname Hact Hbook.
  destruct (bookable_service_found db service s Hin Hname Hact Hbook)
    as [serviceData [Hsvc _]].
  eexists. split; [apply (getAvailableSlots_eq _ _ _ _ Hsvc)|].
  split; [reflexivity|]. split; reflexivity.
Qed.

Lemma getAvailableSlots_eight_slots_witness :
  In Scenario.lock_installation_svc (services Scenario.db_AB)
  /\ exists slots,
    BookingModel.getAvailableSlots Scenario.db_AB "Lock Installation" Scenario.day
    = Ok slots
    /\ List.length slots = 8%nat
    /\ map time slots
       = ["09:00"; "10:00"; "11:00"; "12:00"; "13:00"; "14:00"; "15:00"; "16:00"]
    /\ map (fun slot => BookingModel.hour_of (time slot)) slots
       = map JS.of_int [9; 10; 11; 12; 13; 14; 15; 16].
Proof.
  split; [left; reflexivity|].
  apply (getAvailableSlots_eight_slots Scenario.db_AB "Lock Installation"
           Scenario.day Scenario.lock_installation_svc);
    [left; reflexivity | reflexivity | reflexivity | reflexivity].
Defined.

(** The scenario of the specification: a 120-minute booking at 10:00 makes
    09:00, 10:00 and 11:00 unavailable and leaves 12:00 available. *)
Example availability_after_booking_at_10 :
  BookingModel.getAvailableSlots Scenario.db_A "Lock Installation" Scenario.day
  = Ok [mkSlot "09:00" false; mkSlot "10:00" false; mkSlot "11:00" false;
        mkSlot "12:00" true; mkSlot "13:00" true; mkSlot "14:00" true;
        mkSlot "15:00" true; mkSlot "16:00" true].
Proof. reflexivity. Qed.

(** ** Booking creation *)

Lemma getAvailableSlots_throws (db : Db) (service : string) (d : date)
  (e : CustomError) :
  BookingModel.getAvailableSlots db service d = Throw e -> e = ServiceNotAvailable.
Proof.
  unfold BookingModel.getAvailableSlots.
  destruct (BookingModel.bookable_service db service); intros H; now inversion H.
Qed.

Lemma getAvailableSlots_times (db : Db) (service : string) (d : date)
  (slots : list TimeSlot) :
  BookingModel.getAvailableSlots db service d = Ok slots ->
  map time slots = Reference.grid_times.
Proof.
  destruct (BookingModel.bookable_service db service) as [sd|] eqn:E.
  - rewrite (getAvailableSlots_eq _ _ _ _ E). intros H.
    injection H as <-. reflexivity.
  - unfold BookingModel.getAvailableSlots. rewrite E. discriminate.
Qed.

Lemma grid_times_NoDup : NoDup Reference.grid_times.
Proof.
  unfold Reference.grid_times.
  repeat (constructor; [cbn; intuition discriminate|]). constructor.
Qed.

Lemma find_by_time (slots : list TimeSlot) (slot : TimeSlot) :
  NoDup (map time slots) ->
  In slot slots ->
  find (fun x => String.eqb (time x) (time slot)) slots = Some slot.
Proof.
  induction slots as [|x slots IH]; intros Hnd Hin; [contradiction|].
  cbn in Hnd. inversion Hnd as [|? ? Hx Hnd']; subst.
  cbn. destruct Hin as [->|Hin].
  - now rewrite String.eqb_refl.
  - destruct (String.eqb (time x) (time slot)) eqn:E.
    + apply String.eqb_eq in E. exfalso. apply Hx. rewrite E.
      now apply in_map.
    + now apply IH.
Qed.

Lemma find_by_time_none (slots : list TimeSlot) (t : string) :
  find (fun x => String.eqb (time x) t) slots = None <-> ~ In t (map time slots).
Proof.
  split.
  - intros Hf Hin. apply in_map_iff in Hin. destruct Hin as [x [Hx Hin]].
    apply (find_none _ _ Hf) in Hin. rewrite Hx, String.eqb_refl in Hin.
    discriminate.
  - intros Hn. destruct (find _ slots) as [x|] eqn:E; [|reflexivity].
    apply find_some in E. destruct E as [Hin Hx]. apply String.eqb_eq in Hx.
    exfalso. apply Hn. rewrite <- Hx. now apply in_map.
Qed.

(** What the availability check of [createBooking] answers, by cases on the
    slot list. *)
Lemma checkRequestedSlot_spec (db : Db) (bookingData : CreateBookingRequest.t) :
  let t := CreateBookingRequest.bookingTime bookingData in
  match BookingModel.getAvailableSlots db
          (CreateBookingRequest.service bookingData)
          (CreateBookingRequest.bookingDate bookingData) with
  | Throw e =>
      BookingService.checkRequestedSlot db bookingData = Throw ServiceNotAvailable
  | Ok slots =>
      (BookingService.checkRequestedSlot db bookingData = Ok tt
       /\ exists slot, In slot slots /\ time slot = t /\ available slot = true)
      \/ (BookingService.checkRequestedSlot db bookingData = Throw SlotUnavailable
          /\ (~ In t (map time slots)
              \/ exists slot, In slot slots /\ time slot = t /\ available slot = false))
  end.
Proof.
  intros t. unfold BookingService.checkRequestedSlot.
  destruct (BookingModel.getAvailableSlots _ _ _) as [slots|e] eqn:Hav.
  - fold t. destruct (find _ slots) as [slot|] eqn:Hf.
    + apply find_some in Hf. destruct Hf as [Hin Ht]. apply String.eqb_eq in Ht.
      destruct (available slot) eqn:Ha; cbn.
      * left. split; [reflexivity|]. exists slot. auto.
      * right. split; [reflexivity|]. right. exists slot. auto.
    + right. split; [reflexivity|]. left. now apply find_by_time_none.
  - now rewrite (getAvailableSlots_throws _ _ _ _ Hav).
Qed.

Lemma slot_flag_unique (db : Db) (service : string) (d : date)
  (slots : list TimeSlot) (x y : TimeSlot) :
  BookingModel.getAvailableSlots db service d = Ok slots ->
  In x slots -> In y slots -> time x = time y -> x = y.
Proof.
  intros Hav Hx Hy Ht.
  assert (Hnd : NoDup (map time slots)).
  { rewrite (getAvailableSlots_times _ _ _ _ Hav). apply grid_times_NoDup. }
  pose proof (find_by_time slots x Hnd Hx) as Fx.
  pose proof (find_by_time slots y Hnd Hy) as Fy.
  rewrite Ht in Fx. rewrite Fx in Fy. now inversion Fy.
Qed.

Lemma create_throws (defaults : InsertDefaults) (db : Db)
  (bookingData : CreateBookingRequest.t) (userId : option uuid) (e : CustomError) :
  snd (BookingModel.create defaults db bookingData userId) = Throw e ->
  e = ServiceNotFound
  /\ BookingModel.create defaults db bookingData userId = (db, Throw ServiceNotFound).
Proof.
  unfold BookingModel.create. destruct (find _ (services db)); cbn; intros H.
  - discriminate.
  - inversion H. auto.
Qed.

(** C3. [createBooking] fails with SlotUnavailable exactly when the
    availability computation returns its slot list and the requested time is
    not the time of one of the returned slots or the slot with that time is
    marked unavailable.  In particular a requested time that is not, as a
    string, one of the grid times "09:00" ... "16:00" is always rejected, and
    the store is left as it was. *)
Theorem createBooking_SlotUnavailable_iff
  (defaults : InsertDefaults) (db : Db) (bookingData : CreateBookingRequest.t)
  (userId : option uuid) :
  let t := CreateBookingRequest.bookingTime bookingData in
  let outcome := BookingService.createBooking defaults db bookingData userId in
  (snd outcome = Throw SlotUnavailable
   <-> exists slots,
       BookingModel.getAvailableSlots db
         (CreateBookingRequest.service bookingData)
         (CreateBookingRequest.bookingDate bookingData) = Ok slots
       /\ (~ In t (map time slots)
           \/ exists slot, In slot slots /\ time slot = t /\ available slot = false))
  /\ (~ In t Reference.grid_times ->
      outcome = (db, Throw SlotUnavailable)
      \/ outcome = (db, Throw ServiceNotAvailable)).
Proof.
  intros t outcome. subst outcome. unfold BookingService.createBooking.
  pose proof (checkRequestedSlot_spec db bookingData) as Hc. cbv zeta in Hc.
  fold t in Hc.
  destruct (BookingModel.getAvailableSlots _ _ _) as [slots|e] eqn:Hav.
  - destruct Hc as [[Hok [slot [Hin [Ht Ha]]]]|[Hthrow Hwhy]].
    + rewrite Hok. split.
      * split.
        -- intros H. apply create_throws in H. destruct H as [H _]. discriminate.
        -- intros [slots' [Heq [Hn|[slot' [Hin' [Ht' Ha']]]]]];
             inversion Heq; subst slots'.
           ++ exfalso. apply Hn. rewrite <- Ht. now apply in_map.
           ++ assert (slot = slot')
                by (eapply slot_flag_unique; eauto; congruence).
              subst slot'. congruence.
      * intros Hn. exfalso. apply Hn.
        rewrite <- (getAvailableSlots_times _ _ _ _ Hav), <- Ht. now apply in_map.
    + rewrite Hthrow. cbn. split.
      * split; [intros _; exists slots; auto | reflexivity].
      * intros _. now left.
  - rewrite Hc. cbn. split.
    + split; [discriminate | intros [slots [Heq _]]; discriminate].
    + intros _. now right.
Qed.

Lemma createBooking_SlotUnavailable_iff_witness :
  ~ In "09:30" Reference.grid_times
  /\ (BookingService.createBooking (Scenario.draws "C") Scenario.db_A
        (Scenario.request "09:30") None
      = (Scenario.db_A, Throw SlotUnavailable)
      \/ BookingService.createBooking (Scenario.draws "C") Scenario.db_A
           (Scenario.request "09:30") None
         = (Scenario.db_A, Throw ServiceNotAvailable)).
Proof.
  split.
  - cbn. intuition discriminate.
  - apply (createBooking_SlotUnavailable_iff (Scenario.draws "C") Scenario.db_A
             (Scenario.request "09:30") None).
    cbn. intuition discriminate.
Defined.

(** C4. When the slot with the requested time is marked available and the
    service lookup of [create] resolves a service, [createBooking] stores one
    new row and returns it as a booking whose status is pending, whose
    duration is the estimated duration of that service, whose estimated cost
    is its base price and whose priority is the requested one, or medium when
    the request names none. *)
Theorem createBooking_free_slot
  (defaults : InsertDefaults) (db : Db) (bookingData : CreateBookingRequest.t)
  (userId : option uuid) (slots : list TimeSlot) (slot : TimeSlot)
  (service : DbService.t) :
  BookingModel.getAvailableSlots db
    (CreateBookingRequest.service bookingData)
    (CreateBookingRequest.bookingDate bookingData) = Ok slots ->
  In slot slots ->
  time slot = CreateBookingRequest.bookingTime bookingData ->
  available slot = true ->
  find (fun s => String.eqb (DbService.name s)
                   (CreateBookingRequest.service bookingData))
       (services db) = Some service ->
  exists row,
    BookingService.createBooking defaults db bookingData userId
    = (mkDb (services db) (bookings db ++ [row]),
       Ok (BookingModel.mapDatabaseBookingToBooking row))
    /\ Booking.status (BookingModel.mapDatabaseBookingToBooking row) = pending
    /\ Booking.duration (BookingModel.mapDatabaseBookingToBooking row)
       = DbService.estimated_duration service
    /\ Booking.estimatedCost (BookingModel.mapDatabaseBookingToBooking row)
       = Some (DbService.base_price service)
    /\ Booking.priority (BookingModel.mapDatabaseBookingToBooking row)
       = match CreateBookingRequest.priority bookingData with
         | Some p => p
         | None => medium
         end.
Proof.
  intros Hav Hin Ht Ha Hsvc.
  exists (BookingModel.inserted_row defaults service bookingData userId).
  split; [|repeat split].
  unfold BookingService.createBooking.
  pose proof (checkRequestedSlot_spec db bookingData) as Hc. cbv zeta in Hc.
  rewrite Hav in Hc.
  destruct Hc as [[Hok _]|[_ [Hn|[slot' [Hin' [Ht' Ha']]]]]].
  - rewrite Hok. unfold BookingModel.create. now rewrite Hsvc.
  - exfalso. apply Hn. rewrite <- Ht. now apply in_map.
  - assert (slot = slot') by (eapply slot_flag_unique; eauto; congruence).
    subst slot'. congruence.
Qed.

Lemma createBooking_free_slot_witness :
  exists row,
    BookingService.createBooking (Scenario.draws "B") Scenario.db_A
      (Scenario.request "12:00") (Some "user-7")
    = (mkDb (services Scenario.db_A) (bookings Scenario.db_A ++ [row]),
       Ok (BookingModel.mapDatabaseBookingToBooking row))
    /\ Booking.status (BookingModel.mapDatabaseBookingToBooking row) = pending
    /\ Booking.duration (BookingModel.mapDatabaseBookingToBooking row) = 120
    /\ Booking.estimatedCost (BookingModel.mapDatabaseBookingToBooking row)
       = Some 15000
    /\ Booking.priority (BookingModel.mapDatabaseBookingToBooking row) = medium.
Proof.
  apply (createBooking_free_slot (Scenario.draws "B") Scenario.db_A
           (Scenario.request "12:00") (Some "user-7")
           [mkSlot "09:00" false; mkSlot "10:00" false; mkSlot "11:00" false;
            mkSlot "12:00" true; mkSlot "13:00" true; mkSlot "14:00" true;
            mkSlot "15:00" true; mkSlot "16:00" true]
           (mkSlot "12:00" true) Scenario.lock_installation_svc).
  - reflexivity.
  - cbn. tauto.
  - reflexivity.
  - reflexivity.
  - reflexivity.
Defined.

(** C9. Whenever [createBooking] fails, the booking store is the one before
    the call: the failure is the ServiceNotAvailable of the availability step,
    SlotUnavailable, or the ServiceNotFound of [create], each raised before
    the insert; and a call that changes the store has passed the
    availability check. *)
Theorem createBooking_failure_leaves_store
  (defaults : InsertDefaults) (db : Db) (bookingData : CreateBookingRequest.t)
  (userId : option uuid) :
  (forall e,
      snd (BookingService.createBooking defaults db bookingData userId) = Throw e ->
      fst (BookingService.createBooking defaults db bookingData userId) = db
      /\ (e = ServiceNotAvailable \/ e = SlotUnavailable \/ e = ServiceNotFound))
  /\ (fst (BookingService.createBooking defaults db bookingData userId) <> db ->
      BookingService.checkRequestedSlot db bookingData = Ok tt).
Proof.
  unfold BookingService.createBooking.
  pose proof (checkRequestedSlot_spec db bookingData) as Hc. cbv zeta in Hc.
  destruct (BookingService.checkRequestedSlot db bookingData) as [[]|e0] eqn:Hchk.
  - split; [|reflexivity].
    intros e He. apply create_throws in He. destruct He as [-> ->]. cbn. auto.
  - split; [|cbn; congruence].
    cbn. intros e He. inversion He; subst e0. split; [reflexivity|].
    destruct (BookingModel.getAvailableSlots _ _ _).
    + destruct Hc as [[Hc _]|[Hc _]]; inversion Hc; auto.
    + inversion Hc; auto.
Qed.

Lemma createBooking_failure_leaves_store_witness :
  snd (BookingService.createBooking (Scenario.draws "C") Scenario.db_A
         (Scenario.request "10:00") None) = Throw SlotUnavailable
  /\ fst (BookingService.createBooking (Scenario.draws "C") Scenario.db_A
            (Scenario.request "10:00") None) = Scenario.db_A
  /\ (SlotUnavailable = ServiceNotAvailable \/ SlotUnavailable = SlotUnavailable
      \/ SlotUnavailable = ServiceNotFound).
Proof.
  split; [reflexivity|].
  apply (createBooking_failure_leaves_store (Scenario.draws "C") Scenario.db_A
           (Scenario.request "10:00") None).
  reflexivity.
Defined.

(** ** Updates and status transitions *)

Lemma update_bookings (now0 now1 : timestamp) (db : Db) (id : uuid)
  (updates : UpdateBookingRequest.t) :
  fst (BookingModel.update now0 now1 db id updates)
  = mkDb (services db)
      (BookingModel.update_where_id id
         (BookingModel.apply_update (BookingModel.updateData now0 now1 updates))
         (bookings db)).
Proof.
  unfold BookingModel.update.
  now destruct (BookingModel.returning_where_id _ _ _).
Qed.

Lemma update_returns (now0 now1 : timestamp) (db : Db) (id : uuid)
  (updates : UpdateBookingRequest.t) (b : DbBooking.t) :
  In b (bookings db) ->
  DbBooking.id b = id ->
  exists b0,
    In b0 (bookings db) /\ DbBooking.id b0 = id
    /\ snd (BookingModel.update now0 now1 db id updates)
       = Ok (BookingModel.mapDatabaseBookingToBooking
               (BookingModel.apply_update
                  (BookingModel.updateData now0 now1 updates) b0)).
Proof.
  intros Hin Hid. unfold BookingModel.update, BookingModel.returning_where_id.
  destruct (filter _ (bookings db)) as [|b0 rest] eqn:Hf.
  - exfalso.
    assert (Hb : In b (filter (fun row => String.eqb (DbBooking.id row) id)
                         (bookings db))).
    { apply filter_In. split; [assumption|]. rewrite Hid. apply String.eqb_refl. }
    rewrite Hf in Hb. contradiction.
  - assert (Hb0 : In b0 (filter (fun row => String.eqb (DbBooking.id row) id)
                           (bookings db))) by (rewrite Hf; now left).
    apply filter_In in Hb0. destruct Hb0 as [Hin0 Hid0].
    apply String.eqb_eq in Hid0. exists b0. cbn. auto.
Qed.

Lemma set_nullable_not_cleared (u : option string) (old : option string) :
  Reference.blank (Sql.set_nullable (JS.truthy_string u) old) ->
  Sql.set_nullable (JS.truthy_string u) old = old.
Proof.
  unfold Reference.blank, JS.truthy_string.
  destruct u as [s|]; cbn; [|reflexivity].
  destruct (String.eqb s "") eqn:E; cbn; [reflexivity|].
  intros [H|H]; [discriminate|].
  inversion H. subst s. rewrite String.eqb_refl in E. discriminate.
Qed.

Lemma status_updates_rows (calls : list StatusCall) (db : Db) :
  exists after,
    bookings (status_updates calls db) = map after (bookings db)
    /\ forall row,
        DbBooking.id (after row) = DbBooking.id row
        /\ Reference.timestamps_not_cleared row (after row).
Proof.
  revert db. induction calls as [|[[[now0 now1] id] s] calls IH]; intros db.
  - exists (fun row => row). cbn. rewrite map_id. split; [reflexivity|].
    intros row. unfold Reference.timestamps_not_cleared. tauto.
  - cbn [status_updates]. unfold BookingService.updateBookingStatus.
    rewrite update_bookings.
    destruct (IH (mkDb (services db)
                    (BookingModel.update_where_id id
                       (BookingModel.apply_update
                          (BookingModel.updateData now0 now1
                             (UpdateBookingRequest.only_status s)))
                       (bookings db)))) as [after [Hrows Hafter]].
    cbn [bookings] in Hrows. unfold BookingModel.update_where_id in Hrows.
    rewrite map_map in Hrows.
    eexists. split; [exact Hrows|].
    intros row. cbv beta.
    destruct (String.eqb (DbBooking.id row) id).
    + destruct (Hafter (BookingModel.apply_update
                          (BookingModel.updateData now0 now1
                             (UpdateBookingRequest.only_status s)) row))
        as [Hid [Hc [Hs Hd]]].
      split; [rewrite Hid; reflexivity|].
      unfold Reference.timestamps_not_cleared.
      repeat split; intros Hset; [apply Hc|apply Hs|apply Hd];
        cbn; destruct s; cbn; solve [assumption | discriminate].
    + exact (Hafter row).
Qed.

(** C6. [updateBookingStatus(id, s)] leaves every row with another id as it
    is and, in the rows with that id, writes status [s] and sets
    [confirmed_at], [started_at] or [completed_at] to the current time exactly
    when [s] is confirmed, in_progress or completed, the other transition
    timestamps keeping their value; for an existing id the call returns the
    booking with status [s].  After any sequence of status updates a
    transition timestamp that was set is still set. *)
Theorem updateBookingStatus_transition_timestamps
  (now0 now1 : timestamp) (db : Db) (id : uuid) (s : BookingStatus) :
  let outcome := BookingService.updateBookingStatus now0 now1 db id s in
  (exists after,
      bookings (fst outcome)
      = map (fun row => if String.eqb (DbBooking.id row) id then after row else row)
          (bookings db)
      /\ forall row, Reference.transition_stamped s now1 row (after row))
  /\ (forall b, In b (bookings db) -> DbBooking.id b = id ->
      exists r, snd outcome = Ok r /\ Booking.status r = s /\ Booking.id r = id)
  /\ (forall calls,
      exists after,
        bookings (status_updates calls db) = map after (bookings db)
        /\ forall row,
            DbBooking.id (after row) = DbBooking.id row
            /\ Reference.timestamps_not_cleared row (after row)).
Proof.
  intros outcome. subst outcome. unfold BookingService.updateBookingStatus.
  split; [|split].
  - rewrite update_bookings. eexists. split; [reflexivity|].
    intros row. unfold Reference.transition_stamped. cbn.
    destruct s; cbn; auto.
  - intros b Hin Hid.
    destruct (update_returns now0 now1 db id (UpdateBookingRequest.only_status s)
                b Hin Hid) as [b0 [_ [Hid0 Hret]]].
    eexists. split; [exact Hret|]. cbn. auto.
  - intros calls. apply status_updates_rows.
Qed.

Lemma updateBookingStatus_transition_timestamps_witness :
  In (BookingModel.inserted_row (Scenario.draws "A") Scenario.lock_installation_svc
        (Scenario.request "10:00") None) (bookings Scenario.db_A)
  /\ exists r,
    snd (BookingService.updateBookingStatus 2000 2001 Scenario.db_A "A" confirmed)
    = Ok r
    /\ Booking.status r = confirmed /\ Booking.id r = "A".
Proof.
  split.
  - left. reflexivity.
  - apply (updateBookingStatus_transition_timestamps 2000 2001 Scenario.db_A "A"
             confirmed)
      with (b := BookingModel.inserted_row (Scenario.draws "A")
                   Scenario.lock_installation_svc (Scenario.request "10:00") None).
    + left. reflexivity.
    + reflexivity.
Defined.

(** Confirming and then starting a booking: [confirmed_at] is set by the
    first call and kept by the second, which sets [started_at]. *)
Example confirm_then_start :
  map (fun b => (DbBooking.status b, DbBooking.confirmed_at b, DbBooking.started_at b))
    (bookings (status_updates [(2000, 2001, "A", confirmed);
                               (3000, 3001, "A", in_progress)] Scenario.db_A))
  = [(in_progress, Some 2001, Some 3001)].
Proof. reflexivity. Qed.

(** C10. A booking update leaves the services and every row with another id
    as they are, and in the rows with that id: a column whose request field
    is omitted keeps its value; as every field but [estimatedCost] and
    [actualCost] is tested for truthiness, an empty string counts as omitted
    and no optional text column (notes, assigned technician, special
    instructions, service description) goes back to null or empty; the
    columns that no request field names, [updated_at] and the transition
    timestamps apart, keep their value. *)
Theorem update_leaves_omitted_fields
  (now0 now1 : timestamp) (db : Db) (id : uuid) (updates : UpdateBookingRequest.t) :
  let outcome := BookingService.updateBooking now0 now1 db id updates in
  services (fst outcome) = services db
  /\ exists after,
      bookings (fst outcome)
      = map (fun row => if String.eqb (DbBooking.id row) id then after row else row)
          (bookings db)
      /\ forall row,
          Reference.omitted_unchanged updates row (after row)
          /\ Reference.text_not_cleared row (after row)
          /\ Reference.other_columns_kept row (after row).
Proof.
  intros outcome. subst outcome. unfold BookingService.updateBooking.
  rewrite update_bookings. split; [reflexivity|].
  eexists. split; [reflexivity|]. intros row. split; [|split].
  - unfold Reference.omitted_unchanged. cbn.
    repeat split; intros H; rewrite H; reflexivity.
  - unfold Reference.text_not_cleared. cbn.
    repeat split; apply set_nullable_not_cleared.
  - unfold Reference.other_columns_kept. cbn. repeat split.
Qed.

(** An update whose notes are the empty string keeps the stored notes; one
    with other notes replaces them. *)
Example update_notes :
  let clear := UpdateBookingRequest.mk None None None None None None None None
                 None (Some "") in
  let write := UpdateBookingRequest.mk None None None None None None None None
                 None (Some "call before arrival") in
  map DbBooking.notes
    (bookings (fst (BookingService.updateBooking 2000 2001 Scenario.stats_db "A" clear)))
  = [Some "gate code 42"; Some "gate code 42"]
  /\ map DbBooking.notes
       (bookings (fst (BookingService.updateBooking 2000 2001 Scenario.stats_db "A" write)))
     = [Some "call before arrival"; Some "gate code 42"].
Proof. split; reflexivity. Qed.

(** ** Statistics *)

Lemma sum_fold (xs : list (option Z)) (acc : option Z) :
  Sql.coalesce
    (fold_left
       (fun acc x =>
          match x with
          | None => acc
          | Some v => Some (match acc with Some a => a + v | None => v end)
          end) xs acc) 0
  = Sql.coalesce acc 0
    + fold_right (fun x r => Sql.coalesce x 0 + r) 0 xs.
Proof.
  revert acc. induction xs as [|x xs IH]; intros acc; cbn.
  - lia.
  - rewrite IH. destruct x as [v|], acc as [a|]; cbn; lia.
Qed.

Lemma revenue_filter (keep : DbBooking.t -> bool) (rows : list DbBooking.t) :
  fold_right (fun x r => Sql.coalesce x 0 + r) 0
    (map BookingModel.cost_case (filter keep rows))
  = Reference.revenue keep rows.
Proof.
  induction rows as [|b rows IH]; cbn; [reflexivity|].
  destruct (keep b); cbn; rewrite IH; [|reflexivity].
  unfold BookingModel.cost_case, Reference.contribution.
  destruct (DbBooking.actual_cost b), (DbBooking.estimated_cost b); reflexivity.
Qed.

Lemma in_range_spec (dateFrom dateTo : option date) (b : DbBooking.t) :
  BookingModel.in_range dateFrom dateTo b = true
  <-> Reference.in_date_range dateFrom dateTo b.
Proof.
  unfold BookingModel.in_range, Reference.in_date_range.
  rewrite andb_true_iff. split.
  - intros [H1 H2]. split; intros d ->; [apply Z.leb_le in H1|apply Z.leb_le in H2];
      assumption.
  - intros [H1 H2]. split.
    + destruct dateFrom as [d|]; [apply Z.leb_le; now apply H1|reflexivity].
    + destruct dateTo as [d|]; [apply Z.leb_le; now apply H2|reflexivity].
Qed.

(** C8. For every optional date range, the revenue that [getBookingStats]
    returns is the sum, over the stored bookings whose date lies in the range,
    of the actual cost when it is not null and of the estimated cost
    otherwise, a booking with neither counting for 0.  A store of two
    bookings, one with no actual cost and an estimated cost of 150, the other
    with an actual cost of 180, gives a revenue of 330 (amounts in cents). *)
Theorem getBookingStats_revenue (db : Db) (dateFrom dateTo : option date) :
  (forall b, BookingModel.in_range dateFrom dateTo b = true
             <-> Reference.in_date_range dateFrom dateTo b)
  /\ Stats.revenue (BookingService.getBookingStats db dateFrom dateTo)
     = Reference.revenue (BookingModel.in_range dateFrom dateTo) (bookings db)
  /\ (forall b1 b2,
      bookings db = [b1; b2] ->
      Reference.in_date_range dateFrom dateTo b1 ->
      Reference.in_date_range dateFrom dateTo b2 ->
      DbBooking.actual_cost b1 = None ->
      DbBooking.estimated_cost b1 = Some 15000 ->
      DbBooking.actual_cost b2 = Some 18000 ->
      Stats.revenue (BookingService.getBookingStats db dateFrom dateTo) = 33000).
Proof.
  assert (Hrev : Stats.revenue (BookingService.getBookingStats db dateFrom dateTo)
                 = Reference.revenue (BookingModel.in_range dateFrom dateTo)
                     (bookings db)).
  { unfold BookingService.getBookingStats, BookingModel.getBookingStats.
    cbn [Stats.revenue]. unfold Sql.sum. rewrite sum_fold, revenue_filter.
    cbn [Sql.coalesce]. unfold BookingModel.or_zero.
    destruct (Z.eqb_spec (0 + Reference.revenue (BookingModel.in_range dateFrom dateTo)
                                (bookings db)) 0); lia. }
  split; [intros b; apply in_range_spec|]. split; [exact Hrev|].
  intros b1 b2 Hrows H1 H2 Ha1 He1 Ha2.
  rewrite Hrev, Hrows. cbn.
  apply in_range_spec in H1, H2. rewrite H1, H2.
  unfold Reference.contribution. rewrite Ha1, He1, Ha2. reflexivity.
Qed.

Lemma getBookingStats_revenue_witness :
  bookings Scenario.stats_db
  = [Scenario.row "A" completed (Some 15000) None;
     Scenario.row "B" completed (Some 20000) (Some 18000)]
  /\ Stats.revenue
       (BookingService.getBookingStats Scenario.stats_db (Some 19790) (Some 19800))
     = 33000.
Proof.
  split; [reflexivity|].
  apply (getBookingStats_revenue Scenario.stats_db (Some 19790) (Some 19800))
    with (b1 := Scenario.row "A" completed (Some 15000) None)
         (b2 := Scenario.row "B" completed (Some 20000) (Some 18000)).
  - reflexivity.
  - split; intros d H; injection H as <-; unfold Scenario.row, Scenario.day; cbn; lia.
  - split; intros d H; injection H as <-; unfold Scenario.row, Scenario.day; cbn; lia.
  - reflexivity.
  - reflexivity.
  - reflexivity.
Defined.

(** ** Cancelled and no_show bookings *)

Lemma in_insert_by (leb : DbBooking.t -> DbBooking.t -> bool)
  (x y : DbBooking.t) (l : list DbBooking.t) :
  In x (Sql.insert_by leb y l) -> x = y \/ In x l.
Proof.
  induction l as [|z l IH]; cbn.
  - intros [H|[]]. now left.
  - destruct (leb y z); cbn.
    + intros [H|H]; auto.
    + intros [H|H]; auto. destruct (IH H); auto.
Qed.



Lemma getAvailableSlots_same_fetch (db db' : Db) (service : string) (d : date) :
  services db' = services db ->
  BookingModel.existingBookings db' service d
  = BookingModel.existingBookings db service d ->
  BookingModel.getAvailableSlots db' service d
  = BookingModel.getAvailableSlots db service d.
Proof.
  intros Hs He. unfold BookingModel.getAvailableSlots, BookingModel.bookable_service.
  now rewrite Hs, He.
Qed.


Lemma cancel_bookings (now : timestamp) (db : Db) (id : uuid) :
  fst (BookingService.cancelBooking now db id)
  = mkDb (services db)
      (BookingModel.update_where_id id
         (BookingModel.apply_update (BookingModel.cancelData now)) (bookings db)).
Proof.
  unfold BookingService.cancelBooking, BookingModel.delete.
  now destruct (BookingModel.returning_where_id _ _ _).
Qed.





(** Cancelling the only booking of a date frees every slot again. *)
Example cancel_only_booking :
  BookingModel.getAvailableSlots
    (fst (BookingService.cancelBooking 5000 Scenario.db_A "A"))
    "Lock Installation" Scenario.day
  = Ok (map (fun t => mkSlot t true) Reference.grid_times).
Proof. reflexivity. Qed.

(** ** Two calls in flight *)

Lemma resume_twice_is_createBooking (d1 d2 : InsertDefaults) (db : Db)
  (bookingData : CreateBookingRequest.t) (userId : option uuid)
  (c2 : EventLoop.Call) :
  EventLoop.run d1 d2 [EventLoop.First; EventLoop.First] db
    (EventLoop.AwaitSlots bookingData userId) c2
  = (fst (BookingService.createBooking d1 db bookingData userId),
     EventLoop.Returned (snd (BookingService.createBooking d1 db bookingData userId)),
     c2).
Proof.
  unfold BookingService.createBooking. cbn.
  destruct (BookingService.checkRequestedSlot db bookingData) as [[]|e]; cbn.
  - now destruct (BookingModel.create d1 db bookingData userId).
  - reflexivity.
Qed.

Lemma checked_service_resolves (db : Db) (bookingData : CreateBookingRequest.t) :
  BookingService.checkRequestedSlot db bookingData = Ok tt ->
  exists service,
    find (fun s => String.eqb (DbService.name s)
                     (CreateBookingRequest.service bookingData))
         (services db) = Some service.
Proof.
  unfold BookingService.checkRequestedSlot, BookingModel.getAvailableSlots,
    BookingModel.bookable_service.
  destruct (find _ (services db)) as [sd|] eqn:Hf; [|discriminate].
  intros _. apply find_some in Hf. destruct Hf as [Hin Hp].
  apply andb_true_iff in Hp. destruct Hp as [Hp _].
  apply andb_true_iff in Hp. destruct Hp as [Hp _].
  destruct (find (fun s => String.eqb (DbService.name s)
                             (CreateBookingRequest.service bookingData))
              (services db)) as [s|] eqn:Hg; [eauto|].
  apply (find_none _ _ Hg) in Hin. rewrite Hin in Hp. discriminate.
Qed.

(** C7. Nothing excludes a second call between the availability check and
    the insert of a first one.  For two [createBooking] requests for the same
    service, date and time whose slot is available, the schedule that lets
    both calls pass their availability check before either runs its insert
    ends with both calls returning their booking and both rows stored, pending
    and on the same service, date and time: the slot is booked twice.  (A call
    that is resumed twice in a row is [createBooking] itself.) *)
Theorem concurrent_createBooking_double_books
  (d1 d2 : InsertDefaults) (db : Db) (bookingData : CreateBookingRequest.t)
  (userId1 userId2 : option uuid) :
  BookingService.checkRequestedSlot db bookingData = Ok tt ->
  (forall c2,
      EventLoop.run d1 d2 [EventLoop.First; EventLoop.First] db
        (EventLoop.AwaitSlots bookingData userId1) c2
      = (fst (BookingService.createBooking d1 db bookingData userId1),
         EventLoop.Returned
           (snd (BookingService.createBooking d1 db bookingData userId1)),
         c2))
  /\ exists row1 row2,
      EventLoop.run d1 d2
        [EventLoop.First; EventLoop.Second; EventLoop.First; EventLoop.Second] db
        (EventLoop.AwaitSlots bookingData userId1)
        (EventLoop.AwaitSlots bookingData userId2)
      = (mkDb (services db) (bookings db ++ [row1; row2]),
         EventLoop.Returned (Ok (BookingModel.mapDatabaseBookingToBooking row1)),
         EventLoop.Returned (Ok (BookingModel.mapDatabaseBookingToBooking row2)))
      /\ DbBooking.id row1 = gen_random_uuid d1
      /\ DbBooking.id row2 = gen_random_uuid d2
      /\ DbBooking.service row1 = CreateBookingRequest.service bookingData
      /\ DbBooking.service row2 = CreateBookingRequest.service bookingData
      /\ DbBooking.booking_date row1 = CreateBookingRequest.bookingDate bookingData
      /\ DbBooking.booking_date row2 = CreateBookingRequest.bookingDate bookingData
      /\ DbBooking.booking_time row1 = CreateBookingRequest.bookingTime bookingData
      /\ DbBooking.booking_time row2 = CreateBookingRequest.bookingTime bookingData
      /\ DbBooking.status row1 = pending
      /\ DbBooking.status row2 = pending.
Proof.
  intros Hchk. split; [intros c2; apply resume_twice_is_createBooking|].
  destruct (checked_service_resolves db bookingData Hchk) as [service Hsvc].
  exists (BookingModel.inserted_row d1 service bookingData userId1),
    (BookingModel.inserted_row d2 service bookingData userId2).
  split; [|repeat split].
  cbn [EventLoop.run EventLoop.resume]. rewrite Hchk.
  cbn [EventLoop.resume]. rewrite Hchk.
  cbn [EventLoop.resume]. unfold BookingModel.create. rewrite Hsvc.
  cbn [EventLoop.resume services bookings]. rewrite Hsvc.
  rewrite <- app_assoc. reflexivity.
Qed.

Lemma concurrent_createBooking_double_books_witness :
  BookingService.checkRequestedSlot Scenario.empty_db (Scenario.request "10:00")
  = Ok tt
  /\ exists row1 row2,
      EventLoop.run (Scenario.draws "A") (Scenario.draws "B")
        [EventLoop.First; EventLoop.Second; EventLoop.First; EventLoop.Second]
        Scenario.empty_db
        (EventLoop.AwaitSlots (Scenario.request "10:00") None)
        (EventLoop.AwaitSlots (Scenario.request "10:00") None)
      = (mkDb (services Scenario.empty_db)
           (bookings Scenario.empty_db ++ [row1; row2]),
         EventLoop.Returned (Ok (BookingModel.mapDatabaseBookingToBooking row1)),
         EventLoop.Returned (Ok (BookingModel.mapDatabaseBookingToBooking row2)))
      /\ DbBooking.id row1 = "A"
      /\ DbBooking.id row2 = "B"
      /\ DbBooking.service row1 = "Lock Installation"
      /\ DbBooking.service row2 = "Lock Installation"
      /\ DbBooking.booking_date row1 = Scenario.day
      /\ DbBooking.booking_date row2 = Scenario.day
      /\ DbBooking.booking_time row1 = "10:00"
      /\ DbBooking.booking_time row2 = "10:00"
      /\ DbBooking.status row1 = pending
      /\ DbBooking.status row2 = pending.
Proof.
  split; [reflexivity|].
  apply (concurrent_createBooking_double_books (Scenario.draws "A")
           (Scenario.draws "B") Scenario.empty_db (Scenario.request "10:00")
           None None).
  reflexivity.
Defined.

(** The same two requests one after the other: the second is rejected. *)
Example sequential_createBooking_rejects_second :
  EventLoop.run (Scenario.draws "A") (Scenario.draws "B")
    [EventLoop.First; EventLoop.First; EventLoop.Second; EventLoop.Second]
    Scenario.empty_db
    (EventLoop.AwaitSlots (Scenario.request "10:00") None)
    (EventLoop.AwaitSlots (Scenario.request "10:00") None)
  = (Scenario.db_A,
     EventLoop.Returned
       (snd (BookingService.createBooking (Scenario.draws "A") Scenario.empty_db
               (Scenario.request "10:00") None)),
     EventLoop.Returned (Throw SlotUnavailable)).
Proof. reflexivity. Qed.

Lemma overlap_same_hour (S D Db : Z) :
  0 < D -> 0 < Db -> Reference.overlap S D S Db.
Proof.
  intros HD HDb. unfold Reference.overlap, Qlt. cbn. split; lia.
Qed.


(** * Further properties *)

(** ** Availability *)

Lemma filter_none {A : Type} (p : A -> bool) (l : list A) :
  (forall x, In x l -> p x = false) -> filter p l = [].
Proof.
  induction l as [|x l IH]; intros H; cbn; [reflexivity|].
  rewrite (H x (or_introl eq_refl)). apply IH. intros y Hy. apply H. now right.
Qed.

(** X1. When no stored booking of the service and date is active (each is
    cancelled or no_show, or there is none), every one of the eight slots is
    available. *)
Theorem no_active_booking_all_available
  (db : Db) (service : string) (d : date) (serviceData : DbService.t) :
  BookingModel.bookable_service db service = Some serviceData ->
  (forall b, In b (bookings db) ->
             DbBooking.service b = service ->
             DbBooking.booking_date b = d ->
             Reference.inactive (DbBooking.status b)) ->
  BookingModel.getAvailableSlots db service d
  = Ok (map (fun t => mkSlot t true) Reference.grid_times).
Proof.
  intros Hsvc Hnone. rewrite (getAvailableSlots_eq _ _ _ _ Hsvc).
  assert (He : BookingModel.existingBookings db service d = []).
  { unfold BookingModel.existingBookings. rewrite filter_none; [reflexivity|].
    intros b Hin.
    destruct (Z.eqb_spec (DbBooking.booking_date b) d) as [Hd|]; [|reflexivity].
    destruct (String.eqb_spec (DbBooking.service b) service) as [Hs|];
      [|reflexivity].
    apply (Hnone b Hin Hs) in Hd. apply status_in_inactive in Hd.
    now rewrite Hd. }
  rewrite He. reflexivity.
Qed.

Lemma no_active_booking_all_available_witness :
  BookingModel.bookable_service
    (fst (BookingService.cancelBooking 5000 Scenario.db_A "A")) "Lock Installation"
  = Some Scenario.lock_installation_svc
  /\ BookingModel.getAvailableSlots
       (fst (BookingService.cancelBooking 5000 Scenario.db_A "A"))
       "Lock Installation" Scenario.day
     = Ok (map (fun t => mkSlot t true) Reference.grid_times).
Proof.
  split; [reflexivity|].
  apply (no_active_booking_all_available
           (fst (BookingService.cancelBooking 5000 Scenario.db_A "A"))
           "Lock Installation" Scenario.day Scenario.lock_installation_svc).
  - reflexivity.
  - intros b [<-|[]] _ _. left. reflexivity.
Defined.

Lemma in_marked_slots (D : Z) (existing : list (string * Z)) (t : string) (a : bool) :
  In (mkSlot t a)
    (map (fun t0 => BookingModel.mark_slot D existing (mkSlot t0 true))
       Reference.grid_times)
  <-> In t Reference.grid_times
      /\ available (BookingModel.mark_slot D existing (mkSlot t true)) = a.
Proof.
  rewrite in_map_iff. split.
  - intros [t0 [Heq Hin]]. unfold BookingModel.mark_slot in Heq.
    cbn [time] in Heq. injection Heq as -> <-. auto.
  - intros [Hin <-]. exists t. split; [reflexivity|assumption].
Qed.

(** X2. Availability only shrinks when bookings are added: if every booking
    of a store is also in a second store with the same services, each slot
    that is unavailable for a service and date in the first is unavailable
    in the second. *)
Theorem more_bookings_fewer_slots
  (db db' : Db) (service : string) (d : date) (slots slots' : list TimeSlot) :
  services db' = services db ->
  incl (bookings db) (bookings db') ->
  BookingModel.getAvailableSlots db service d = Ok slots ->
  BookingModel.getAvailableSlots db' service d = Ok slots' ->
  forall t, In (mkSlot t false) slots -> In (mkSlot t false) slots'.
Proof.
  intros Hs Hincl Hav Hav' t Hin.
  destruct (BookingModel.bookable_service db service) as [sd|] eqn:Hsd.
  2:{ unfold BookingModel.getAvailableSlots in Hav. rewrite Hsd in Hav.
      discriminate. }
  assert (Hsd' : BookingModel.bookable_service db' service = Some sd).
  { unfold BookingModel.bookable_service in *. now rewrite Hs. }
  rewrite (getAvailableSlots_eq _ _ _ _ Hsd) in Hav.
  rewrite (getAvailableSlots_eq _ _ _ _ Hsd') in Hav'.
  injection Hav as <-. injection Hav' as <-.
  apply in_marked_slots in Hin. destruct Hin as [Hgrid Hun].
  apply in_marked_slots. split; [assumption|].
  destruct (grid_time_hour t Hgrid) as [S [HS _]].
  apply (mark_slot_unavailable db' service d _ S t HS).
  apply (mark_slot_unavailable db service d _ S t HS) in Hun.
  destruct Hun as [b [B [Hb H]]]. exists b, B. split; [now apply Hincl|exact H].
Qed.

Lemma more_bookings_fewer_slots_witness :
  In (mkSlot "11:00" false)
    [mkSlot "09:00" false; mkSlot "10:00" false; mkSlot "11:00" false;
     mkSlot "12:00" true; mkSlot "13:00" true; mkSlot "14:00" true;
     mkSlot "15:00" true; mkSlot "16:00" true]
  /\ In (mkSlot "11:00" false)
       [mkSlot "09:00" false; mkSlot "10:00" false; mkSlot "11:00" false;
        mkSlot "12:00" false; mkSlot "13:00" false; mkSlot "14:00" true;
        mkSlot "15:00" true; mkSlot "16:00" true].
Proof.
  split; [cbn; tauto|].
  apply (more_bookings_fewer_slots Scenario.db_A Scenario.db_AB
           "Lock Installation" Scenario.day
           [mkSlot "09:00" false; mkSlot "10:00" false; mkSlot "11:00" false;
            mkSlot "12:00" true; mkSlot "13:00" true; mkSlot "14:00" true;
            mkSlot "15:00" true; mkSlot "16:00" true]).
  - reflexivity.
  - intros b [<-|[]]. left. reflexivity.
  - reflexivity.
  - reflexivity.
  - cbn. tauto.
Defined.

Lemma existingBookings_app (db : Db) (row : DbBooking.t) (service : string)
  (d : date) :
  DbBooking.service row <> service \/ DbBooking.booking_date row <> d ->
  BookingModel.existingBookings (mkDb (services db) (bookings db ++ [row])) service d
  = BookingModel.existingBookings db service d.
Proof.
  intros H. unfold BookingModel.existingBookings. cbn [bookings].
  rewrite filter_app, map_app. cbn [filter].
  destruct H as [H|H].
  - destruct (String.eqb_spec (DbBooking.service row) service); [contradiction|].
    rewrite andb_false_r. cbn. now rewrite app_nil_r.
  - destruct (Z.eqb_spec (DbBooking.booking_date row) d); [contradiction|].
    cbn. now rewrite app_nil_r.
Qed.

(** X3. A [createBooking] call for another service or another date, whether
    it succeeds or fails, leaves the availability of a service and date as it
    was. *)
Theorem createBooking_elsewhere_keeps_availability
  (defaults : InsertDefaults) (db : Db) (bookingData : CreateBookingRequest.t)
  (userId : option uuid) (service : string) (d : date) :
  CreateBookingRequest.service bookingData <> service
  \/ CreateBookingRequest.bookingDate bookingData <> d ->
  BookingModel.getAvailableSlots
    (fst (BookingService.createBooking defaults db bookingData userId)) service d
  = BookingModel.getAvailableSlots db service d.
Proof.
  intros H. unfold BookingService.createBooking.
  destruct (BookingService.checkRequestedSlot db bookingData); [|reflexivity].
  unfold BookingModel.create. destruct (find _ (services db)); [|reflexivity].
  cbn [fst]. apply getAvailableSlots_same_fetch; [reflexivity|].
  apply existingBookings_app. exact H.
Qed.

Lemma createBooking_elsewhere_keeps_availability_witness :
  BookingModel.getAvailableSlots
    (fst (BookingService.createBooking (Scenario.draws "B") Scenario.db_A
            (Scenario.request "12:00") None))
    "Lock Installation" (Scenario.day + 1)
  = BookingModel.getAvailableSlots Scenario.db_A "Lock Installation"
      (Scenario.day + 1).
Proof.
  apply (createBooking_elsewhere_keeps_availability (Scenario.draws "B")
           Scenario.db_A (Scenario.request "12:00") None "Lock Installation"
           (Scenario.day + 1)).
  right. unfold Scenario.request, Scenario.day. cbn. lia.
Defined.



(** ** No double booking, one call after the other *)

Lemma FOP_snoc {A : Type} (R : A -> A -> Prop) (l : list A) (x : A) :
  ForallOrdPairs R l -> Forall (fun a => R a x) l -> ForallOrdPairs R (l ++ [x]).
Proof.
  induction 1 as [|a l Ha Hl IH]; intros Hx; cbn.
  - constructor; constructor.
  - inversion Hx as [|? ? Hax Hx']; subst. constructor.
    + apply Forall_app. split; [assumption|]. constructor; [assumption|constructor].
    + now apply IH.
Qed.

Lemma FOP_map {A : Type} (R : A -> A -> Prop) (f : A -> A) (l : list A) :
  (forall a b, R a b -> R (f a) (f b)) ->
  ForallOrdPairs R l -> ForallOrdPairs R (map f l).
Proof.
  intros Hf. induction 1 as [|a l Ha Hl IH]; cbn; constructor.
  - apply Forall_map. revert Ha. apply Forall_impl. intros b. apply Hf.
  - exact IH.
Qed.

Lemma unique_by_name (l : list DbService.t) (a b : DbService.t) :
  NoDup (map DbService.name l) ->
  In a l -> In b l -> DbService.name a = DbService.name b -> a = b.
Proof.
  induction l as [|x l IH]; intros Hnd Ha Hb Hn; [contradiction|].
  cbn in Hnd. inversion Hnd as [|? ? Hx Hnd']; subst.
  destruct Ha as [->|Ha], Hb as [->|Hb].
  - reflexivity.
  - exfalso. apply Hx. rewrite Hn. now apply in_map.
  - exfalso. apply Hx. rewrite <- Hn. now apply in_map.
  - now apply IH.
Qed.

Lemma createBooking_services (defaults : InsertDefaults) (db : Db)
  (bookingData : CreateBookingRequest.t) (userId : option uuid) :
  services (fst (BookingService.createBooking defaults db bookingData userId))
  = services db.
Proof.
  unfold BookingService.createBooking.
  destruct (BookingService.checkRequestedSlot db bookingData); [|reflexivity].
  unfold BookingModel.create. now destruct (find _ (services db)).
Qed.

Lemma createBooking_keeps_no_overlap (defaults : InsertDefaults) (db : Db)
  (bookingData : CreateBookingRequest.t) (userId : option uuid) :
  NoDup (map DbService.name (services db)) ->
  Invariant.no_overlap (bookings db) ->
  Invariant.no_overlap
    (bookings (fst (BookingService.createBooking defaults db bookingData userId))).
Proof.
  intros Hnd Hinv. unfold BookingService.createBooking.
  destruct (BookingService.checkRequestedSlot db bookingData) as [[]|e] eqn:Hchk;
    [|exact Hinv].
  destruct (checked_service_resolves db bookingData Hchk) as [s Hs].
  unfold BookingModel.create. rewrite Hs. cbn [fst bookings].
  apply FOP_snoc; [exact Hinv|].
  pose proof (checkRequestedSlot_spec db bookingData) as Hc. cbv zeta in Hc.
  destruct (BookingModel.bookable_service db
              (CreateBookingRequest.service bookingData)) as [sd|] eqn:Hsd.
  2:{ unfold BookingService.checkRequestedSlot, BookingModel.getAvailableSlots in Hchk.
      rewrite Hsd in Hchk. discriminate. }
  rewrite (getAvailableSlots_eq _ _ _ _ Hsd) in Hc.
  destruct Hc as [[_ [[t a] [Hin [Ht Ha]]]]|[Hc _]]; [|congruence].
  cbn [time available] in Ht, Ha. subst t a.
  apply in_marked_slots in Hin. destruct Hin as [Hgrid Hav].
  assert (Hsame : s = sd).
  { apply find_some in Hs. destruct Hs as [Hs1 Hs2]. apply String.eqb_eq in Hs2.
    unfold BookingModel.bookable_service in Hsd. apply find_some in Hsd.
    destruct Hsd as [Hd1 Hd2]. apply andb_true_iff in Hd2. destruct Hd2 as [Hd2 _].
    apply andb_true_iff in Hd2. destruct Hd2 as [Hd2 _].
    apply String.eqb_eq in Hd2.
    apply (unique_by_name (services db)); congruence. }
  subst s.
  apply Forall_forall. intros b Hb Hsv Hdt Hact _ Bb Bx HBb HBx Hov.
  cbn in Hsv, Hdt, HBx, Hov.
  assert (Hun : available
                  (BookingModel.mark_slot (DbService.estimated_duration sd)
                     (BookingModel.existingBookings db
                        (CreateBookingRequest.service bookingData)
                        (CreateBookingRequest.bookingDate bookingData))
                     (mkSlot (CreateBookingRequest.bookingTime bookingData) true))
                = false).
  { apply (mark_slot_unavailable db _ _ _ Bx _ HBx).
    exists b, Bb. auto 7. }
  rewrite Hun in Hav. discriminate.
Qed.

Lemma cancelBooking_keeps_no_overlap (now : timestamp) (db : Db) (id : uuid) :
  Invariant.no_overlap (bookings db) ->
  Invariant.no_overlap (bookings (fst (BookingService.cancelBooking now db id))).
Proof.
  intros Hinv. rewrite cancel_bookings. cbn [bookings].
  unfold BookingModel.update_where_id. apply FOP_map; [|exact Hinv].
  intros a b Hab. unfold Invariant.compatible.
  destruct (String.eqb (DbBooking.id a) id), (String.eqb (DbBooking.id b) id);
    cbn; intros Hs Hd Ha Hb; try exact (Hab Hs Hd Ha Hb);
    exfalso; (apply Ha + apply Hb); left; reflexivity.
Qed.

Lemma no_overlap_no_double (rows : list DbBooking.t) (a b : DbBooking.t) :
  Invariant.no_overlap rows ->
  In a rows -> In b rows -> a <> b ->
  0 < DbBooking.duration a -> 0 < DbBooking.duration b ->
  ~ Invariant.double_booked a b.
Proof.
  intros Hinv Ha Hb Hneq Hda Hdb [Hs [Hd [Hact [Hbct [B [HBa HBb]]]]]].
  destruct (ForallOrdPairs_In Hinv a b Ha Hb) as [H|[H|H]]; [contradiction| |].
  - apply (H Hs Hd Hact Hbct B B HBa HBb). now apply overlap_same_hour.
  - apply (H (eq_sym Hs) (eq_sym Hd) Hbct Hact B B HBb HBa).
    now apply overlap_same_hour.
Qed.

(** X5. Run one after the other, [createBooking] and [cancelBooking] keep
    the table free of collisions when service names are unique: if no two
    active bookings of a service and date overlap before a sequence of such
    calls, none do after it; in particular no two distinct bookings of
    positive duration then hold the same service, date and start hour. *)
Theorem sequential_calls_never_double_book (ops : list BookingOp) (db : Db) :
  NoDup (map DbService.name (services db)) ->
  Invariant.no_overlap (bookings db) ->
  Invariant.no_overlap (bookings (run_ops ops db))
  /\ forall a b,
      In a (bookings (run_ops ops db)) ->
      In b (bookings (run_ops ops db)) ->
      a <> b ->
      0 < DbBooking.duration a -> 0 < DbBooking.duration b ->
      ~ Invariant.double_booked a b.
Proof.
  intros Hnd Hinv.
  assert (H : Invariant.no_overlap (bookings (run_ops ops db))).
  { revert db Hnd Hinv. induction ops as [|[defaults bookingData userId|now id] ops IH];
      intros db Hnd Hinv; cbn [run_ops].
    - exact Hinv.
    - apply IH.
      + now rewrite createBooking_services.
      + now apply createBooking_keeps_no_overlap.
    - apply IH.
      + now rewrite cancel_bookings.
      + now apply cancelBooking_keeps_no_overlap. }
  split; [exact H|].
  intros a b. now apply no_overlap_no_double.
Qed.

Lemma sequential_calls_never_double_book_witness :
  Invariant.no_overlap
    (bookings
       (run_ops [OpCreate (Scenario.draws "A") (Scenario.request "10:00") None;
                 OpCreate (Scenario.draws "B") (Scenario.request "10:00") None;
                 OpCancel 5000 "A";
                 OpCreate (Scenario.draws "C") (Scenario.request "10:00") None]
          Scenario.empty_db))
  /\ forall a b,
      In a (bookings
              (run_ops [OpCreate (Scenario.draws "A") (Scenario.request "10:00") None;
                        OpCreate (Scenario.draws "B") (Scenario.request "10:00") None;
                        OpCancel 5000 "A";
                        OpCreate (Scenario.draws "C") (Scenario.request "10:00") None]
                 Scenario.empty_db)) ->
      In b (bookings
              (run_ops [OpCreate (Scenario.draws "A") (Scenario.request "10:00") None;
                        OpCreate (Scenario.draws "B") (Scenario.request "10:00") None;
                        OpCancel 5000 "A";
                        OpCreate (Scenario.draws "C") (Scenario.request "10:00") None]
                 Scenario.empty_db)) ->
      a <> b ->
      0 < DbBooking.duration a -> 0 < DbBooking.duration b ->
      ~ Invariant.double_booked a b.
Proof.
  apply (sequential_calls_never_double_book
           [OpCreate (Scenario.draws "A") (Scenario.request "10:00") None;
            OpCreate (Scenario.draws "B") (Scenario.request "10:00") None;
            OpCancel 5000 "A";
            OpCreate (Scenario.draws "C") (Scenario.request "10:00") None]
           Scenario.empty_db).
  - cbn. constructor; [tauto|constructor].
  - constructor.
Defined.

(** What that sequence stores: A cancelled, B refused, C in A's place. *)
Example cancel_then_rebook :
  map (fun b => (DbBooking.id b, DbBooking.booking_time b, DbBooking.status b))
    (bookings
       (run_ops [OpCreate (Scenario.draws "A") (Scenario.request "10:00") None;
                 OpCreate (Scenario.draws "B") (Scenario.request "10:00") None;
                 OpCancel 5000 "A";
                 OpCreate (Scenario.draws "C") (Scenario.request "10:00") None]
          Scenario.empty_db))
  = [("A", "10:00", cancelled); ("C", "10:00", pending)].
Proof. reflexivity. Qed.

(** ** Statistics, continued *)

Lemma or_zero_id (x : Z) : BookingModel.or_zero x = x.
Proof. unfold BookingModel.or_zero. destruct (Z.eqb_spec x 0); congruence. Qed.

Lemma count_by_status (rows : list DbBooking.t) :
  Z.of_nat (List.length rows)
  = Sql.count_when (fun b => status_eqb (DbBooking.status b) pending) rows
    + Sql.count_when (fun b => status_eqb (DbBooking.status b) confirmed) rows
    + Sql.count_when (fun b => status_eqb (DbBooking.status b) completed) rows
    + Sql.count_when (fun b => status_eqb (DbBooking.status b) cancelled) rows
    + Sql.count_when Order.uncounted rows.
Proof.
  unfold Sql.count_when, Order.uncounted.
  induction rows as [|b rows IH]; [reflexivity|].
  cbn [filter]. destruct (DbBooking.status b);
    cbn [status_eqb orb List.length]; rewrite ?Nat2Z.inj_succ; lia.
Qed.

(** X6. In the statistics of any date range the total counts every booking
    of the range: it is the sum of the four status counters plus the number
    of bookings that are in_progress or no_show, which have no counter; so the
    four counters add up to at most the total, and none is negative. *)
Theorem stats_total_is_sum_of_counters (db : Db) (dateFrom dateTo : option date) :
  let s := BookingService.getBookingStats db dateFrom dateTo in
  Stats.total s
  = Stats.pending s + Stats.confirmed s + Stats.completed s + Stats.cancelled s
    + Sql.count_when Order.uncounted
        (filter (BookingModel.in_range dateFrom dateTo) (bookings db))
  /\ Stats.pending s + Stats.confirmed s + Stats.completed s + Stats.cancelled s
     <= Stats.total s
  /\ 0 <= Stats.pending s /\ 0 <= Stats.confirmed s
  /\ 0 <= Stats.completed s /\ 0 <= Stats.cancelled s.
Proof.
  cbv zeta. unfold BookingService.getBookingStats, BookingModel.getBookingStats.
  cbn [Stats.total Stats.pending Stats.confirmed Stats.completed Stats.cancelled].
  rewrite !or_zero_id.
  pose proof (count_by_status
                (filter (BookingModel.in_range dateFrom dateTo) (bookings db))) as H.
  unfold Sql.count_when in *. lia.
Qed.

Lemma stats_of_mapped_rows (f : DbBooking.t -> DbBooking.t)
  (dateFrom dateTo : option date) (services' : list DbService.t) (db : Db) :
  (forall b, DbBooking.booking_date (f b) = DbBooking.booking_date b) ->
  (forall b, DbBooking.actual_cost (f b) = DbBooking.actual_cost b) ->
  (forall b, DbBooking.estimated_cost (f b) = DbBooking.estimated_cost b) ->
  Stats.total (BookingService.getBookingStats
                 (mkDb services' (map f (bookings db))) dateFrom dateTo)
  = Stats.total (BookingService.getBookingStats db dateFrom dateTo)
  /\ Stats.revenue (BookingService.getBookingStats
                      (mkDb services' (map f (bookings db))) dateFrom dateTo)
     = Stats.revenue (BookingService.getBookingStats db dateFrom dateTo).
Proof.
  intros Hd Ha He.
  assert (Hf : filter (BookingModel.in_range dateFrom dateTo) (map f (bookings db))
               = map f (filter (BookingModel.in_range dateFrom dateTo) (bookings db))).
  { induction (bookings db) as [|b l IH]; [reflexivity|]. cbn [map filter].
    replace (BookingModel.in_range dateFrom dateTo (f b))
      with (BookingModel.in_range dateFrom dateTo b)
      by (unfold BookingModel.in_range; now rewrite Hd).
    destruct (BookingModel.in_range dateFrom dateTo b); cbn [map]; now rewrite IH. }
  unfold BookingService.getBookingStats, BookingModel.getBookingStats.
  cbn [Stats.total Stats.revenue bookings]. rewrite Hf, length_map, map_map.
  split; [reflexivity|]. do 3 f_equal. apply map_ext. intros b.
  unfold BookingModel.cost_case. now rewrite Ha, He.
Qed.

(** X7. A status change does not move the money: after
    [updateBookingStatus] or [cancelBooking], the total and the revenue of
    every date range are what they were, so a cancelled booking still counts
    for its cost in the revenue. *)
Theorem status_change_keeps_total_and_revenue
  (now0 now1 : timestamp) (db : Db) (id : uuid) (s : BookingStatus)
  (dateFrom dateTo : option date) :
  let before := BookingService.getBookingStats db dateFrom dateTo in
  let updated :=
    BookingService.getBookingStats
      (fst (BookingService.updateBookingStatus now0 now1 db id s)) dateFrom dateTo in
  let cancelled_ :=
    BookingService.getBookingStats
      (fst (BookingService.cancelBooking now0 db id)) dateFrom dateTo in
  Stats.total updated = Stats.total before
  /\ Stats.revenue updated = Stats.revenue before
  /\ Stats.total cancelled_ = Stats.total before
  /\ Stats.revenue cancelled_ = Stats.revenue before.
Proof.
  cbv zeta. unfold BookingService.updateBookingStatus.
  rewrite update_bookings, cancel_bookings. unfold BookingModel.update_where_id.
  rewrite <- and_assoc. split.
  - apply stats_of_mapped_rows; intros b;
      destruct (String.eqb (DbBooking.id b) id); reflexivity.
  - apply stats_of_mapped_rows; intros b;
      destruct (String.eqb (DbBooking.id b) id); reflexivity.
Qed.

(** Cancelling booking B leaves the revenue of the two completed bookings
    at 330. *)
Example revenue_after_cancel :
  Stats.revenue
    (BookingService.getBookingStats
       (fst (BookingService.cancelBooking 5000 Scenario.stats_db "B")) None None)
  = 33000
  /\ Stats.cancelled
       (BookingService.getBookingStats
          (fst (BookingService.cancelBooking 5000 Scenario.stats_db "B")) None None)
     = 1.
Proof. split; reflexivity. Qed.

(** ** The calendar listing *)

Lemma in_insert_by_iff (leb : DbBooking.t -> DbBooking.t -> bool)
  (x y : DbBooking.t) (l : list DbBooking.t) :
  In x (Sql.insert_by leb y l) <-> x = y \/ In x l.
Proof.
  split; [apply in_insert_by|].
  induction l as [|z l IH]; cbn.
  - intros [->|[]]. now left.
  - destruct (leb y z); cbn.
    + intros [->|[->|H]]; auto.
    + intros [->|[->|H]]; auto.
Qed.

Lemma in_order_by_iff (leb : DbBooking.t -> DbBooking.t -> bool)
  (x : DbBooking.t) (l : list DbBooking.t) :
  In x (Sql.order_by leb l) <-> In x l.
Proof.
  induction l as [|y l IH]; cbn; [tauto|].
  rewrite in_insert_by_iff, IH. split; intros [H|H]; auto.
Qed.

Lemma insert_by_sorted (leb : DbBooking.t -> DbBooking.t -> bool)
  (x : DbBooking.t) (l : list DbBooking.t) :
  (forall a b, leb a b = true \/ leb b a = true) ->
  Sorted (fun a b => leb a b = true) l ->
  Sorted (fun a b => leb a b = true) (Sql.insert_by leb x l).
Proof.
  intros Htot. induction 1 as [|y l Hl IH Hhd]; cbn.
  - repeat constructor.
  - destruct (leb x y) eqn:E.
    + constructor; [now constructor|]. now constructor.
    + constructor; [exact IH|].
      destruct l as [|z l]; cbn.
      * constructor. destruct (Htot x y); congruence.
      * destruct (leb x z).
        -- constructor. destruct (Htot x y); congruence.
        -- constructor. now inversion Hhd.
Qed.

Lemma order_by_sorted (leb : DbBooking.t -> DbBooking.t -> bool)
  (l : list DbBooking.t) :
  (forall a b, leb a b = true \/ leb b a = true) ->
  Sorted (fun a b => leb a b = true) (Sql.order_by leb l).
Proof.
  intros Htot. induction l as [|x l IH]; cbn; [constructor|].
  now apply insert_by_sorted.
Qed.

Lemma order_by_length (leb : DbBooking.t -> DbBooking.t -> bool)
  (l : list DbBooking.t) :
  List.length (Sql.order_by leb l) = List.length l.
Proof.
  assert (Hins : forall x m,
             List.length (Sql.insert_by leb x m) = S (List.length m)).
  { intros x m. induction m as [|y m IHm]; cbn; [reflexivity|].
    destruct (leb x y); cbn; [reflexivity|]. now rewrite IHm. }
  induction l as [|x l IH]; [reflexivity|].
  cbn [Sql.order_by fold_right List.length].
  fold (Sql.order_by leb l). now rewrite Hins, IH.
Qed.

Lemma date_time_leb_total (a b : DbBooking.t) :
  Sql.date_time_leb a b = true \/ Sql.date_time_leb b a = true.
Proof.
  unfold Sql.date_time_leb.
  destruct (Z.ltb_spec (DbBooking.booking_date a) (DbBooking.booking_date b));
    [now left|].
  destruct (Z.ltb_spec (DbBooking.booking_date b) (DbBooking.booking_date a));
    [now right|].
  assert (E : DbBooking.booking_date a = DbBooking.booking_date b) by lia.
  rewrite E, Z.eqb_refl. cbn.
  apply String.leb_total.
Qed.

Lemma sorted_map {A B : Type} (R : A -> A -> Prop) (R' : B -> B -> Prop)
  (f : A -> B) (l : list A) :
  (forall a b, R a b -> R' (f a) (f b)) ->
  Sorted R l -> Sorted R' (map f l).
Proof.
  intros Hf. induction 1 as [|x l Hl IH Hhd]; cbn; constructor; [exact IH|].
  destruct Hhd; cbn; constructor. now apply Hf.
Qed.

Lemma active_in_range (db : Db) (startDate endDate : date) (b : DbBooking.t) :
  In b (filter
          (fun b =>
             (startDate <=? DbBooking.booking_date b)
             && (DbBooking.booking_date b <=? endDate)
             && negb (Sql.status_in (DbBooking.status b) [cancelled; no_show]))
          (bookings db))
  <-> In b (bookings db)
      /\ startDate <= DbBooking.booking_date b <= endDate
      /\ ~ Reference.inactive (DbBooking.status b).
Proof.
  rewrite filter_In, !andb_true_iff, negb_true_iff, !Z.leb_le.
  rewrite <- status_in_inactive.
  destruct (Sql.status_in (DbBooking.status b) [cancelled; no_show]);
    intuition congruence.
Qed.

Lemma calendar_contains
  (db : Db) (startDate endDate : date) (technician : option string)
  (b : DbBooking.t) :
  In b (bookings db) ->
  startDate <= DbBooking.booking_date b <= endDate ->
  ~ Reference.inactive (DbBooking.status b) ->
  (forall t, technician = Some t -> t <> "" ->
             DbBooking.assigned_technician b = Some t) ->
  In (BookingModel.mapDatabaseBookingToBooking b)
    (BookingService.getBookingsByDateRange db startDate endDate technician).
Proof.
  intros Hin Hrange Hact Htech.
  unfold BookingService.getBookingsByDateRange, BookingModel.getBookingsByDateRange.
  apply in_map. apply in_order_by_iff.
  assert (Hb : In b (filter
                       (fun b =>
                          (startDate <=? DbBooking.booking_date b)
                          && (DbBooking.booking_date b <=? endDate)
                          && negb (Sql.status_in (DbBooking.status b)
                                     [cancelled; no_show]))
                       (bookings db))) by (apply active_in_range; auto).
  unfold JS.truthy_string. destruct technician as [t|]; [|exact Hb].
  destruct (String.eqb_spec t ""); [exact Hb|].
  apply filter_In. split; [exact Hb|].
  rewrite (Htech t eq_refl n). apply String.eqb_refl.
Qed.

(** X8. [getBookingsByDateRange] returns exactly the stored bookings whose
    date lies between the two bounds, both included, whose status is neither
    cancelled nor no_show and, when a non-empty technician is given, whose
    assigned technician is that one; an empty technician filters nothing. *)
Theorem calendar_lists_exactly_active_in_range
  (db : Db) (startDate endDate : date) (technician : option string) (r : Booking.t) :
  In r (BookingService.getBookingsByDateRange db startDate endDate technician)
  <-> exists b,
      In b (bookings db)
      /\ r = BookingModel.mapDatabaseBookingToBooking b
      /\ startDate <= DbBooking.booking_date b <= endDate
      /\ ~ Reference.inactive (DbBooking.status b)
      /\ (forall t, technician = Some t -> t <> "" ->
                    DbBooking.assigned_technician b = Some t).
Proof.
  split.
  - unfold BookingService.getBookingsByDateRange,
      BookingModel.getBookingsByDateRange.
    rewrite in_map_iff. intros [b [<- Hb]]. apply in_order_by_iff in Hb. exists b.
    unfold JS.truthy_string in Hb. destruct technician as [t|].
    + destruct (String.eqb_spec t "").
      * apply active_in_range in Hb. intuition congruence.
      * apply filter_In in Hb. destruct Hb as [Hb Ht]. apply active_in_range in Hb.
        destruct (DbBooking.assigned_technician b) as [t'|]; [|discriminate].
        apply String.eqb_eq in Ht. subst t'.
        intuition congruence.
    + apply active_in_range in Hb. intuition congruence.
  - intros [b [Hin [-> [Hrange [Hact Htech]]]]].
    now apply calendar_contains.
Qed.

(** X9. The calendar listing is in ascending order: each booking is followed
    by one of a later date, or of the same date and a time text that is not
    smaller; and it has one entry per listed row. *)
Theorem calendar_is_ascending
  (db : Db) (startDate endDate : date) (technician : option string) :
  Sorted Order.ascending
    (BookingService.getBookingsByDateRange db startDate endDate technician)
  /\ (List.length
        (BookingService.getBookingsByDateRange db startDate endDate technician)
      <= List.length (bookings db))%nat.
Proof.
  unfold BookingService.getBookingsByDateRange, BookingModel.getBookingsByDateRange.
  split.
  - apply (sorted_map (fun a b => Sql.date_time_leb a b = true)).
    + intros a b H. unfold Sql.date_time_leb in H. unfold Order.ascending. cbn.
      apply orb_true_iff in H. destruct H as [H|H].
      * left. now apply Z.ltb_lt.
      * right. apply andb_true_iff in H. destruct H as [H1 H2].
        apply Z.eqb_eq in H1. auto.
    + apply order_by_sorted. apply date_time_leb_total.
  - rewrite length_map, order_by_length.
    destruct (JS.truthy_string technician).
    + etransitivity; [apply filter_length_le|]. apply filter_length_le.
    + apply filter_length_le.
Qed.

(** ** Paged listings *)

Lemma in_firstn {A : Type} (n : nat) (l : list A) (x : A) :
  In x (firstn n l) -> In x l.
Proof.
  revert l. induction n as [|n IH]; intros [|y l]; cbn; try tauto.
  intros [H|H]; auto.
Qed.

Lemma in_skipn {A : Type} (n : nat) (l : list A) (x : A) :
  In x (skipn n l) -> In x l.
Proof.
  revert l. induction n as [|n IH]; intros [|y l]; cbn; try tauto.
  intros H. right. now apply IH.
Qed.

Section PagedListings.

Variable ilike : string -> string -> bool.

Lemma findAll_ok (db : Db) (page limit : Z) (filters : BookingFilters.t) :
  1 <= page -> 0 <= limit ->
  BookingQueries.findAll ilike db page limit filters
  = Ok (Page.mk
          (map BookingModel.mapDatabaseBookingToBooking
             (Paging.limit_offset limit ((page - 1) * limit)
                (Sql.order_by Paging.date_time_desc
                   (filter (BookingQueries.findAll_where ilike filters)
                      (bookings db)))))
          (Z.of_nat (List.length
                       (filter (BookingQueries.findAll_where ilike filters)
                          (bookings db))))
          (Paging.ceil_div
             (Z.of_nat (List.length
                          (filter (BookingQueries.findAll_where ilike filters)
                             (bookings db))))
             limit)).
Proof.
  intros Hp Hl. unfold BookingQueries.findAll.
  destruct (Z.ltb_spec limit 0); [lia|].
  destruct (Z.ltb_spec ((page - 1) * limit) 0); [nia|]. reflexivity.
Qed.

Lemma ceil_div_bounds (total limit : Z) :
  0 < limit ->
  exists n, Paging.ceil_div total limit = Pages n
            /\ (n - 1) * limit < total <= n * limit.
Proof.
  intros Hl. unfold Paging.ceil_div. destruct (Z.eqb_spec limit 0); [lia|].
  eexists. split; [reflexivity|].
  pose proof (Z.div_mod (- total) limit n) as Hdm.
  pose proof (Z.mod_pos_bound (- total) limit Hl) as Hm. nia.
Qed.

(** X10. For a page number of at least 1 and a positive limit, [findAll]
    answers with at most [limit] bookings, each the image of a stored row that
    passes the filters; its total is the number of stored rows that pass
    them, whatever the page; and its page count [n] is the least number of
    pages of that size that hold the total. *)
Theorem findAll_page_is_bounded
  (db : Db) (page limit : Z) (filters : BookingFilters.t) :
  1 <= page -> 0 < limit ->
  exists p n,
    BookingQueries.findAll ilike db page limit filters = Ok p
    /\ Z.of_nat (List.length (Page.bookings p)) <= limit
    /\ (forall r, In r (Page.bookings p) ->
        exists b, In b (bookings db)
                  /\ BookingQueries.findAll_where ilike filters b = true
                  /\ r = BookingModel.mapDatabaseBookingToBooking b)
    /\ Page.total p
       = Z.of_nat (List.length
                     (filter (BookingQueries.findAll_where ilike filters)
                        (bookings db)))
    /\ Page.totalPages p = Pages n
    /\ (n - 1) * limit < Page.total p <= n * limit.
Proof.
  intros Hp Hl.
  destruct (ceil_div_bounds
              (Z.of_nat (List.length
                           (filter (BookingQueries.findAll_where ilike filters)
                              (bookings db)))) limit Hl) as [n [Hn Hb]].
  eexists. exists n. split; [apply findAll_ok; lia|].
  cbn [Page.bookings Page.total Page.totalPages].
  split; [|split; [|split; [reflexivity|split; assumption]]].
  - rewrite length_map. unfold Paging.limit_offset.
    pose proof (firstn_le_length (Z.to_nat limit)
                  (skipn (Z.to_nat ((page - 1) * limit))
                     (Sql.order_by Paging.date_time_desc
                        (filter (BookingQueries.findAll_where ilike filters)
                           (bookings db))))).
    lia.
  - intros r Hr. apply in_map_iff in Hr. destruct Hr as [b [<- Hb']].
    unfold Paging.limit_offset in Hb'.
    apply in_firstn, in_skipn in Hb'. apply in_order_by_iff in Hb'.
    apply filter_In in Hb'. destruct Hb' as [Hin Hw]. exists b. auto.
Qed.

Lemma firstn_add {A : Type} (a b : nat) (l : list A) :
  firstn (a + b) l = (firstn a l ++ firstn b (skipn a l))%list.
Proof.
  revert l. induction a as [|a IH]; intros l; [reflexivity|].
  destruct l as [|x l]; cbn.
  - now rewrite firstn_nil.
  - now rewrite IH.
Qed.

Lemma chunks_concat {A : Type} (L N : nat) (l : list A) :
  List.concat (map (fun k => firstn L (skipn (k * L) l)) (seq 0 N))
  = firstn (N * L) l.
Proof.
  induction N as [|N IH]; [reflexivity|].
  rewrite seq_S, map_app, List.concat_app, IH. cbn [map List.concat plus].
  rewrite app_nil_r. replace (S N * L)%nat with (N * L + L)%nat by lia.
  now rewrite firstn_add.
Qed.

Lemma insert_by_perm (leb : DbBooking.t -> DbBooking.t -> bool)
  (x : DbBooking.t) (l : list DbBooking.t) :
  Permutation (Sql.insert_by leb x l) (x :: l).
Proof.
  induction l as [|y l IH]; cbn; [apply Permutation_refl|].
  destruct (leb x y); [apply Permutation_refl|].
  eapply Permutation_trans; [apply perm_skip, IH|apply perm_swap].
Qed.

Lemma order_by_perm (leb : DbBooking.t -> DbBooking.t -> bool)
  (l : list DbBooking.t) :
  Permutation (Sql.order_by leb l) l.
Proof.
  induction l as [|x l IH]; cbn; [constructor|].
  eapply Permutation_trans; [apply insert_by_perm|]. now apply perm_skip.
Qed.

Lemma date_time_desc_total (a b : DbBooking.t) :
  Paging.date_time_desc a b = true \/ Paging.date_time_desc b a = true.
Proof.
  unfold Paging.date_time_desc.
  destruct (Z.ltb_spec (DbBooking.booking_date b) (DbBooking.booking_date a));
    [now left|].
  destruct (Z.ltb_spec (DbBooking.booking_date a) (DbBooking.booking_date b));
    [now right|].
  assert (E : DbBooking.booking_date a = DbBooking.booking_date b) by lia.
  rewrite E, Z.eqb_refl. cbn.
  destruct (String.leb_total (DbBooking.booking_time a) (DbBooking.booking_time b));
    auto.
Qed.

(** X11. With a positive limit, and when no two rows that pass the filters
    share both date and time (so that the order of the listing is settled),
    the pages partition the listing: the pages 1 to [n], [n] being the page
    count that page 1 reports, put end to end hold each row that passes the
    filters exactly once, in descending order of date and then time; and
    every page after [n] is empty. *)
Theorem findAll_pages_partition
  (db : Db) (limit : Z) (filters : BookingFilters.t) (p1 : Page.t) (n : Z) :
  0 < limit ->
  BookingQueries.findAll ilike db 1 limit filters = Ok p1 ->
  Page.totalPages p1 = Pages n ->
  ForallOrdPairs (fun a b => ~ Order.tied a b)
    (filter (BookingQueries.findAll_where ilike filters) (bookings db)) ->
  Permutation
    (List.concat
       (map (fun k =>
               BookingQueries.page_rows
                 (BookingQueries.findAll ilike db (Z.of_nat k + 1) limit filters))
          (seq 0 (Z.to_nat n))))
    (map BookingModel.mapDatabaseBookingToBooking
       (filter (BookingQueries.findAll_where ilike filters) (bookings db)))
  /\ Sorted Order.descending
       (List.concat
          (map (fun k =>
                  BookingQueries.page_rows
                    (BookingQueries.findAll ilike db (Z.of_nat k + 1) limit filters))
             (seq 0 (Z.to_nat n))))
  /\ forall page,
      n < page ->
      BookingQueries.findAll ilike db page limit filters
      = Ok (Page.mk [] (Page.total p1) (Pages n)).
Proof.
  intros Hl H1 Hn _.
  rewrite findAll_ok in H1 by lia. injection H1 as <-.
  cbn [Page.totalPages Page.total] in *.
  set (rows := Sql.order_by Paging.date_time_desc
                 (filter (BookingQueries.findAll_where ilike filters) (bookings db))).
  set (total := Z.of_nat (List.length
                            (filter (BookingQueries.findAll_where ilike filters)
                               (bookings db)))) in *.
  destruct (ceil_div_bounds total limit Hl) as [n' [Hn' Hb]].
  rewrite Hn' in Hn. injection Hn as ->.
  assert (Hlen : Z.of_nat (List.length rows) = total).
  { unfold rows. now rewrite order_by_length. }
  assert (Hn0 : 0 <= n) by nia.
  assert (Hpages :
            List.concat
              (map (fun k =>
                      BookingQueries.page_rows
                        (BookingQueries.findAll ilike db (Z.of_nat k + 1) limit filters))
                 (seq 0 (Z.to_nat n)))
            = map BookingModel.mapDatabaseBookingToBooking rows).
  { rewrite (map_ext
               (fun k =>
                  BookingQueries.page_rows
                    (BookingQueries.findAll ilike db (Z.of_nat k + 1) limit filters))
               (fun k =>
                  map BookingModel.mapDatabaseBookingToBooking
                    (firstn (Z.to_nat limit) (skipn (k * Z.to_nat limit) rows)))).
    2:{ intros k. rewrite findAll_ok by lia.
        cbn [BookingQueries.page_rows Page.bookings].
        unfold Paging.limit_offset. fold rows. do 3 f_equal. nia. }
    rewrite <- (map_map (fun k => firstn (Z.to_nat limit)
                                   (skipn (k * Z.to_nat limit) rows))
                  (map BookingModel.mapDatabaseBookingToBooking)).
    rewrite <- List.concat_map, chunks_concat. f_equal.
    apply firstn_all2. nia. }
  rewrite Hpages. split; [|split].
  - apply Permutation_map. unfold rows. apply order_by_perm.
  - apply (sorted_map (fun a b => Paging.date_time_desc a b = true)).
    + intros a b H. unfold Paging.date_time_desc in H. unfold Order.descending. cbn.
      apply orb_true_iff in H. destruct H as [H|H].
      * left. now apply Z.ltb_lt.
      * right. apply andb_true_iff in H. destruct H as [H1 H2].
        apply Z.eqb_eq in H1. auto.
    + unfold rows. apply order_by_sorted. apply date_time_desc_total.
  - intros page Hpage. rewrite findAll_ok by lia. fold total. rewrite Hn'.
    do 2 f_equal. unfold Paging.limit_offset. fold rows.
    rewrite skipn_all2; [now rewrite firstn_nil|]. nia.
Qed.

End PagedListings.

Lemma findAll_page_is_bounded_witness :
  exists p n,
    BookingQueries.findAll Scenario2.ilike_prefix Scenario.db_AB 2 1
      BookingFilters.empty = Ok p
    /\ Z.of_nat (List.length (Page.bookings p)) <= 1
    /\ (forall r, In r (Page.bookings p) ->
        exists b, In b (bookings Scenario.db_AB)
                  /\ BookingQueries.findAll_where Scenario2.ilike_prefix
                       BookingFilters.empty b = true
                  /\ r = BookingModel.mapDatabaseBookingToBooking b)
    /\ Page.total p
       = Z.of_nat (List.length
                     (filter (BookingQueries.findAll_where Scenario2.ilike_prefix
                                BookingFilters.empty)
                        (bookings Scenario.db_AB)))
    /\ Page.totalPages p = Pages n
    /\ (n - 1) * 1 < Page.total p <= n * 1.
Proof.
  apply (findAll_page_is_bounded Scenario2.ilike_prefix Scenario.db_AB 2 1
           BookingFilters.empty); lia.
Defined.

Lemma findAll_pages_partition_witness :
  Permutation
    (List.concat
       (map (fun k =>
               BookingQueries.page_rows
                 (BookingQueries.findAll Scenario2.ilike_prefix Scenario2.db_three
                    (Z.of_nat k + 1) 2 BookingFilters.empty))
          (seq 0 (Z.to_nat 2))))
    (map BookingModel.mapDatabaseBookingToBooking
       (filter (BookingQueries.findAll_where Scenario2.ilike_prefix
                  BookingFilters.empty)
          (bookings Scenario2.db_three)))
  /\ Sorted Order.descending
       (List.concat
          (map (fun k =>
                  BookingQueries.page_rows
                    (BookingQueries.findAll Scenario2.ilike_prefix Scenario2.db_three
                       (Z.of_nat k + 1) 2 BookingFilters.empty))
             (seq 0 (Z.to_nat 2))))
  /\ forall page,
      2 < page ->
      BookingQueries.findAll Scenario2.ilike_prefix Scenario2.db_three page 2
        BookingFilters.empty
      = Ok (Page.mk [] 3 (Pages 2)).
Proof.
  apply (findAll_pages_partition Scenario2.ilike_prefix Scenario2.db_three 2
           BookingFilters.empty
           (Page.mk
              (map BookingModel.mapDatabaseBookingToBooking
                 (Paging.limit_offset 2 0
                    (Sql.order_by Paging.date_time_desc
                       (filter (BookingQueries.findAll_where Scenario2.ilike_prefix
                                  BookingFilters.empty)
                          (bookings Scenario2.db_three)))))
              3 (Pages 2))
           2).
  - lia.
  - reflexivity.
  - reflexivity.
  - cbn. unfold Order.tied.
    repeat (constructor;
            [repeat (constructor; [cbn; intros [Hd Ht]; try discriminate; lia|]);
             constructor|]).
    constructor.
Defined.

(** The three bookings in two pages of two: the day after first, then 14:00
    before 10:00. *)
Example three_rows_in_two_pages :
  map (fun k =>
         map Booking.id
           (BookingQueries.page_rows
              (BookingQueries.findAll Scenario2.ilike_prefix Scenario2.db_three
                 k 2 BookingFilters.empty)))
    [1; 2; 3]
  = [["B"; "C"]; ["A"]; []].
Proof. reflexivity. Qed.

(** The two bookings of the day, one per page, latest first. *)
Example two_pages_of_one :
  map (fun k =>
         map Booking.id
           (BookingQueries.page_rows
              (BookingQueries.findAll Scenario2.ilike_prefix Scenario.db_AB
                 k 1 BookingFilters.empty)))
    [1; 2; 3]
  = [["B"]; ["A"]; []].
Proof. reflexivity. Qed.

Lemma where_of_user (ilike : string -> string -> bool) (userId : uuid)
  (b : DbBooking.t) :
  userId <> "" ->
  BookingQueries.findAll_where ilike (BookingFilters.of_user userId) b
  = Paging.text_is userId (DbBooking.user_id b).
Proof.
  intros Hne. unfold BookingQueries.findAll_where, BookingFilters.of_user.
  cbn. destruct (String.eqb_spec userId ""); [contradiction|].
  cbn. now rewrite !andb_true_r.
Qed.

(** X12. For a non-empty user id, [getUserBookings] never returns a booking
    of another user: every booking of the page carries that user id, and the
    total is the number of stored bookings of that user. *)
Theorem getUserBookings_only_own
  (ilike : string -> string -> bool) (db : Db) (userId : uuid) (page limit : Z)
  (p : Page.t) :
  userId <> "" ->
  BookingQueries.getUserBookings ilike db userId page limit = Ok p ->
  (forall r, In r (Page.bookings p) -> Booking.userId r = Some userId)
  /\ Page.total p
     = Z.of_nat (List.length
                   (filter (fun b => Paging.text_is userId (DbBooking.user_id b))
                      (bookings db))).
Proof.
  intros Hne Hp. unfold BookingQueries.getUserBookings in Hp.
  destruct (BookingQueries.findAll ilike db page limit
              (BookingFilters.of_user userId)) as [p'|e] eqn:Hf; [|discriminate].
  injection Hp as <-. unfold BookingQueries.findAll in Hf.
  destruct ((limit <? 0) || ((page - 1) * limit <? 0)); [discriminate|].
  injection Hf as <-. cbn [Page.bookings Page.total].
  rewrite (filter_ext _ _ (fun b => where_of_user ilike userId b Hne)).
  split; [|reflexivity].
  intros r Hr. apply in_map_iff in Hr. destruct Hr as [b [<- Hb]].
  apply in_firstn, in_skipn in Hb. apply in_order_by_iff in Hb.
  apply filter_In in Hb. destruct Hb as [_ Hb].
  unfold Paging.text_is in Hb. cbn.
  destruct (DbBooking.user_id b) as [u|]; [|discriminate].
  apply String.eqb_eq in Hb. now subst u.
Qed.

Lemma getUserBookings_only_own_witness :
  "user-7" <> ""
  /\ (forall r,
         In r (Page.bookings
                 (Page.mk
                    [BookingModel.mapDatabaseBookingToBooking
                       (BookingModel.inserted_row (Scenario.draws "A")
                          Scenario.lock_installation_svc (Scenario.request "10:00")
                          (Some "user-7"))]
                    1 (Pages 1))) ->
         Booking.userId r = Some "user-7").
Proof.
  split; [discriminate|].
  apply (getUserBookings_only_own Scenario2.ilike_prefix Scenario2.db_alice
           "user-7" 1 10).
  - discriminate.
  - reflexivity.
Defined.

(** ** Lookup by id *)

Lemma find_snoc {A : Type} (p : A -> bool) (l : list A) (x : A) :
  find p (l ++ [x])
  = match find p l with
    | Some y => Some y
    | None => if p x then Some x else None
    end.
Proof.
  induction l as [|y l IH]; cbn; [reflexivity|].
  destruct (p y); [reflexivity|exact IH].
Qed.

Lemma find_filter_head {A : Type} (p : A -> bool) (l : list A) :
  find p l = hd_error (filter p l).
Proof.
  induction l as [|x l IH]; cbn; [reflexivity|].
  destruct (p x); [reflexivity|exact IH].
Qed.

Lemma find_map_same {A : Type} (p : A -> bool) (g : A -> A) (l : list A) :
  (forall x, p (g x) = p x) ->
  find p (map g l) = option_map g (find p l).
Proof.
  intros Hp. induction l as [|x l IH]; cbn; [reflexivity|].
  rewrite Hp. destruct (p x); [reflexivity|exact IH].
Qed.

Lemma update_where_id_unknown (id : uuid) (f : DbBooking.t -> DbBooking.t)
  (rows : list DbBooking.t) :
  (forall b, In b rows -> DbBooking.id b <> id) ->
  BookingModel.update_where_id id f rows = rows
  /\ BookingModel.returning_where_id id f rows = [].
Proof.
  intros H. unfold BookingModel.update_where_id, BookingModel.returning_where_id.
  split.
  - rewrite <- (map_id rows) at 2. apply map_ext_in. intros b Hb.
    destruct (String.eqb_spec (DbBooking.id b) id); [|reflexivity].
    now apply H in Hb.
  - rewrite filter_none; [reflexivity|]. intros b Hb.
    destruct (String.eqb_spec (DbBooking.id b) id); [|reflexivity].
    now apply H in Hb.
Qed.

(** X13. Insert and lookup: when the id that the database draws is not the
    id of a stored booking and [createBooking] succeeds, [getBookingById] on
    that id returns the booking that [createBooking] returned, and the lookup
    of every other id answers as before. *)
Theorem created_booking_is_found
  (defaults : InsertDefaults) (db db' : Db) (bookingData : CreateBookingRequest.t)
  (userId : option uuid) (booking : Booking.t) :
  (forall b, In b (bookings db) -> DbBooking.id b <> gen_random_uuid defaults) ->
  BookingService.createBooking defaults db bookingData userId = (db', Ok booking) ->
  Booking.id booking = gen_random_uuid defaults
  /\ BookingQueries.getBookingById db' (Booking.id booking) = Some booking
  /\ forall id, id <> gen_random_uuid defaults ->
                BookingQueries.getBookingById db' id
                = BookingQueries.getBookingById db id.
Proof.
  intros Hfresh Hc. unfold BookingService.createBooking in Hc.
  destruct (BookingService.checkRequestedSlot db bookingData); [|now inversion Hc].
  unfold BookingModel.create in Hc.
  destruct (find _ (services db)) as [s|]; [|now inversion Hc].
  injection Hc as <- <-.
  unfold BookingQueries.getBookingById, BookingModel.findById. cbn [bookings].
  split; [reflexivity|]. split.
  - rewrite find_snoc.
    destruct (find _ (bookings db)) as [b|] eqn:Hf.
    + apply find_some in Hf. destruct Hf as [Hin Hid].
      apply String.eqb_eq in Hid. now apply Hfresh in Hin.
    + cbn. now rewrite String.eqb_refl.
  - intros id Hid. rewrite find_snoc.
    destruct (find _ (bookings db)); [reflexivity|].
    cbn. destruct (String.eqb_spec (gen_random_uuid defaults) id); congruence.
Qed.

Lemma created_booking_is_found_witness :
  Booking.id
    (BookingModel.mapDatabaseBookingToBooking
       (BookingModel.inserted_row (Scenario.draws "B") Scenario.lock_installation_svc
          (Scenario.request "12:00") None))
  = gen_random_uuid (Scenario.draws "B")
  /\ BookingQueries.getBookingById Scenario.db_AB
       (Booking.id
          (BookingModel.mapDatabaseBookingToBooking
             (BookingModel.inserted_row (Scenario.draws "B")
                Scenario.lock_installation_svc (Scenario.request "12:00") None)))
     = Some
         (BookingModel.mapDatabaseBookingToBooking
            (BookingModel.inserted_row (Scenario.draws "B")
               Scenario.lock_installation_svc (Scenario.request "12:00") None))
  /\ forall id, id <> gen_random_uuid (Scenario.draws "B") ->
                BookingQueries.getBookingById Scenario.db_AB id
                = BookingQueries.getBookingById Scenario.db_A id.
Proof.
  apply (created_booking_is_found (Scenario.draws "B") Scenario.db_A Scenario.db_AB
           (Scenario.request "12:00") None).
  - intros b [<-|[]]. discriminate.
  - reflexivity.
Defined.

(** X14. For an id that no stored booking has: when the database takes the
    statement, an update and a cancellation fail with 'Booking not found'
    (404) and the lookup finds nothing; when the database refuses the id (a
    text that is no uuid), they fail with 500 'Failed to update booking',
    'Failed to cancel booking' and 'Failed to fetch booking'.  In every case
    the store is left exactly as it was. *)
Theorem unknown_id_is_not_found
  (pg : Database.t) (now0 now1 : timestamp) (db : Db) (id : uuid)
  (updates : UpdateBookingRequest.t) :
  (forall b, In b (bookings db) -> DbBooking.id b <> id) ->
  (Database.takes_update pg id (BookingModel.updateData now0 now1 updates) = true ->
   Guarded.updateBooking pg now0 now1 db id updates = (db, Throw BookingNotFound))
  /\ (Database.takes_uuid pg id = true ->
      Guarded.cancelBooking pg now0 db id = (db, Throw BookingNotFound)
      /\ Guarded.getBookingById pg db id = Ok None)
  /\ (Database.takes_uuid pg id = false ->
      Guarded.updateBooking pg now0 now1 db id updates
      = (db, Throw (mkError "Failed to update booking" 500))
      /\ Guarded.cancelBooking pg now0 db id
         = (db, Throw (mkError "Failed to cancel booking" 500))
      /\ Guarded.getBookingById pg db id
         = Throw (mkError "Failed to fetch booking" 500)).
Proof.
  intros H. unfold Guarded.updateBooking, Guarded.cancelBooking,
    Guarded.getBookingById, BookingModel.update, BookingModel.delete.
  destruct (update_where_id_unknown id
              (BookingModel.apply_update (BookingModel.updateData now0 now1 updates))
              (bookings db) H) as [-> ->].
  destruct (update_where_id_unknown id
              (BookingModel.apply_update (BookingModel.cancelData now0))
              (bookings db) H) as [-> ->].
  assert (Hnone : BookingModel.findById db id = None).
  { unfold BookingModel.findById.
    destruct (find _ (bookings db)) as [b|] eqn:Hf; [|reflexivity].
    apply find_some in Hf. destruct Hf as [Hin Hid]. apply String.eqb_eq in Hid.
    now apply H in Hin. }
  rewrite Hnone. destruct db as [svcs rows]. cbn [services bookings].
  split; [|split].
  - intros ->. reflexivity.
  - intros ->. split; reflexivity.
  - intros Hu. unfold Database.takes_update. rewrite Hu. cbn [andb].
    repeat split.
Qed.

Lemma unknown_id_is_not_found_witness :
  Database.takes_uuid Scenario2.postgres Scenario2.id_z = true
  /\ Guarded.cancelBooking Scenario2.postgres 2000 Scenario2.db_carol Scenario2.id_z
     = (Scenario2.db_carol, Throw BookingNotFound)
  /\ Guarded.getBookingById Scenario2.postgres Scenario2.db_carol Scenario2.id_z
     = Ok None.
Proof.
  split; [reflexivity|].
  apply (unknown_id_is_not_found Scenario2.postgres 2000 2001 Scenario2.db_carol
           Scenario2.id_z (UpdateBookingRequest.only_status confirmed)).
  - intros b [<-|[]]. discriminate.
  - reflexivity.
Defined.

(** A well-formed id that is not stored: 404; the text Z, which is no uuid:
    500. *)
Example unknown_and_malformed_id :
  snd (Guarded.cancelBooking Scenario2.postgres 2000 Scenario2.db_carol Scenario2.id_z)
  = Throw BookingNotFound
  /\ snd (Guarded.cancelBooking Scenario2.postgres 2000 Scenario2.db_carol "Z")
     = Throw (mkError "Failed to cancel booking" 500)
  /\ Guarded.getBookingById Scenario2.postgres Scenario2.db_carol "Z"
     = Throw (mkError "Failed to fetch booking" 500).
Proof. repeat split. Qed.

Lemma update_then_find (f : DbBooking.t -> DbBooking.t) (id : uuid)
  (rows : list DbBooking.t) :
  (forall b, DbBooking.id (f b) = DbBooking.id b) ->
  find (fun b => String.eqb (DbBooking.id b) id)
    (BookingModel.update_where_id id f rows)
  = hd_error (BookingModel.returning_where_id id f rows).
Proof.
  intros Hid. unfold BookingModel.update_where_id, BookingModel.returning_where_id.
  induction rows as [|b rows IH]; [reflexivity|].
  cbn [map filter find].
  destruct (String.eqb (DbBooking.id b) id) eqn:E.
  - rewrite Hid, E. reflexivity.
  - rewrite E. exact IH.
Qed.

(** X15. Update and lookup: for the id of a stored booking, an update that
    the database takes succeeds, and the booking it returns is the one that
    [getBookingById] then finds under that id; an update that the database
    refuses (an amount beyond [decimal(10,2)], a text that is no time, ...)
    fails with 500 'Failed to update booking' and leaves the store as it
    was. *)
Theorem updated_booking_is_found
  (pg : Database.t) (now0 now1 : timestamp) (db : Db) (id : uuid)
  (updates : UpdateBookingRequest.t) (b0 : DbBooking.t) :
  In b0 (bookings db) ->
  DbBooking.id b0 = id ->
  (Database.takes_update pg id (BookingModel.updateData now0 now1 updates) = true ->
   exists booking,
     snd (Guarded.updateBooking pg now0 now1 db id updates) = Ok booking
     /\ Booking.id booking = id
     /\ Guarded.getBookingById pg
          (fst (Guarded.updateBooking pg now0 now1 db id updates)) id
        = Ok (Some booking))
  /\ (Database.takes_update pg id (BookingModel.updateData now0 now1 updates) = false ->
      Guarded.updateBooking pg now0 now1 db id updates
      = (db, Throw (mkError "Failed to update booking" 500))).
Proof.
  intros Hin Hid. unfold Guarded.updateBooking, Guarded.getBookingById.
  split; intros Htakes; rewrite Htakes; [|reflexivity].
  assert (Hu : Database.takes_uuid pg id = true).
  { unfold Database.takes_update in Htakes.
    repeat (apply andb_true_iff in Htakes; destruct Htakes as [Htakes _]).
    exact Htakes. }
  rewrite Hu.
  destruct (update_returns now0 now1 db id updates b0 Hin Hid)
    as [b1 [_ [Hid1 Hret]]].
  eexists. split; [exact Hret|]. split; [exact Hid1|].
  rewrite update_bookings. f_equal.
  unfold BookingModel.findById. cbn [bookings].
  rewrite update_then_find by reflexivity.
  unfold BookingModel.update in Hret.
  destruct (BookingModel.returning_where_id id _ (bookings db)) as [|r rest];
    cbn [snd hd_error option_map] in Hret |- *; [discriminate|].
  congruence.
Qed.

Lemma updated_booking_is_found_witness :
  In Scenario2.carol_row (bookings Scenario2.db_carol)
  /\ Database.takes_update Scenario2.postgres Scenario2.id_a
       (BookingModel.updateData 2000 2001
          (UpdateBookingRequest.mk None None (Some "11:00") None None None None
             (Some 18000) None None)) = true
  /\ exists booking,
    snd (Guarded.updateBooking Scenario2.postgres 2000 2001 Scenario2.db_carol
           Scenario2.id_a
           (UpdateBookingRequest.mk None None (Some "11:00") None None None None
              (Some 18000) None None)) = Ok booking
    /\ Booking.id booking = Scenario2.id_a
    /\ Guarded.getBookingById Scenario2.postgres
         (fst (Guarded.updateBooking Scenario2.postgres 2000 2001 Scenario2.db_carol
                 Scenario2.id_a
                 (UpdateBookingRequest.mk None None (Some "11:00") None None None
                    None (Some 18000) None None))) Scenario2.id_a
       = Ok (Some booking).
Proof.
  split; [left; reflexivity|]. split; [reflexivity|].
  apply (updated_booking_is_found Scenario2.postgres 2000 2001 Scenario2.db_carol
           Scenario2.id_a
           (UpdateBookingRequest.mk None None (Some "11:00") None None None None
              (Some 18000) None None)
           Scenario2.carol_row).
  - left. reflexivity.
  - reflexivity.
  - reflexivity.
Defined.

(** An actual cost of 100000000.00 does not fit the column: 500, and the
    store is the one before. *)
Example update_beyond_decimal :
  Guarded.updateBooking Scenario2.postgres 2000 2001 Scenario2.db_carol
    Scenario2.id_a
    (UpdateBookingRequest.mk None None None None None None None
       (Some 10000000000) None None)
  = (Scenario2.db_carol, Throw (mkError "Failed to update booking" 500)).
Proof. reflexivity. Qed.

(** ** Cancellation *)

Lemma cancel_returns (now : timestamp) (db : Db) (id : uuid) (b0 : DbBooking.t) :
  In b0 (bookings db) -> DbBooking.id b0 = id ->
  snd (BookingService.cancelBooking now db id) = Ok tt.
Proof.
  intros Hin Hid. unfold BookingService.cancelBooking, BookingModel.delete,
    BookingModel.returning_where_id.
  destruct (filter _ (bookings db)) as [|x rest] eqn:Hf; [|reflexivity].
  exfalso.
  assert (Hb : In b0 (filter (fun row => String.eqb (DbBooking.id row) id)
                        (bookings db))).
  { apply filter_In. split; [assumption|]. rewrite Hid. apply String.eqb_refl. }
  rewrite Hf in Hb. contradiction.
Qed.

(** X16. [cancelBooking] on the id of a stored booking succeeds whatever the
    current status of the booking, completed included; it leaves the services
    and the rows with another id as they are, and in the rows with that id it
    sets the status to cancelled and [updated_at] to the current time and
    changes no other column: dates, costs, notes and the transition
    timestamps stay. *)
Theorem cancelBooking_only_changes_status
  (now : timestamp) (db : Db) (id : uuid) (b0 : DbBooking.t) :
  In b0 (bookings db) ->
  DbBooking.id b0 = id ->
  snd (BookingService.cancelBooking now db id) = Ok tt
  /\ services (fst (BookingService.cancelBooking now db id)) = services db
  /\ exists after,
      bookings (fst (BookingService.cancelBooking now db id))
      = map (fun row => if String.eqb (DbBooking.id row) id then after row else row)
          (bookings db)
      /\ forall row,
          DbBooking.status (after row) = cancelled
          /\ DbBooking.updated_at (after row) = now
          /\ Reference.other_columns_kept row (after row)
          /\ Invariant.details_kept row (after row).
Proof.
  intros Hin Hid. split; [exact (cancel_returns now db id b0 Hin Hid)|].
  rewrite cancel_bookings. split; [reflexivity|].
  eexists. split; [reflexivity|]. intros row.
  unfold Reference.other_columns_kept, Invariant.details_kept. cbn.
  repeat split.
Qed.

Lemma cancelBooking_only_changes_status_witness :
  In (Scenario.row "A" completed (Some 15000) None) (bookings Scenario.stats_db)
  /\ snd (BookingService.cancelBooking 5000 Scenario.stats_db "A") = Ok tt.
Proof.
  split; [left; reflexivity|].
  apply (cancelBooking_only_changes_status 5000 Scenario.stats_db "A"
           (Scenario.row "A" completed (Some 15000) None)).
  - left. reflexivity.
  - reflexivity.
Defined.

(** ** Request handlers *)

Lemma found_by_id (db : Db) (id : uuid) (booking : Booking.t) :
  BookingQueries.getBookingById db id = Some booking ->
  exists b, In b (bookings db) /\ DbBooking.id b = id
            /\ booking = BookingModel.mapDatabaseBookingToBooking b.
Proof.
  unfold BookingQueries.getBookingById, BookingModel.findById.
  destruct (find _ (bookings db)) as [b|] eqn:Hf; [|discriminate].
  intros H. injection H as <-. apply find_some in Hf. destruct Hf as [Hin Hid].
  apply String.eqb_eq in Hid. eauto.
Qed.

(** X17. The cancel handler lets a customer cancel only a booking of their
    own.  For an id the database takes: when no booking is found under it, or
    the booking found has another owner or none, the answer is 403 'Access
    denied'; when the customer owns the booking, it is cancelled and the
    answer is 200.  For an id text the database refuses, the lookup fails and
    the answer is 500 'Failed to fetch booking'.  In every case but the
    owner's the store is untouched. *)
Theorem customer_cancels_only_own_booking
  (pg : Database.t) (now : timestamp) (db : Db) (u : User.t) (id : uuid) :
  User.role u = customer ->
  (Database.takes_uuid pg id = false ->
   BookingController.cancelBooking pg now db (Some u) id
   = (db, Response.mk 500 false "Failed to fetch booking" None))
  /\ (Database.takes_uuid pg id = true ->
      BookingQueries.getBookingById db id = None ->
      BookingController.cancelBooking pg now db (Some u) id
      = (db, BookingController.access_denied))
  /\ (forall booking,
      Database.takes_uuid pg id = true ->
      BookingQueries.getBookingById db id = Some booking ->
      Booking.userId booking <> Some (User.id u) ->
      BookingController.cancelBooking pg now db (Some u) id
      = (db, BookingController.access_denied))
  /\ (forall booking,
      Database.takes_uuid pg id = true ->
      BookingQueries.getBookingById db id = Some booking ->
      Booking.userId booking = Some (User.id u) ->
      BookingController.cancelBooking pg now db (Some u) id
      = (fst (BookingService.cancelBooking now db id),
         Response.mk 200 true "Booking cancelled successfully" None)).
Proof.
  intros Hrole. unfold BookingController.cancelBooking, BookingController.is_customer,
    Guarded.getBookingById, BookingQueries.getBookingById.
  rewrite Hrole. cbn [role_eqb].
  split; [intros ->; reflexivity|].
  split; [intros -> ->; reflexivity|]. split.
  - intros booking -> -> Hown. unfold BookingController.not_owner.
    destruct (Booking.userId booking) as [o|]; [|reflexivity].
    destruct (String.eqb_spec o (User.id u)); [congruence|reflexivity].
  - intros booking Htakes Hfound Hown. rewrite Htakes, Hfound.
    unfold BookingController.not_owner. rewrite Hown, String.eqb_refl.
    cbn [negb]. unfold BookingController.do_cancel, Guarded.cancelBooking.
    rewrite Htakes.
    destruct (found_by_id db id booking Hfound) as [b [Hin [Hid _]]].
    pose proof (cancel_returns now db id b Hin Hid) as Hok.
    unfold BookingService.cancelBooking in *.
    destruct (BookingModel.delete now db id) as [db' r].
    cbn in Hok. subst r. reflexivity.
Qed.

Lemma customer_cancels_only_own_booking_witness :
  User.role Scenario2.dave = customer
  /\ Database.takes_uuid Scenario2.postgres Scenario2.id_a = true
  /\ BookingController.cancelBooking Scenario2.postgres 5000 Scenario2.db_carol
       (Some Scenario2.dave) Scenario2.id_a
     = (Scenario2.db_carol, BookingController.access_denied).
Proof.
  split; [reflexivity|]. split; [reflexivity|].
  apply (customer_cancels_only_own_booking Scenario2.postgres 5000
           Scenario2.db_carol Scenario2.dave Scenario2.id_a)
    with (booking := BookingModel.mapDatabaseBookingToBooking Scenario2.carol_row).
  - reflexivity.
  - reflexivity.
  - reflexivity.
  - discriminate.
Defined.

(** Carol cancels her booking: 200; Dave tries: 403; the id text Z: 500. *)
Example cancel_by_customer :
  map (fun r => Response.status (snd r))
    [BookingController.cancelBooking Scenario2.postgres 5000 Scenario2.db_carol
       (Some Scenario2.carol) Scenario2.id_a;
     BookingController.cancelBooking Scenario2.postgres 5000 Scenario2.db_carol
       (Some Scenario2.dave) Scenario2.id_a;
     BookingController.cancelBooking Scenario2.postgres 5000 Scenario2.db_carol
       (Some Scenario2.dave) "Z"]
  = [200; 403; 500].
Proof. reflexivity. Qed.

(** X18. The lookup handler never shows a customer a booking of another
    owner: when it sends a booking to a customer, the booking carries that
    customer's id; and to admin or staff it sends whatever booking the id
    finds. *)
Theorem customer_sees_only_own_booking (db : Db) (u : User.t) (id : uuid) :
  (User.role u = customer ->
   forall booking,
     Response.data (BookingController.getBookingById db (Some u) id) = Some booking ->
     Booking.userId booking = Some (User.id u)
     /\ BookingQueries.getBookingById db id = Some booking)
  /\ (User.role u <> customer ->
      forall booking,
        BookingQueries.getBookingById db id = Some booking ->
        BookingController.getBookingById db (Some u) id
        = Response.mk 200 true "Booking retrieved successfully" (Some booking)).
Proof.
  unfold BookingController.getBookingById, BookingController.is_customer. split.
  - intros Hrole booking. rewrite Hrole. cbn [role_eqb].
    destruct (BookingQueries.getBookingById db id) as [b|]; [|discriminate].
    unfold BookingController.not_owner.
    destruct (Booking.userId b) as [o|] eqn:Ho; [|discriminate].
    destruct (String.eqb_spec o (User.id u)); cbn; [|discriminate].
    intros H. injection H as <-. split; congruence.
  - intros Hrole booking ->.
    destruct (User.role u); [contradiction| |]; reflexivity.
Qed.

Lemma customer_sees_only_own_booking_witness :
  User.role Scenario2.alice = customer
  /\ Booking.userId
       (BookingModel.mapDatabaseBookingToBooking
          (BookingModel.inserted_row (Scenario.draws "A")
             Scenario.lock_installation_svc (Scenario.request "10:00")
             (Some "user-7")))
     = Some (User.id Scenario2.alice)
  /\ BookingQueries.getBookingById Scenario2.db_alice "A"
     = Some
         (BookingModel.mapDatabaseBookingToBooking
            (BookingModel.inserted_row (Scenario.draws "A")
               Scenario.lock_installation_svc (Scenario.request "10:00")
               (Some "user-7"))).
Proof.
  split; [reflexivity|].
  apply (customer_sees_only_own_booking Scenario2.db_alice Scenario2.alice "A").
  - reflexivity.
  - reflexivity.
Defined.

(** Bob asks for Alice's booking: 403; Sam, staff, gets it. *)
Example lookup_by_role :
  Response.status
    (BookingController.getBookingById Scenario2.db_alice (Some Scenario2.bob) "A")
  = 403
  /\ Response.status
       (BookingController.getBookingById Scenario2.db_alice (Some Scenario2.sam) "A")
     = 200.
Proof. split; reflexivity. Qed.

(** X19. The staff routes do nothing for anyone else: the update, confirm,
    start, complete and assign handlers answer a request without a user with
    401 'Authentication required' and a request from a customer with 403
    'Insufficient permissions', and leave the store untouched. *)
Theorem staff_routes_refuse_others
  (pg : Database.t) (now0 now1 : timestamp) (db : Db) (user : option User.t)
  (id : uuid) (updates : UpdateBookingRequest.t) (actualCost : option money)
  (notes technician : option string) :
  (forall u, user = Some u -> User.role u = customer) ->
  let refusal :=
    match user with
    | None => Response.mk 401 false "Authentication required" None
    | Some _ => Response.mk 403 false "Insufficient permissions" None
    end in
  BookingController.updateBooking now0 now1 db user id updates = (db, refusal)
  /\ BookingController.confirmBooking now0 now1 db user id = (db, refusal)
  /\ BookingController.startBooking now0 now1 db user id = (db, refusal)
  /\ BookingController.completeBooking pg now0 now1 db user id actualCost notes
     = (db, refusal)
  /\ BookingController.assignTechnician now0 now1 db user id technician
     = (db, refusal).
Proof.
  intros Huser.
  unfold BookingController.updateBooking, BookingController.confirmBooking,
    BookingController.startBooking, BookingController.completeBooking,
    BookingController.assignTechnician, BookingController.staff_only,
    BookingController.requireRole.
  destruct user as [u|].
  - rewrite (Huser u eq_refl). cbn. repeat split.
  - cbn. repeat split.
Qed.

Lemma staff_routes_refuse_others_witness :
  BookingController.updateBooking 2000 2001 Scenario2.db_alice
    (Some Scenario2.alice) "A" (UpdateBookingRequest.only_status completed)
  = (Scenario2.db_alice, Response.mk 403 false "Insufficient permissions" None)
  /\ BookingController.confirmBooking 2000 2001 Scenario2.db_alice
       (Some Scenario2.alice) "A"
     = (Scenario2.db_alice, Response.mk 403 false "Insufficient permissions" None)
  /\ BookingController.startBooking 2000 2001 Scenario2.db_alice
       (Some Scenario2.alice) "A"
     = (Scenario2.db_alice, Response.mk 403 false "Insufficient permissions" None)
  /\ BookingController.completeBooking Scenario2.postgres 2000 2001
       Scenario2.db_alice (Some Scenario2.alice) "A" (Some 100) None
     = (Scenario2.db_alice, Response.mk 403 false "Insufficient permissions" None)
  /\ BookingController.assignTechnician 2000 2001 Scenario2.db_alice
       (Some Scenario2.alice) "A" (Some "Mike")
     = (Scenario2.db_alice, Response.mk 403 false "Insufficient permissions" None).
Proof.
  apply (staff_routes_refuse_others Scenario2.postgres 2000 2001 Scenario2.db_alice
           (Some Scenario2.alice) "A" (UpdateBookingRequest.only_status completed)
           (Some 100) None (Some "Mike")).
  intros u H. injection H as <-. reflexivity.
Defined.

(** Without a user the answer is 401. *)
Example confirm_without_user :
  BookingController.confirmBooking 2000 2001 Scenario2.db_alice None "A"
  = (Scenario2.db_alice, Response.mk 401 false "Authentication required" None).
Proof. reflexivity. Qed.

Lemma staff_passes (db : Db) (u : User.t) (handler : Db * Response.t) :
  User.role u <> customer ->
  BookingController.staff_only db (Some u) handler = handler.
Proof.
  intros H. unfold BookingController.staff_only, BookingController.requireRole.
  destruct (User.role u); [contradiction| |]; reflexivity.
Qed.

(** X20. Completing a booking records the money: for admin or staff, the id
    of a stored booking and an update the database takes (an id it takes as a
    uuid, an actual cost that fits [decimal(10,2)], notes it takes), the
    complete handler answers 200 with a completed booking of that actual cost;
    every row with the id then has status completed, [completed_at] at the
    current time and that actual cost, which is what the row counts for in
    the revenue.  For an actual cost of 100000000.00 or more in absolute
    value the answer is 500 'Failed to update booking' and the store is
    untouched. *)
Theorem completeBooking_records_actual_cost
  (pg : Database.t) (now0 now1 : timestamp) (db : Db) (u : User.t) (id : uuid)
  (cost : money) (notes : option string) (b0 : DbBooking.t) :
  User.role u <> customer ->
  In b0 (bookings db) ->
  DbBooking.id b0 = id ->
  (Database.takes_uuid pg id = true ->
   Z.abs cost < 10 ^ 10 ->
   Database.takes_key (JS.truthy_string notes) (Database.takes_text pg) = true ->
   exists db' booking after,
     BookingController.completeBooking pg now0 now1 db (Some u) id (Some cost) notes
     = (db', Response.mk 200 true "Booking completed successfully" (Some booking))
     /\ Booking.id booking = id
     /\ Booking.status booking = completed
     /\ Booking.actualCost booking = Some cost
     /\ bookings db'
        = map (fun row => if String.eqb (DbBooking.id row) id then after row else row)
            (bookings db)
     /\ forall row,
         DbBooking.status (after row) = completed
         /\ DbBooking.completed_at (after row) = Some now1
         /\ DbBooking.actual_cost (after row) = Some cost
         /\ Reference.contribution (after row) = cost)
  /\ (10 ^ 10 <= Z.abs cost ->
      BookingController.completeBooking pg now0 now1 db (Some u) id (Some cost) notes
      = (db, Response.mk 500 false "Failed to update booking" None)).
Proof.
  intros Hrole Hin Hid. unfold BookingController.completeBooking.
  rewrite staff_passes by assumption.
  set (updates := UpdateBookingRequest.mk (Some completed) None None None None
                    None None (Some cost) None notes).
  unfold Guarded.updateBooking.
  assert (Htakes : Database.takes_update pg id
                     (BookingModel.updateData now0 now1 updates)
                   = Database.takes_uuid pg id
                     && (Z.abs cost <? 10 ^ 10)
                     && Database.takes_key (JS.truthy_string notes)
                          (Database.takes_text pg)).
  { unfold Database.takes_update, Database.takes_decimal. cbn.
    now rewrite !andb_true_r. }
  rewrite Htakes. split.
  - intros Hu Hc Hn. rewrite Hu, Hn. apply Z.ltb_lt in Hc. rewrite Hc. cbn [andb].
    destruct (update_returns now0 now1 db id updates b0 Hin Hid)
      as [b1 [_ [Hid1 Hret]]].
    pose proof (update_bookings now0 now1 db id updates) as Hdb.
    destruct (BookingModel.update now0 now1 db id updates) as [db' r].
    cbn [fst snd] in Hret, Hdb. subst r db'.
    unfold BookingController.send_booking.
    eexists. eexists. eexists. split; [reflexivity|].
    split; [exact Hid1|]. split; [reflexivity|]. split; [reflexivity|].
    split; [reflexivity|]. intros row. repeat split.
  - intros Hc. destruct (Z.ltb_spec (Z.abs cost) (10 ^ 10)); [lia|].
    rewrite andb_false_r. reflexivity.
Qed.

Lemma completeBooking_records_actual_cost_witness :
  User.role Scenario2.sam <> customer
  /\ Database.takes_uuid Scenario2.postgres Scenario2.id_a = true
  /\ Z.abs 18000 < 10 ^ 10
  /\ exists db' booking after,
    BookingController.completeBooking Scenario2.postgres 2000 2001
      Scenario2.db_carol (Some Scenario2.sam) Scenario2.id_a (Some 18000)
      (Some "rekeyed two locks")
    = (db', Response.mk 200 true "Booking completed successfully" (Some booking))
    /\ Booking.id booking = Scenario2.id_a
    /\ Booking.status booking = completed
    /\ Booking.actualCost booking = Some 18000
    /\ bookings db'
       = map (fun row =>
                if String.eqb (DbBooking.id row) Scenario2.id_a then after row
                else row)
           (bookings Scenario2.db_carol)
    /\ forall row,
        DbBooking.status (after row) = completed
        /\ DbBooking.completed_at (after row) = Some 2001
        /\ DbBooking.actual_cost (after row) = Some 18000
        /\ Reference.contribution (after row) = 18000.
Proof.
  split; [discriminate|]. split; [reflexivity|]. split; [reflexivity|].
  apply (completeBooking_records_actual_cost Scenario2.postgres 2000 2001
           Scenario2.db_carol Scenario2.sam Scenario2.id_a 18000
           (Some "rekeyed two locks") Scenario2.carol_row).
  - discriminate.
  - left. reflexivity.
  - reflexivity.
  - reflexivity.
  - reflexivity.
  - reflexivity.
Defined.

(** An actual cost of 100000000.00: 500, and the booking stays pending. *)
Example complete_beyond_decimal :
  BookingController.completeBooking Scenario2.postgres 2000 2001 Scenario2.db_carol
    (Some Scenario2.sam) Scenario2.id_a (Some 10000000000) None
  = (Scenario2.db_carol, Response.mk 500 false "Failed to update booking" None)
  /\ map DbBooking.status (bookings Scenario2.db_carol) = [pending].
Proof. split; reflexivity. Qed.



(** ** Soft-deleted services *)

Lemma find_none_map {A : Type} (p : A -> bool) (g : A -> A) (l : list A) :
  (forall x, In x l -> p (g x) = false) -> find p (map g l) = None.
Proof.
  induction l as [|x l IH]; intros H; cbn; [reflexivity|].
  rewrite (H x (or_introl eq_refl)). apply IH. intros y Hy. apply H. now right.
Qed.

(** X22. A soft-deleted service can no longer be booked: when a stored
    service is deleted and no other service bears its name, the delete
    succeeds and keeps every booking, and from then on the availability query
    for that name fails with 'Service not available' (404) and every
    [createBooking] for that name fails the same way and stores nothing. *)
Theorem deleted_service_is_not_bookable (db : Db) (id : uuid) (s : DbService.t) :
  In s (services db) ->
  DbService.id s = id ->
  (forall s', In s' (services db) ->
              DbService.name s' = DbService.name s -> DbService.id s' = id) ->
  snd (ServiceModel.delete db id) = Ok tt
  /\ bookings (fst (ServiceModel.delete db id)) = bookings db
  /\ (forall d,
      BookingService.getAvailableSlots (fst (ServiceModel.delete db id))
        (DbService.name s) d
      = Throw ServiceNotAvailable)
  /\ (forall defaults bookingData userId,
      CreateBookingRequest.service bookingData = DbService.name s ->
      BookingService.createBooking defaults (fst (ServiceModel.delete db id))
        bookingData userId
      = (fst (ServiceModel.delete db id), Throw ServiceNotAvailable)).
Proof.
  intros Hin Hid Honly.
  assert (Hdb : fst (ServiceModel.delete db id)
                = mkDb (map (fun s0 => if String.eqb (DbService.id s0) id
                                       then ServiceModel.deactivate s0 else s0)
                          (services db))
                       (bookings db)).
  { unfold ServiceModel.delete. now destruct (filter _ (services db)). }
  assert (Hnone : BookingModel.bookable_service (fst (ServiceModel.delete db id))
                    (DbService.name s) = None).
  { rewrite Hdb. unfold BookingModel.bookable_service. cbn [services].
    apply find_none_map. intros x Hx.
    destruct (String.eqb_spec (DbService.name x) (DbService.name s)) as [Hn|Hn].
    - rewrite (Honly x Hx Hn), String.eqb_refl. cbn. now rewrite andb_false_r.
    - destruct (String.eqb (DbService.id x) id); cbn;
        destruct (String.eqb_spec (DbService.name x) (DbService.name s));
        try contradiction; reflexivity. }
  assert (Hav : forall d,
             BookingModel.getAvailableSlots (fst (ServiceModel.delete db id))
               (DbService.name s) d = Throw ServiceNotAvailable).
  { intros d. unfold BookingModel.getAvailableSlots. now rewrite Hnone. }
  split; [|split; [now rewrite Hdb|split; [exact Hav|]]].
  - unfold ServiceModel.delete.
    destruct (filter _ (services db)) as [|x rest] eqn:Hf; [|reflexivity].
    exfalso.
    assert (Hs : In s (filter (fun s0 => String.eqb (DbService.id s0) id)
                         (services db))).
    { apply filter_In. split; [assumption|]. rewrite Hid. apply String.eqb_refl. }
    rewrite Hf in Hs. contradiction.
  - intros defaults bookingData userId Hname.
    unfold BookingService.createBooking, BookingService.checkRequestedSlot.
    now rewrite Hname, Hav.
Qed.

Lemma deleted_service_is_not_bookable_witness :
  In Scenario.lock_installation_svc (services Scenario.db_A)
  /\ snd (ServiceModel.delete Scenario.db_A "svc-1") = Ok tt
  /\ bookings (fst (ServiceModel.delete Scenario.db_A "svc-1"))
     = bookings Scenario.db_A
  /\ (forall d,
      BookingService.getAvailableSlots (fst (ServiceModel.delete Scenario.db_A "svc-1"))
        (DbService.name Scenario.lock_installation_svc) d
      = Throw ServiceNotAvailable)
  /\ (forall defaults bookingData userId,
      CreateBookingRequest.service bookingData
      = DbService.name Scenario.lock_installation_svc ->
      BookingService.createBooking defaults
        (fst (ServiceModel.delete Scenario.db_A "svc-1")) bookingData userId
      = (fst (ServiceModel.delete Scenario.db_A "svc-1"), Throw ServiceNotAvailable)).
Proof.
  split; [left; reflexivity|].
  apply (deleted_service_is_not_bookable Scenario.db_A "svc-1"
           Scenario.lock_installation_svc).
  - left. reflexivity.
  - reflexivity.
  - intros s' [<-|[]] _. reflexivity.
Defined.

(** ** The text of an hour *)

Lemma small_nat_cases (P : nat -> Prop) :
  (forall n, (n < 100)%nat -> P n) <->
  Forall P (seq 0 100).
Proof.
  rewrite Forall_forall. split.
  - intros H n Hn. apply in_seq in Hn. apply H. lia.
  - intros H n Hn. apply H. apply in_seq. lia.
Qed.

(** X23. Printing and reading an hour: for every hour from 0 to 99, the time
    text that the grid loop builds, the hour padded to two digits followed by
    ":00", is five characters long and is read back by the conflict test as
    that same hour. *)
Theorem hour_text_round_trip (h : Z) :
  0 <= h < 100 ->
  String.length (JS.padStart 2 "0" (JS.toString h) ++ ":00") = 5%nat
  /\ BookingModel.hour_of (JS.padStart 2 "0" (JS.toString h) ++ ":00") = JS.of_int h.
Proof.
  intros Hh. replace h with (Z.of_nat (Z.to_nat h)) by lia.
  assert (Hn : (Z.to_nat h < 100)%nat) by lia.
  revert Hn. generalize (Z.to_nat h). clear h Hh.
  apply small_nat_cases. repeat (constructor; [split; reflexivity|]).
  constructor.
Qed.

Lemma hour_text_round_trip_witness :
  0 <= 7 < 100
  /\ String.length (JS.padStart 2 "0" (JS.toString 7) ++ ":00") = 5%nat
  /\ BookingModel.hour_of (JS.padStart 2 "0" (JS.toString 7) ++ ":00") = JS.of_int 7.
Proof.
  split; [lia|]. apply (hour_text_round_trip 7). lia.
Defined.

(** ** One-hour services *)

Lemma overlap_one_hour (S B : Z) : Reference.overlap S 60 B 60 <-> S = B.
Proof.
  unfold Reference.overlap, Qlt. cbn. split; [intros [H1 H2]|intros ->; split]; lia.
Qed.

(** X24. For a service of 60 minutes whose stored bookings of the date all
    last 60 minutes, the grid reads hour by hour: the call returns the slots
    09:00 to 16:00, a slot is unavailable if and only if a booking of that
    service and date, neither cancelled nor no_show, starts in the hour of
    the slot, and so the slot of every hour from 9 to 16 in which such a
    booking starts is in the list, marked unavailable. *)
Theorem one_hour_service_blocks_own_hour
  (db : Db) (service : string) (d : date) (serviceData : DbService.t) :
  BookingModel.bookable_service db service = Some serviceData ->
  DbService.estimated_duration serviceData = 60 ->
  (forall b, In b (bookings db) ->
             DbBooking.service b = service -> DbBooking.booking_date b = d ->
             DbBooking.duration b = 60) ->
  exists slots,
    BookingModel.getAvailableSlots db service d = Ok slots
    /\ map time slots = Reference.grid_times
    /\ (forall slot, In slot slots ->
        (available slot = false
         <-> exists b,
             In b (bookings db)
             /\ DbBooking.service b = service
             /\ DbBooking.booking_date b = d
             /\ ~ Reference.inactive (DbBooking.status b)
             /\ BookingModel.hour_of (DbBooking.booking_time b)
                = BookingModel.hour_of (time slot)))
    /\ (forall b S,
        In b (bookings db) ->
        DbBooking.service b = service ->
        DbBooking.booking_date b = d ->
        ~ Reference.inactive (DbBooking.status b) ->
        BookingModel.hour_of (DbBooking.booking_time b) = JS.of_int S ->
        9 <= S <= 16 ->
        In (mkSlot (JS.padStart 2 "0" (JS.toString S) ++ ":00") false) slots).
Proof.
  intros Hsvc HD HDb. eexists. split; [apply (getAvailableSlots_eq _ _ _ _ Hsvc)|].
  split; [reflexivity|]. split.
  - intros slot Hin. apply in_map_iff in Hin. destruct Hin as [t [<- Ht]].
    destruct (grid_time_hour t Ht) as [S [HS _]].
    rewrite (mark_slot_unavailable db service d _ S t HS), HD.
    cbn [BookingModel.mark_slot time]. rewrite HS. split.
    + intros [b [B [Hb [Hs [Hd [Hact [HB Hov]]]]]]]. exists b.
      rewrite (HDb b Hb Hs Hd) in Hov. apply overlap_one_hour in Hov. subst B.
      auto 6.
    + intros [b [Hb [Hs [Hd [Hact HB]]]]]. exists b, S.
      rewrite (HDb b Hb Hs Hd). repeat split; auto.
      all: apply overlap_one_hour; reflexivity.
  - intros b S Hb Hs Hd Hact HB HS.
    assert (Hh : BookingModel.hour_of (JS.padStart 2 "0" (JS.toString S) ++ ":00")
                 = JS.of_int S)
      by (apply (hour_of_two_digits S "00"); lia).
    apply in_marked_slots. split.
    + assert (Hc : S = 9 \/ S = 10 \/ S = 11 \/ S = 12 \/ S = 13 \/ S = 14
                   \/ S = 15 \/ S = 16) by lia.
      repeat (destruct Hc as [->|Hc]; [cbn; tauto|]). subst S. cbn. tauto.
    + apply (mark_slot_unavailable db service d _ S _ Hh).
      exists b, S. rewrite HD, (HDb b Hb Hs Hd).
      repeat split; auto. all: apply overlap_one_hour; reflexivity.
Qed.

Lemma one_hour_service_blocks_own_hour_witness :
  BookingModel.bookable_service Scenario2.repair_db "Lock Repair"
  = Some Scenario2.repair_svc
  /\ exists slots,
    BookingModel.getAvailableSlots Scenario2.repair_db "Lock Repair" Scenario.day
    = Ok slots
    /\ map time slots = Reference.grid_times
    /\ (forall slot, In slot slots ->
        (available slot = false
         <-> exists b,
             In b (bookings Scenario2.repair_db)
             /\ DbBooking.service b = "Lock Repair"
             /\ DbBooking.booking_date b = Scenario.day
             /\ ~ Reference.inactive (DbBooking.status b)
             /\ BookingModel.hour_of (DbBooking.booking_time b)
                = BookingModel.hour_of (time slot)))
    /\ (forall b S,
        In b (bookings Scenario2.repair_db) ->
        DbBooking.service b = "Lock Repair" ->
        DbBooking.booking_date b = Scenario.day ->
        ~ Reference.inactive (DbBooking.status b) ->
        BookingModel.hour_of (DbBooking.booking_time b) = JS.of_int S ->
        9 <= S <= 16 ->
        In (mkSlot (JS.padStart 2 "0" (JS.toString S) ++ ":00") false) slots).
Proof.
  split; [reflexivity|].
  apply (one_hour_service_blocks_own_hour Scenario2.repair_db "Lock Repair"
           Scenario.day Scenario2.repair_svc).
  - reflexivity.
  - reflexivity.
  - intros b [<-|[]] _ _. reflexivity.
Defined.

(** The one booking at 14:00 takes the 14:00 slot and no other. *)
Example repair_day :
  BookingModel.getAvailableSlots Scenario2.repair_db "Lock Repair" Scenario.day
  = Ok [mkSlot "09:00" true; mkSlot "10:00" true; mkSlot "11:00" true;
        mkSlot "12:00" true; mkSlot "13:00" true; mkSlot "14:00" false;
        mkSlot "15:00" true; mkSlot "16:00" true].
Proof. reflexivity. Qed.

(** ** Bookings of a customer *)

(** X25. [getCustomerBookings] lists exactly the stored bookings whose
    customer email is the given text, character for character, cancelled and
    no_show bookings included, one entry per row. *)
Theorem customer_listing_is_exact (db : Db) (customerEmail : string) :
  (forall r,
      In r (BookingQueries.getCustomerBookings db customerEmail)
      <-> exists b, In b (bookings db)
                    /\ DbBooking.customer_email b = customerEmail
                    /\ r = BookingModel.mapDatabaseBookingToBooking b)
  /\ List.length (BookingQueries.getCustomerBookings db customerEmail)
     = List.length
         (filter (fun b => String.eqb (DbBooking.customer_email b) customerEmail)
            (bookings db)).
Proof.
  unfold BookingQueries.getCustomerBookings. split.
  - intros r. rewrite in_map_iff. split.
    + intros [b [<- Hb]]. apply in_order_by_iff, filter_In in Hb.
      destruct Hb as [Hin He]. apply String.eqb_eq in He. eauto.
    + intros [b [Hin [He ->]]]. exists b. split; [reflexivity|].
      apply in_order_by_iff, filter_In. split; [assumption|].
      rewrite He. apply String.eqb_refl.
  - now rewrite length_map, order_by_length.
Qed.
